(** * Point-in-time alignment of macro indicators: a shallow embedding

    The development follows the Python scripts of the repository:
    [cpi_inflation_hourly.py], [ppi_inflation_hourly.py], [nfp_hourly.py],
    [fomc_rate_hourly.py], [GDP_Data.py] and [news_data.py].

    - Instants are integers: seconds on the proleptic Gregorian ordinal
      scale, in UTC.  One hour ([pd.Timedelta(hours=1)]) is 3600.
    - A float column is a [list (option V)]: [None] is NaN.  Indicator
      values that reach the aligners have been through [dropna()], so they
      inhabit a NaN-free type [V].
    - A Python call either returns, raises, or (for the [while] loops, which
      are run on fuel) does not finish on the fuel it was given. *)

From Stdlib Require Import String ZArith QArith List Bool Lia Sorted Permutation.
Import ListNotations.
Open Scope Z_scope.

(** ** Outcomes *)

Inductive exn : Type := ValueError | IndexError | OverflowError.

Inductive outcome (A : Type) : Type :=
| Ret (a : A)
| Raise (e : exn)
| OutOfFuel.

Arguments Ret {A} a.
Arguments Raise {A} e.
Arguments OutOfFuel {A}.

Definition bind {A B : Type} (c : outcome A) (k : A -> outcome B) : outcome B :=
  match c with
  | Ret a => k a
  | Raise e => Raise e
  | OutOfFuel => OutOfFuel
  end.

Notation "x <- c ;; k" := (bind c (fun x => k))
  (at level 61, c at next level, right associativity).

(** [for item in items: out.append(body(item))] *)
Fixpoint for_each {A B : Type} (body : A -> outcome B) (items : list A)
  : outcome (list B) :=
  match items with
  | [] => Ret []
  | item :: rest =>
      y <- body item ;;
      ys <- for_each body rest ;;
      Ret (y :: ys)
  end.

(** [l[i]] for [i >= 0] *)
Definition getitem {A : Type} (l : list A) (i : nat) : outcome A :=
  match nth_error l i with
  | Some x => Ret x
  | None => Raise IndexError
  end.

(** [l[-1]] *)
Definition getitem_last {A : Type} (l : list A) : outcome A :=
  match rev l with
  | x :: _ => Ret x
  | [] => Raise IndexError
  end.

Definition instant : Type := Z.

(** ** The calendar of Python's [datetime] *)

Module Calendar.

Definition MINYEAR : Z := 1.
Definition MAXYEAR : Z := 9999.

Definition DAYS_IN_MONTH : list Z :=
  [-1; 31; 28; 31; 30; 31; 30; 31; 31; 30; 31; 30; 31].

Definition DAYS_BEFORE_MONTH : list Z :=
  [-1; 0; 31; 59; 90; 120; 151; 181; 212; 243; 273; 304; 334].

Definition is_leap (year : Z) : bool :=
  (year mod 4 =? 0) && (negb (year mod 100 =? 0) || (year mod 400 =? 0)).

Definition days_before_year (year : Z) : Z :=
  let y := year - 1 in
  y * 365 + y / 4 - y / 100 + y / 400.

Definition days_in_month (year month : Z) : Z :=
  if (month =? 2) && is_leap year then 29
  else nth (Z.to_nat month) DAYS_IN_MONTH (-1).

Definition days_before_month (year month : Z) : Z :=
  nth (Z.to_nat month) DAYS_BEFORE_MONTH (-1)
  + (if (2 <? month) && is_leap year then 1 else 0).

Definition ymd2ord (year month day : Z) : Z :=
  days_before_year year + days_before_month year month + day.

(** The index entry of a monthly or daily series: a calendar date. *)
Record date : Type := mkdate { year : Z; month : Z; day : Z }.

(** A wall-clock reading in the civil timezone it was built with. *)
Record datetime : Type :=
  mkdatetime { dt_year : Z; dt_month : Z; dt_day : Z; dt_hour : Z; dt_minute : Z }.

Definition valid_ymd (y m d : Z) : bool :=
  (MINYEAR <=? y) && (y <=? MAXYEAR) && (1 <=? m) && (m <=? 12)
  && (1 <=? d) && (d <=? days_in_month y m).

(** [datetime(year, month, day, hour, minute, tzinfo=...)] *)
Definition datetime_new (y m d h mi : Z) : outcome datetime :=
  if valid_ymd y m d && (0 <=? h) && (h <? 24) && (0 <=? mi) && (mi <? 60)
  then Ret (mkdatetime y m d h mi)
  else Raise ValueError.

(** [datetime.combine(date, time(h, mi), tzinfo=...)] *)
Definition datetime_combine (d : date) (h mi : Z) : datetime :=
  mkdatetime (year d) (month d) (day d) h mi.

Definition toordinal (dt : datetime) : Z :=
  ymd2ord (dt_year dt) (dt_month dt) (dt_day dt).

(** Monday is 0, Sunday is 6. *)
Definition weekday (dt : datetime) : Z := (toordinal dt + 6) mod 7.

(** [dt + timedelta(days=1)]: wall-clock arithmetic, the clock reading is
    kept. *)
Definition plus_one_day (dt : datetime) : outcome datetime :=
  let y := dt_year dt in
  let m := dt_month dt in
  let d := dt_day dt in
  if d <? days_in_month y m then Ret (mkdatetime y m (d + 1) (dt_hour dt) (dt_minute dt))
  else if m <? 12 then Ret (mkdatetime y (m + 1) 1 (dt_hour dt) (dt_minute dt))
  else if y <? MAXYEAR then Ret (mkdatetime (y + 1) 1 1 (dt_hour dt) (dt_minute dt))
  else Raise OverflowError.

(** A civil timezone gives the UTC offset, in seconds, of a wall-clock
    reading ([tzinfo.utcoffset]). *)
Definition tzinfo : Type := datetime -> Z.

(** [dt.astimezone(ZoneInfo("UTC"))], as an instant. *)
Definition astimezone_utc (tz : tzinfo) (dt : datetime) : instant :=
  toordinal dt * 86400 + dt_hour dt * 3600 + dt_minute dt * 60 - tz dt.

(** The instant of a UTC clock reading. *)
Definition utc (y m d h mi : Z) : instant :=
  ymd2ord y m d * 86400 + h * 3600 + mi * 60.

(** Every offset America/New_York has had lies between five and four
    hours west of Greenwich. *)
Definition eastern_range (tz : tzinfo) : Prop :=
  forall dt, -18000 <= tz dt <= -14400.

(** The rule in force since 2007, for readings after 02:00: daylight time
    from the second Sunday of March to the first Sunday of November. *)
Definition sunday_on_or_after (y m d : Z) : Z :=
  let o := ymd2ord y m d in
  o + (6 - (o + 6) mod 7) mod 7.

Definition us_eastern : tzinfo := fun dt =>
  let o := toordinal dt in
  if (sunday_on_or_after (dt_year dt) 3 8 <=? o)
     && (o <? sunday_on_or_after (dt_year dt) 11 1)
  then -14400 else -18000.

(** Chronological order of index dates. *)
Definition date_le (a b : date) : Prop :=
  year a < year b
  \/ (year a = year b /\ (month a < month b
                          \/ (month a = month b /\ day a <= day b))).

(** What a [pd.Timestamp] index entry is: a real calendar date, with room
    for the next period. *)
Definition valid_date (d : date) : Prop :=
  valid_ymd (year d) (month d) (day d) = true /\ year d < MAXYEAR.

End Calendar.
Import Calendar.

(** ** The pandas operations the scripts use *)

Module Pandas.

Section Columns.
Context {A : Type}.

(** [index.dropna()]: [NaT] entries go. *)
Fixpoint dropna (xs : list (option A)) : list A :=
  match xs with
  | [] => []
  | Some x :: rest => x :: dropna rest
  | None :: rest => dropna rest
  end.

(** A fresh float column of a frame on [index]: all NaN. *)
Definition empty_column (index : list instant) : list (option A) :=
  map (fun _ => None) index.

(** [mask = (df.index >= lo) & (df.index < hi); df.loc[mask, col] = v] *)
Fixpoint loc_assign (index : list instant) (lo hi : instant) (v : A)
         (column : list (option A)) : list (option A) :=
  match index, column with
  | t :: index', old :: column' =>
      (if (lo <=? t) && (t <? hi) then Some v else old)
        :: loc_assign index' lo hi v column'
  | _, _ => column
  end.

(** [fillna(method='ffill')]: a NaN takes the last valid value above. *)
Fixpoint ffill_from (prev : option A) (column : list (option A))
  : list (option A) :=
  match column with
  | [] => []
  | Some v :: rest => Some v :: ffill_from (Some v) rest
  | None :: rest => prev :: ffill_from prev rest
  end.

Definition ffill (column : list (option A)) : list (option A) :=
  ffill_from None column.

(** [fillna(method='bfill')]: a NaN takes the next valid value below. *)
Fixpoint bfill (column : list (option A)) : list (option A) :=
  match column with
  | [] => []
  | Some v :: rest => Some v :: bfill rest
  | None :: rest =>
      let rest' := bfill rest in
      hd None rest' :: rest'
  end.

(** [sort_values(...)], as a stable insertion sort under the strict order
    [lt] of the sort keys.  pandas promises no order among equal keys;
    nothing below depends on one. *)
Fixpoint insert_by (lt : A -> A -> bool) (x : A) (l : list A) : list A :=
  match l with
  | [] => [x]
  | y :: l' => if lt y x then y :: insert_by lt x l' else x :: l
  end.

Fixpoint sort_values (lt : A -> A -> bool) (l : list A) : list A :=
  match l with
  | [] => []
  | x :: l' => insert_by lt x (sort_values lt l')
  end.

(** The strict order of rows by an integer sort key. *)
Definition key_lt (key : A -> Z) : A -> A -> bool :=
  fun a b => key a <? key b.

(** The right row [merge_asof(..., direction="backward")] joins to the
    left key [t]: the sweep moves down the sorted right frame while its
    keys are at most [t] and keeps the last row it passed. *)
Fixpoint asof_from (acc : option A) (right : list (instant * A)) (t : instant)
  : option A :=
  match right with
  | [] => acc
  | (k, v) :: rest => if k <=? t then asof_from (Some v) rest t else acc
  end.

Definition merge_asof_backward (left : list instant)
           (right : list (instant * A)) : list (instant * option A) :=
  map (fun t => (t, asof_from None right t)) left.

End Columns.

End Pandas.
Import Pandas.


(** ** Frames the aligners return *)

Record frame (V : Type) : Type :=
  mkframe { index : list instant; column : list (option V) }.

Record cpi_frame (V : Type) : Type :=
  mkcpi_frame { cpi_index : list instant;
                CPI_YoY : list (option V);
                CPI_MoM : list (option V) }.

Arguments mkframe {V} index column.
Arguments index {V} f.
Arguments column {V} f.
Arguments mkcpi_frame {V} cpi_index CPI_YoY CPI_MoM.
Arguments cpi_index {V} c.
Arguments CPI_YoY {V} c.
Arguments CPI_MoM {V} c.

Section Scripts.

Context {V : Type}.

(** [ny_tz = ZoneInfo("America/New_York")] *)
Variable ny_tz : tzinfo.

(** *** Release schedules *)

(** [release_month = month + 1], the year rolling over at 13. *)
Definition next_period (date : date) : Z * Z :=
  let release_month := month date + 1 in
  let release_year := year date in
  if release_month =? 13 then (release_year + 1, 1)
  else (release_year, release_month).

(** [while release_dt_local.weekday() >= 5: release_day += 1; ...] *)
Fixpoint roll_past_weekend (fuel : nat) (release_year release_month release_day : Z)
         (release_dt_local : datetime) : outcome datetime :=
  if 5 <=? weekday release_dt_local then
    match fuel with
    | O => OutOfFuel
    | S fuel' =>
        let release_day := release_day + 1 in
        release_dt_local <- datetime_new release_year release_month release_day 8 30 ;;
        roll_past_weekend fuel' release_year release_month release_day release_dt_local
    end
  else Ret release_dt_local.

(** The wall-clock release of one observation under the fixed-day policy:
    the body of the loops of [get_cpi_release_schedule] (day 10) and
    [get_ppi_release_schedule] (day 14), before the conversion to UTC.
    The constructor refuses a day past 31, which bounds the [while]. *)
Definition fixed_day_release_local (release_day : Z) (date : date)
  : outcome datetime :=
  let '(release_year, release_month) := next_period date in
  release_dt_local <- datetime_new release_year release_month release_day 8 30 ;;
  roll_past_weekend 31 release_year release_month release_day release_dt_local.

Definition fixed_day_release (release_day : Z) (date : date) : outcome instant :=
  release_dt_local <- fixed_day_release_local release_day date ;;
  Ret (astimezone_utc ny_tz release_dt_local).

Definition get_cpi_release_schedule (cpi_series : list (date * V))
  : outcome (list instant) :=
  for_each (fun '(date, value) => fixed_day_release 10 date) cpi_series.

Definition get_ppi_release_schedule (ppi_series : list (date * V))
  : outcome (list instant) :=
  for_each (fun '(date, _) => fixed_day_release 14 date) ppi_series.

(** [while release_dt.weekday() != 4: release_dt += pd.Timedelta(days=1)] *)
Fixpoint advance_to_friday (fuel : nat) (release_dt : datetime) : outcome datetime :=
  if negb (weekday release_dt =? 4) then
    match fuel with
    | O => OutOfFuel
    | S fuel' =>
        release_dt <- plus_one_day release_dt ;;
        advance_to_friday fuel' release_dt
    end
  else Ret release_dt.

(** The body of the loop of [get_nfp_release_schedule], before the
    conversion to UTC.  Weekdays repeat every seven days, which bounds the
    [while]. *)
Definition nfp_release_local (date : date) : outcome datetime :=
  let '(release_year, release_month) := next_period date in
  release_dt <- datetime_new release_year release_month 1 8 30 ;;
  advance_to_friday 7 release_dt.

Definition nfp_release (date : date) : outcome instant :=
  release_dt <- nfp_release_local date ;;
  Ret (astimezone_utc ny_tz release_dt).

Definition get_nfp_release_schedule (nfp_series : list (date * V))
  : outcome (list instant) :=
  for_each (fun '(date, _) => nfp_release date) nfp_series.

(** [rate != prev_rate] on floats that are not NaN. *)
Variable rate_neq : V -> V -> bool.

(** 2:00 PM ET on that date, in UTC. *)
Definition decision_time (date : date) : instant :=
  astimezone_utc ny_tz (datetime_combine date 14 0).

Fixpoint fomc_loop (prev_rate : option V) (items : list (date * V))
  : list (instant * V) :=
  match items with
  | [] => []
  | (date, rate) :: rest =>
      if match prev_rate with
         | None => true
         | Some prev => rate_neq rate prev
         end
      then (decision_time date, rate) :: fomc_loop (Some rate) rest
      else fomc_loop prev_rate rest
  end.

Definition get_fomc_decision_times (rate_series : list (date * V))
  : list (instant * V) :=
  fomc_loop None rate_series.

(** *** Aligners *)

(** The [for i, rel_time in enumerate(release_times)] loop shared by
    [align_ppi_to_hours], [align_nfp_to_hours] and [align_rate_to_hours]:
    [todo] is what is left of [release_times] from position [i] on. *)
Fixpoint fill_intervals (release_times : list instant) (values : list V)
         (hourly_index : list instant) (i : nat) (todo : list instant)
         (column : list (option V)) : outcome (list (option V)) :=
  match todo with
  | [] => Ret column
  | rel_time :: todo' =>
      val <- getitem values i ;;
      next_time <-
        (if Z.of_nat i <? Z.of_nat (List.length release_times) - 1
         then getitem release_times (i + 1)
         else last <- getitem_last hourly_index ;; Ret (last + 3600)) ;;
      fill_intervals release_times values hourly_index (S i) todo'
        (loc_assign hourly_index rel_time next_time val column)
  end.

Definition align_ppi_to_hours (ppi_yoy : list (date * V))
           (hourly_index : list (option instant)) : outcome (frame V) :=
  let hourly_index := dropna hourly_index in
  release_times <- get_ppi_release_schedule ppi_yoy ;;
  let values := map snd ppi_yoy in
  let df := empty_column hourly_index in
  df <- fill_intervals release_times values hourly_index 0 release_times df ;;
  Ret (mkframe hourly_index (ffill df)).

Definition align_nfp_to_hours (nfp_changes : list (date * V))
           (hourly_index : list (option instant)) : outcome (frame V) :=
  let hourly_index := dropna hourly_index in
  release_times <- get_nfp_release_schedule nfp_changes ;;
  let values := map snd nfp_changes in
  let df := empty_column hourly_index in
  df <- fill_intervals release_times values hourly_index 0 release_times df ;;
  Ret (mkframe hourly_index (ffill df)).

(** [rate_changes] is enumerated as pairs; [rate_changes[i+1][0]] is the
    next decision time. *)
Definition align_rate_to_hours (rate_changes : list (instant * V))
           (hourly_index : list (option instant)) : outcome (frame V) :=
  let hourly_index := dropna hourly_index in
  let df := empty_column hourly_index in
  df <- fill_intervals (map fst rate_changes) (map snd rate_changes)
          hourly_index 0 (map fst rate_changes) df ;;
  Ret (mkframe hourly_index (bfill df)).

(** The loop of [align_cpi_to_hours]: two columns under one mask. *)
Fixpoint cpi_fill (release_datetimes : list instant) (cpi_values : list (V * V))
         (hourly_index : list instant) (i : nat) (todo : list instant)
         (yoy mom : list (option V))
  : outcome (list (option V) * list (option V)) :=
  match todo with
  | [] => Ret (yoy, mom)
  | rel_time :: todo' =>
      vals <- getitem cpi_values i ;;
      let '(yoy_val, mom_val) := vals in
      next_rel_time <-
        (if Z.of_nat i <? Z.of_nat (List.length release_datetimes) - 1
         then getitem release_datetimes (i + 1)
         else last <- getitem_last hourly_index ;; Ret (last + 3600)) ;;
      cpi_fill release_datetimes cpi_values hourly_index (S i) todo'
        (loc_assign hourly_index rel_time next_rel_time yoy_val yoy)
        (loc_assign hourly_index rel_time next_rel_time mom_val mom)
  end.

(** [cpi_mom] enters by its values only. *)
Definition align_cpi_to_hours (cpi_yoy : list (date * V)) (cpi_mom : list V)
           (hourly_index : list (option instant)) : outcome (cpi_frame V) :=
  let hourly_index := dropna hourly_index in
  release_datetimes <- get_cpi_release_schedule cpi_yoy ;;
  let cpi_values := combine (map snd cpi_yoy) cpi_mom in
  let yoy := empty_column hourly_index in
  let mom := empty_column hourly_index in
  cols <- cpi_fill release_datetimes cpi_values hourly_index 0 release_datetimes
            yoy mom ;;
  Ret (mkcpi_frame hourly_index (ffill (fst cols)) (ffill (snd cols))).

(** [gdp_release_df.dropna(subset=["Datetime"])] *)
Definition dropna_Datetime (gdp_release_df : list (option instant * V))
  : list (instant * V) :=
  dropna (map (fun '(t, v) => option_map (fun t => (t, v)) t) gdp_release_df).

(** [align_to_hourly] of GDP_Data.py: both inputs are cleaned and sorted,
    joined as-of, then the value column is forward- and back-filled. *)
Definition align_to_hourly (gdp_release_df : list (option instant * V))
           (hourly_index_utc : list (option instant)) : frame V :=
  let timeline := sort_values Z.ltb (dropna hourly_index_utc) in
  let gdp_release_df :=
    sort_values (key_lt fst) (dropna_Datetime gdp_release_df) in
  let out := merge_asof_backward timeline gdp_release_df in
  mkframe (map fst out) (bfill (ffill (map snd out))).

End Scripts.


(** ** The sentiment aggregator of news_data.py

    Scores are floats in the source; here they are rationals, so that a
    mean is the exact quotient.  A field the feed did not carry is [None]
    ([parse_news_feed] stores [None] for it), which a float column holds
    as NaN. *)

Record article : Type :=
  mkarticle { ticker : string;
              time_published : instant;
              url : option string;
              overall_sentiment_score : option Q;
              ticker_relevance_score : option Q;
              ticker_sentiment_score : option Q }.

(** One row of the hourly table.  [None] in a mean column is NaN. *)
Record hourly_row : Type :=
  mkhourly_row { Datetime : instant;
                 row_ticker : string;
                 news_count : Z;
                 overall_sentiment_mean : option Q;
                 ticker_sentiment_mean : option Q;
                 ticker_relevance_mean : option Q }.

(** One row of the resampled frame, before the columns are renamed. *)
Record resampled : Type :=
  mkresampled { r_ticker_sentiment : option Q;
                r_overall_sentiment : option Q;
                r_ticker_relevance : option Q;
                r_url : Z }.

(** [dt.replace(minute=0, second=0, microsecond=0)], and the bin of
    [resample("1H")]. *)
Definition floor_hour (t : instant) : instant := t - t mod 3600.

Definition Qsum (xs : list Q) : Q := fold_right Qplus 0%Q xs.

(** The ["mean"] aggregation: NaN entries are skipped, and a column with
    nothing left has mean NaN. *)
Definition mean (xs : list (option Q)) : option Q :=
  match dropna xs with
  | [] => None
  | ys => Some (Qred (Qsum ys / inject_Z (Z.of_nat (List.length ys))))
  end.

(** The ["count"] aggregation: the entries that are not null. *)
Definition count {A : Type} (xs : list (option A)) : Z :=
  Z.of_nat (List.length (dropna xs)).

(** [pd.date_range(start=lo, end=hi, freq="1H")] *)
Definition date_range_1H (lo hi : instant) : list instant :=
  map (fun k => lo + 3600 * Z.of_nat k) (seq 0 (Z.to_nat ((hi - lo) / 3600 + 1))).

Definition in_bin (h : instant) (a : article) : bool :=
  floor_hour (time_published a) =? h.

Definition agg (rows : list article) : resampled :=
  mkresampled (mean (map ticker_sentiment_score rows))
              (mean (map overall_sentiment_score rows))
              (mean (map ticker_relevance_score rows))
              (count (map url rows)).

(** [.resample("1H").agg({...})] on one group: a row for every hour from
    the first article's bin to the last one's. *)
Definition resample_1H (group : list article) : list (instant * resampled) :=
  match map time_published group with
  | [] => []
  | t :: ts =>
      let first := floor_hour (fold_right Z.min t ts) in
      let last := floor_hour (fold_right Z.max t ts) in
      map (fun h => (h, agg (filter (in_bin h) group))) (date_range_1H first last)
  end.

(** The group keys of [df.groupby("ticker")]: each ticker once, sorted. *)
Definition group_keys (df : list article) : list string :=
  sort_values String.ltb (nodup string_dec (map ticker df)).

Definition get_group (df : list article) (t : string) : list article :=
  filter (fun a => String.eqb (ticker a) t) df.

(** [h_t.reindex(all_hours)] for one hour, then the [fillna(0)] of
    [news_count] and the [ticker] column. *)
Definition reindex_row (h_t : list (instant * resampled)) (t : string)
           (h : instant) : hourly_row :=
  match find (fun r => fst r =? h) h_t with
  | Some (_, r) =>
      mkhourly_row h t (r_url r) (r_overall_sentiment r)
                   (r_ticker_sentiment r) (r_ticker_relevance r)
  | None => mkhourly_row h t 0 None None None
  end.

Definition row_lt (a b : hourly_row) : bool :=
  String.ltb (row_ticker a) (row_ticker b)
  || (String.eqb (row_ticker a) (row_ticker b) && (Datetime a <? Datetime b)).

Definition aggregate_to_hourly (df_articles : list article)
           (start_dt_utc end_dt_utc : instant) : list hourly_row :=
  match df_articles with
  | [] => []
  | _ :: _ =>
      let all_hours :=
        date_range_1H (floor_hour start_dt_utc) (floor_hour end_dt_utc) in
      let tickers := group_keys df_articles in
      let frames :=
        map (fun t =>
               let h_t := resample_1H (get_group df_articles t) in
               map (reindex_row h_t t) all_hours)
            tickers in
      match frames with
      | [] => []
      | _ :: _ => sort_values row_lt (concat frames)
      end
  end.

(** The records of one subject in one hourly bucket. *)
Definition bucket (df : list article) (t : string) (h : instant) : list article :=
  filter (fun a => String.eqb (ticker a) t && in_bin h a) df.

(** ** What the claims speak of *)

(** The wall-clock reading [dt] is the fixed-day release of the
    observation dated [date]: 08:30 on day [target] of the next month,
    moved forward over a weekend to the first weekday and never back. *)
Definition weekend_rolled (target : Z) (date : date) (dt : datetime) : Prop :=
  let first := mkdatetime (dt_year dt) (dt_month dt) target 8 30 in
  (dt_year dt, dt_month dt) = next_period date
  /\ dt_hour dt = 8 /\ dt_minute dt = 30
  /\ target <= dt_day dt
  /\ weekday dt < 5
  /\ (forall d, target <= d < dt_day dt ->
                5 <= weekday (mkdatetime (dt_year dt) (dt_month dt) d 8 30))
  /\ (weekday first < 5 -> dt_day dt = target)
  /\ (weekday first = 5 -> dt_day dt = target + 2 /\ weekday dt = 0)
  /\ (weekday first = 6 -> dt_day dt = target + 1 /\ weekday dt = 0).

(** The wall-clock reading [dt] is 08:30 on the first Friday of the month
    after [date]'s: month M + 1 of the same year for an observation dated
    in month M before December, January of the next year for one dated in
    December. *)
Definition first_friday_of_next_month (date : date) (dt : datetime) : Prop :=
  ((month date < 12 /\ dt_year dt = year date /\ dt_month dt = month date + 1)
   \/ (month date = 12 /\ dt_year dt = year date + 1 /\ dt_month dt = 1))
  /\ dt_hour dt = 8 /\ dt_minute dt = 30
  /\ 1 <= dt_day dt <= 7
  /\ weekday dt = 4
  /\ (forall d, 1 <= d < dt_day dt ->
                weekday (mkdatetime (dt_year dt) (dt_month dt) d 8 30) <> 4).

(** *** As-of lookups *)

Section AsOf.

Context {V : Type}.

(** [e] is an event with the greatest release instant at or before [t]. *)
Definition greatest_at_or_before (events : list (instant * V)) (t : instant)
           (e : instant * V) : Prop :=
  In e events /\ fst e <= t
  /\ forall e', In e' events -> fst e' <= t -> fst e' <= fst e.

(** The slot written for instant [t] holds the value of the event with the
    greatest release instant at or before [t], when there is such an
    event. *)
Definition as_of_slot (events : list (instant * V)) (t : instant)
           (slot : option (option V)) : Prop :=
  (exists e, In e events /\ fst e <= t) ->
  exists e, greatest_at_or_before events t e /\ slot = Some (Some (snd e)).

(** Whatever value the slot for [t] holds came from an event released at
    or before [t]. *)
Definition no_lookahead_slot (events : list (instant * V)) (t : instant)
           (slot : option (option V)) : Prop :=
  forall v, slot = Some (Some v) ->
            exists e, In e events /\ fst e <= t /\ snd e = v.

(** The interval loop without its indexing: each event is written over
    [release, next release), the last one up to [stop]. *)
Fixpoint column_after (events : list (instant * V)) (stop : instant)
         (hourly_index : list instant) (column : list (option V))
  : list (option V) :=
  match events with
  | [] => column
  | (rel, v) :: rest =>
      let next := match rest with
                  | (rel', _) :: _ => rel'
                  | [] => stop
                  end in
      column_after rest stop hourly_index (loc_assign hourly_index rel next v column)
  end.

(** What that loop leaves in the slot of instant [t] that held [old]. *)
Fixpoint interval_value (events : list (instant * V)) (stop : instant)
         (t : instant) (old : option V) : option V :=
  match events with
  | [] => old
  | (rel, v) :: rest =>
      let next := match rest with
                  | (rel', _) :: _ => rel'
                  | [] => stop
                  end in
      interval_value rest stop t (if (rel <=? t) && (t <? next) then Some v else old)
  end.

End AsOf.

(** *** Buckets of the aggregator *)

(** The hourly row that the records [B] of one subject and one hour give. *)
Definition row_of_bucket (t : string) (h : instant) (B : list article) : hourly_row :=
  mkhourly_row h t (count (map url B))
               (mean (map overall_sentiment_score B))
               (mean (map ticker_sentiment_score B))
               (mean (map ticker_relevance_score B)).

(** [m] is the arithmetic mean of the values present in [xs], and is absent
    when none is. *)
Definition mean_of_present (xs : list (option Q)) (m : option Q) : Prop :=
  match m with
  | None => dropna xs = []
  | Some q =>
      dropna xs <> []
      /\ (q == Qsum (dropna xs) / inject_Z (Z.of_nat (List.length (dropna xs))))%Q
  end.

(** Two articles of 2023-01-02, hour 10: one came without a url, the other
    without an overall score. *)
Definition article_without_url : article :=
  mkarticle "AAPL" (utc 2023 1 2 10 15) None (Some (1 # 2)) (Some (9 # 10)) (Some (1 # 4)).

Definition article_complete : article :=
  mkarticle "MSFT" (utc 2023 1 2 10 5) (Some "https://example.org/b"%string)
            (Some (3 # 10)) (Some (1 # 2)) (Some (1 # 10)).

Definition article_without_score : article :=
  mkarticle "MSFT" (utc 2023 1 2 10 40) (Some "https://example.org/a"%string)
            None (Some (4 # 5)) (Some (1 # 5)).

(** *** The spec's example scenario

    Two releases, 2023-02-03T13:30Z worth 10 and 2023-03-03T13:30Z worth
    12 (tenths), and a timeline that starts two days before the first. *)

Definition example_events : list (instant * Z) :=
  [(utc 2023 2 3 13 30, 10); (utc 2023 3 3 13 30, 12)].

Definition example_timeline : list (option instant) :=
  [Some (utc 2023 2 1 0 0); Some (utc 2023 2 3 14 0); Some (utc 2023 4 1 0 0)].

(** The same timeline without its middle hour: no point falls between the
    two releases. *)
Definition sparse_timeline : list (option instant) :=
  [Some (utc 2023 2 1 0 0); Some (utc 2023 4 1 0 0)].

(** A timeline that ends before the first release. *)
Definition early_timeline : list (option instant) :=
  [Some (utc 2023 2 1 0 0); Some (utc 2023 2 1 1 0)].

(** A timeline whose only entry did not parse: it is empty once cleaned. *)
Definition nat_timeline : list (option instant) := [None].

(** Both sequences of the example out of order. *)
Definition unsorted_events : list (instant * Z) :=
  [(utc 2023 3 3 13 30, 12); (utc 2023 2 3 13 30, 10)].

Definition unsorted_timeline : list (option instant) :=
  [Some (utc 2023 4 1 0 0); Some (utc 2023 2 1 0 0); Some (utc 2023 2 3 14 0)].

(** The change-triggered policy in the spec's words: going down the daily
    series, an observation gives an event exactly when it is the first one
    or its rate differs from the rate of the observation just before it;
    the event is stamped 14:00 New York time on that date, in UTC, and
    carries the new rate. *)
Fixpoint change_triggered_spec {V : Type} (ny_tz : tzinfo) (differs : V -> V -> bool)
         (previous : option V) (rate_series : list (date * V)) : list (instant * V) :=
  match rate_series with
  | [] => []
  | (d, rate) :: rest =>
      let emitted :=
        match previous with
        | None => true
        | Some before => differs rate before
        end in
      (if emitted
       then [(astimezone_utc ny_tz (mkdatetime (year d) (month d) (day d) 14 0), rate)]
       else [])
        ++ change_triggered_spec ny_tz differs (Some rate) rest
  end.

(** ** The scripts' entry points, without their file and network I/O *)

Section Mains.

Context {V : Type}.
Variable ny_tz : tzinfo.
Variable rate_neq : V -> V -> bool.

(** The [__main__] block of fomc_rate_hourly.py: the decisions of the
    fetched daily series, aligned to the stock's hourly timestamps. *)
Definition fomc_main (rate_series : list (date * V))
           (hourly_index : list (option instant)) : outcome (frame V) :=
  let decisions := get_fomc_decision_times ny_tz rate_neq rate_series in
  align_rate_to_hours decisions hourly_index.

End Mains.

(** The events a daily rate series stands for: every observation, stamped
    with its decision time. *)
Definition daily_events {V : Type} (ny_tz : tzinfo) (rate_series : list (date * V))
  : list (instant * V) :=
  map (fun row => (decision_time ny_tz (fst row), snd row)) rate_series.

(** ** Transforms of the raw series

    A raw series is a list of rows [(date, value)], the value NaN ([None])
    where the provider had none.  Float arithmetic enters as parameters: an
    operation returns [None] when its result is NaN. *)

(** Chronological order of index dates, strict. *)
Definition date_ltb (a b : date) : bool :=
  (year a <? year b)
  || ((year a =? year b)
      && ((month a <? month b) || ((month a =? month b) && (day a <? day b)))).

Definition date_lt (a b : date) : Prop := date_ltb a b = true.

(** [series.sort_index()] *)
Definition sort_index {W : Type} (series : list (date * W)) : list (date * W) :=
  sort_values (fun a b => date_ltb (fst a) (fst b)) series.

(** [series.shift(periods)]: the values move down, NaN comes in on top. *)
Definition shift {A : Type} (periods : nat) (values : list (option A))
  : list (option A) :=
  firstn (List.length values) (repeat None periods ++ values).

(** A binary float operation on two aligned columns; NaN on either side
    gives NaN. *)
Definition elementwise {A : Type} (op : A -> A -> option A)
           (xs ys : list (option A)) : list (option A) :=
  map (fun p => match fst p, snd p with
                | Some a, Some b => op a b
                | _, _ => None
                end)
      (combine xs ys).

(** [series.pct_change(periods)]: NaN is padded forward first, then
    [data / data.shift(periods) - 1]. *)
Definition pct_change {A : Type} (rel_change : A -> A -> option A) (periods : nat)
           (values : list (option A)) : list (option A) :=
  let data := ffill values in
  elementwise rel_change data (shift periods data).

(** [series.diff()] *)
Definition diff {A : Type} (sub : A -> A -> option A) (values : list (option A))
  : list (option A) :=
  elementwise sub values (shift 1 values).

(** The series on the same index with another value column. *)
Definition with_values {A B : Type} (series : list (date * A)) (values : list B)
  : list (date * B) :=
  combine (map fst series) values.

(** [series.dropna()] *)
Definition series_dropna {A : Type} (series : list (date * option A))
  : list (date * A) :=
  dropna (map (fun row => option_map (fun v => (fst row, v)) (snd row)) series).

Section Transforms.

Context {V : Type}.

(** [a / b - 1] in floats. *)
Variable rel_change : V -> V -> option V.
(** [x * 100] in floats. *)
Variable times100 : V -> V.
(** [a - b] in floats. *)
Variable sub : V -> V -> option V.

Variable ny_tz : tzinfo.

Definition compute_inflation_rates (cpi_series : list (date * option V))
  : list (date * V) * list (date * V) :=
  let cpi_series := sort_index cpi_series in
  let cpi_yoy :=
    with_values cpi_series
      (map (option_map times100) (pct_change rel_change 12 (map snd cpi_series))) in
  let cpi_mom :=
    with_values cpi_series
      (map (option_map times100) (pct_change rel_change 1 (map snd cpi_series))) in
  (series_dropna cpi_yoy, series_dropna cpi_mom).

Definition compute_yoy_inflation (index_series : list (date * option V))
  : list (date * V) :=
  let index_series := sort_index index_series in
  let yoy :=
    with_values index_series
      (map (option_map times100) (pct_change rel_change 12 (map snd index_series))) in
  series_dropna yoy.

Definition compute_monthly_change (series : list (date * option V))
  : list (date * V) :=
  let series := sort_index series in
  let change := with_values series (diff sub (map snd series)) in
  series_dropna change.

(** The [__main__] blocks of the three monthly scripts. *)
Definition cpi_main (cpi_index : list (date * option V))
           (hourly_index : list (option instant)) : outcome (cpi_frame V) :=
  let '(cpi_yoy, cpi_mom) := compute_inflation_rates cpi_index in
  align_cpi_to_hours ny_tz cpi_yoy (map snd cpi_mom) hourly_index.

Definition ppi_main (ppi_index : list (date * option V))
           (hourly_index : list (option instant)) : outcome (frame V) :=
  let ppi_yoy := compute_yoy_inflation ppi_index in
  align_ppi_to_hours ny_tz ppi_yoy hourly_index.

Definition nfp_main (payrolls : list (date * option V))
           (hourly_index : list (option instant)) : outcome (frame V) :=
  let nfp_change := compute_monthly_change payrolls in
  align_nfp_to_hours ny_tz nfp_change hourly_index.

End Transforms.

(** Thirteen month starts, January 2022 to January 2023, and a level for
    each. *)
Definition example_months : list date :=
  [mkdate 2022 1 1; mkdate 2022 2 1; mkdate 2022 3 1; mkdate 2022 4 1;
   mkdate 2022 5 1; mkdate 2022 6 1; mkdate 2022 7 1; mkdate 2022 8 1;
   mkdate 2022 9 1; mkdate 2022 10 1; mkdate 2022 11 1; mkdate 2022 12 1;
   mkdate 2023 1 1].

Definition example_levels : list Z :=
  [100; 101; 103; 104; 106; 107; 109; 110; 112; 113; 115; 116; 120].

(** The change of every value on the one [periods] rows above it. *)
Definition changes {V W : Type} (f : V -> V -> W) (periods : nat) (xs : list V)
  : list W :=
  map (fun p => f (fst p) (snd p)) (combine (skipn periods xs) xs).

(** ** GDP_Data.py: vintages of the growth series

    A row of the observations frame after [pd.to_datetime] and
    [pd.to_numeric] with [errors="coerce"]: a cell that did not parse is
    NaT or NaN ([None]). *)

Record gdp_row (V : Type) : Type :=
  mkgdp_row { gdp_date : option date;
              realtime_start : option date;
              value : option V }.

Arguments mkgdp_row {V} gdp_date realtime_start value.
Arguments gdp_date {V} g.
Arguments realtime_start {V} g.
Arguments value {V} g.

Definition date_eqb (a b : date) : bool :=
  (year a =? year b) && (month a =? month b) && (day a =? day b).

(** The order of a datetime sort key: NaT goes last. *)
Definition nat_last_ltb (a b : option date) : bool :=
  match a, b with
  | Some x, Some y => date_ltb x y
  | Some _, None => true
  | None, _ => false
  end.

(** Equality of keys as [drop_duplicates] sees it: NaT equals NaT. *)
Definition nat_eqb (a b : option date) : bool :=
  match a, b with
  | Some x, Some y => date_eqb x y
  | None, None => true
  | _, _ => false
  end.

(** The row order of [sort_values(["date", "realtime_start"])]. *)
Definition by_date_then_realtime {V : Type} (a b : gdp_row V) : bool :=
  nat_last_ltb (gdp_date a) (gdp_date b)
  || (nat_eqb (gdp_date a) (gdp_date b)
      && nat_last_ltb (realtime_start a) (realtime_start b)).

(** [drop_duplicates(subset=..., keep="first")]: going down the frame, a
    row stays when no row above it has the same key. *)
Fixpoint drop_duplicates_from {A : Type} (same : A -> A -> bool) (seen : list A)
         (rows : list A) : list A :=
  match rows with
  | [] => []
  | r :: rest =>
      if existsb (same r) seen then drop_duplicates_from same seen rest
      else r :: drop_duplicates_from same (r :: seen) rest
  end.

Definition drop_duplicates {A : Type} (same : A -> A -> bool) (rows : list A)
  : list A :=
  drop_duplicates_from same [] rows.

(** What the GDP script can raise before it writes its frame, and how a
    run of it ends. *)
Inductive gdp_exn : Type := KeyError | AssertionError.

Inductive gdp_outcome (A : Type) : Type :=
| Returned (a : A)
| Raised (e : gdp_exn).

Arguments Returned {A} a.
Arguments Raised {A} e.

Section GDP.

Context {V : Type}.
Variable ny_tz : tzinfo.

(** [df.dropna(subset=["date", "realtime_start", "value"])] keeps the rows
    with all three cells. *)
Definition complete (r : gdp_row V) : bool :=
  match gdp_date r, realtime_start r, value r with
  | Some _, Some _, Some _ => true
  | _, _, _ => false
  end.

(** [df.dropna(subset=[...]).sort_values(["date", "realtime_start"])] on
    a frame that has its three columns. *)
Definition clean_observations (df : list (gdp_row V)) : list (gdp_row V) :=
  sort_values by_date_then_realtime (filter complete df).

(** [fetch_gdp_initial_release], from the observations the service sent.
    The frame [pd.DataFrame(data)] of an empty list has no column, and
    [df["date"]] raises [KeyError] on it. *)
Definition fetch_gdp_initial_release (observations : list (gdp_row V))
  : gdp_outcome (list (gdp_row V)) :=
  match observations with
  | [] => Raised KeyError
  | _ :: _ => Returned (clean_observations observations)
  end.

(** [tz_localize(NY).dt.normalize() + pd.Timedelta(hours=8, minutes=30)],
    converted to UTC: midnight New York time, and eight and a half hours
    of elapsed time after it. *)
Definition release_local (realtime_start : date) : instant :=
  astimezone_utc ny_tz (datetime_combine realtime_start 0 0) + (8 * 3600 + 30 * 60).

Definition build_gdp_release_timestamps (gdp_df : list (gdp_row V))
  : list (instant * V) :=
  let gdp_df :=
    dropna (map (fun r => match realtime_start r, value r with
                          | Some d, Some v => Some (release_local d, v)
                          | _, _ => None
                          end) gdp_df) in
  sort_values (key_lt fst) gdp_df.

(** One row per observation date (the line of [__main__] before the
    release stamps are built). *)
Definition keep_initial (gdp_initial : list (gdp_row V)) : list (gdp_row V) :=
  drop_duplicates (fun a b => nat_eqb (gdp_date a) (gdp_date b))
                  (sort_values by_date_then_realtime gdp_initial).

(** The [__main__] block of GDP_Data.py: the fetch may raise, and the
    script asserts [len(gdp_release) > 0] before it reads the stock's
    timeline. *)
Definition gdp_main (observations : list (gdp_row V))
           (stock_Datetime : list (option instant)) : gdp_outcome (frame V) :=
  match fetch_gdp_initial_release observations with
  | Raised e => Raised e
  | Returned gdp_initial =>
      let gdp_initial := keep_initial gdp_initial in
      let gdp_release := build_gdp_release_timestamps gdp_initial in
      if (0 <? List.length gdp_release)%nat then
        let stock_df := sort_values Z.ltb (dropna stock_Datetime) in
        Returned (align_to_hourly (map (fun e => (Some (fst e), snd e)) gdp_release)
                                  (map Some stock_df))
      else Raised AssertionError
  end.

(** The release frame [__main__] builds once the fetch has returned. *)
Definition gdp_release_of (observations : list (gdp_row V)) : list (instant * V) :=
  build_gdp_release_timestamps (keep_initial (clean_observations observations)).

End GDP.

(** The vintage [r] is an initial release among [observations]: it is
    complete, and no complete vintage of the same observation date has an
    earlier [realtime_start]. *)
Definition initial_vintage {V : Type} (observations : list (gdp_row V))
           (r : gdp_row V) : Prop :=
  In r observations
  /\ exists d a v,
      gdp_date r = Some d /\ realtime_start r = Some a /\ value r = Some v
      /\ forall r' a', In r' observations -> complete r' = true ->
                       gdp_date r' = Some d -> realtime_start r' = Some a' ->
                       date_le a a'.

(** Three vintages of 2023-Q1 growth, given out of order, the quarter
    before it, and a row whose value did not parse. *)
Definition example_observations : list (gdp_row Z) :=
  [mkgdp_row (Some (mkdate 2023 1 1)) (Some (mkdate 2023 5 25)) (Some 13);
   mkgdp_row (Some (mkdate 2023 1 1)) (Some (mkdate 2023 4 27)) (Some 11);
   mkgdp_row (Some (mkdate 2022 10 1)) (Some (mkdate 2023 1 26)) (Some 29);
   mkgdp_row (Some (mkdate 2023 1 1)) (Some (mkdate 2023 6 29)) (Some 20);
   mkgdp_row (Some (mkdate 2023 4 1)) (Some (mkdate 2023 7 27)) None].

(** ** The fetch side of news_data.py

    What the service sends is JSON.  An article of the feed is kept as the
    fields the parser reads and the aggregator uses; the text fields that
    are only passed through (title, summary, source, the labels) are left
    out, as they are in [article]. *)

Record ticker_sentiment_entry (json : Type) : Type :=
  mkticker_sentiment_entry { ts_ticker : option string;
                             ts_relevance_score : option json;
                             ts_ticker_sentiment_score : option json }.

Record feed_article (json : Type) : Type :=
  mkfeed_article { f_time_published : option string;
                   f_url : option string;
                   f_overall_sentiment_score : option json;
                   f_ticker_sentiment : list (ticker_sentiment_entry json) }.

(** The response dict: its ["feed"] key may be missing. *)
Record response (json : Type) : Type :=
  mkresponse { feed : option (list (feed_article json)) }.

Arguments mkticker_sentiment_entry {json} ts_ticker ts_relevance_score
  ts_ticker_sentiment_score.
Arguments ts_ticker {json} t.
Arguments ts_relevance_score {json} t.
Arguments ts_ticker_sentiment_score {json} t.
Arguments mkfeed_article {json} f_time_published f_url f_overall_sentiment_score
  f_ticker_sentiment.
Arguments f_time_published {json} f.
Arguments f_url {json} f.
Arguments f_overall_sentiment_score {json} f.
Arguments f_ticker_sentiment {json} f.
Arguments mkresponse {json} feed.
Arguments feed {json} r.

(** The range of [datetime], in seconds. *)
Definition datetime_min : instant := utc 1 1 1 0 0.
Definition datetime_max : instant := utc 9999 12 31 23 59 + 59.

(** [dt + timedelta(days=n)] on an aware UTC datetime: the constructor
    refuses more than 999999999 days, the sum a result out of range. *)
Definition plus_days (dt : instant) (n : Z) : outcome instant :=
  if (-999999999 <=? n) && (n <=? 999999999) then
    let r := dt + n * 86400 in
    if (datetime_min <=? r) && (r <=? datetime_max) then Ret r
    else Raise OverflowError
  else Raise OverflowError.

Section NewsFetch.

(** A JSON scalar. *)
Context {json : Type}.

(** [float(x)]; [Ret None] is a NaN. *)
Variable float : json -> outcome (option Q).

(** [datetime.strptime(s, fmt).replace(tzinfo=timezone.utc)]; [None] when
    it raises. *)
Variable strptime : string -> string -> option instant.

(** [call_news_sentiment(ticker, window_start, window_end)]: what the
    service answers; [None] when the call raises. *)
Variable call_news_sentiment : string -> instant -> instant -> option (response json).

(** The [for fmt in (...)] loop over the two formats. *)
Definition parse_time_published (time_published_str : option string)
  : option instant :=
  match time_published_str with
  | None => None
  | Some EmptyString => None
  | Some s =>
      match strptime s "%Y%m%dT%H%M%S" with
      | Some dt => Some dt
      | None => strptime s "%Y%m%dT%H%M"
      end
  end.

(** [for ts in ticker_sents: if ts.get("ticker") == ticker: ...; break] *)
Definition find_ticker_entry (ticker : string)
           (ticker_sents : list (ticker_sentiment_entry json))
  : option (ticker_sentiment_entry json) :=
  find (fun ts => match ts_ticker ts with
                  | Some t => String.eqb t ticker
                  | None => false
                  end) ticker_sents.

(** [float(x) if x is not None else None] *)
Definition float_or_None (x : option json) : outcome (option Q) :=
  match x with
  | None => Ret None
  | Some j => float j
  end.

Fixpoint parse_feed (feed : list (feed_article json)) (ticker : string)
  : outcome (list article) :=
  match feed with
  | [] => Ret []
  | article :: rest =>
      match parse_time_published (f_time_published article) with
      | None => parse_feed rest ticker
      | Some time_published =>
          match find_ticker_entry ticker (f_ticker_sentiment article) with
          | None => parse_feed rest ticker
          | Some ticker_entry =>
              overall <- float_or_None (f_overall_sentiment_score article) ;;
              relevance <- float_or_None (ts_relevance_score ticker_entry) ;;
              sentiment <- float_or_None (ts_ticker_sentiment_score ticker_entry) ;;
              rows <- parse_feed rest ticker ;;
              Ret (mkarticle ticker time_published (f_url article)
                             overall relevance sentiment :: rows)
          end
      end
  end.

Definition parse_news_feed (data : response json) (ticker : string)
  : outcome (list article) :=
  let feed := match feed data with
              | Some feed => feed
              | None => []
              end in
  parse_feed feed ticker.

(** The [while window_start <= end_dt_utc] loop. *)
Fixpoint fetch_loop (fuel : nat) (ticker : string) (end_dt_utc : instant)
         (window_days : Z) (window_start : instant) (all_rows : list article)
  : outcome (list article) :=
  if window_start <=? end_dt_utc then
    match fuel with
    | O => OutOfFuel
    | S fuel' =>
        limit <- plus_days window_start (window_days - 1) ;;
        let window_end := Z.min limit end_dt_utc in
        match call_news_sentiment ticker window_start window_end with
        | None =>
            window_start <- plus_days window_end 1 ;;
            fetch_loop fuel' ticker end_dt_utc window_days window_start all_rows
        | Some data =>
            rows <- parse_news_feed data ticker ;;
            let all_rows := all_rows ++ rows in
            window_start <- plus_days window_end 1 ;;
            fetch_loop fuel' ticker end_dt_utc window_days window_start all_rows
        end
    end
  else Ret all_rows.

(** [fetch_news_sentiment_for_ticker]: both ends of the period are aware
    UTC datetimes here, so the check on [tzinfo] passes; the sleeps and
    prints are left out.  An empty [all_rows] gives the empty frame, which
    is also what sorting it gives. *)
Definition fetch_news_sentiment_for_ticker (fuel : nat) (ticker : string)
           (start_dt_utc end_dt_utc : instant) (window_days : Z)
  : outcome (list article) :=
  all_rows <- fetch_loop fuel ticker end_dt_utc window_days start_dt_utc [] ;;
  Ret (sort_values (key_lt time_published) all_rows).

(** Frames that came back empty are left out of the [concat], which
    changes nothing in a list of rows. *)
Definition fetch_news_for_tickers (fuel : nat) (tickers : list string)
           (start_dt_utc end_dt_utc : instant) (window_days : Z)
  : outcome (list article) :=
  dfs <- for_each (fun t => fetch_news_sentiment_for_ticker fuel t start_dt_utc
                              end_dt_utc window_days) tickers ;;
  Ret (concat (filter (fun df_t => negb (Nat.eqb (List.length df_t) 0)) dfs)).

(** [main], after the arguments are parsed: the table it saves, [None]
    when it returns early with nothing to save. *)
Definition news_main (fuel : nat) (tickers : list string)
           (start_dt_utc end_dt_utc : instant) (window_days : Z)
  : outcome (option (list hourly_row)) :=
  df_articles <- fetch_news_for_tickers fuel tickers start_dt_utc end_dt_utc
                   window_days ;;
  match df_articles with
  | [] => Ret None
  | _ :: _ =>
      let df_hourly := aggregate_to_hourly df_articles start_dt_utc end_dt_utc in
      match df_hourly with
      | [] => Ret None
      | _ :: _ => Ret (Some df_hourly)
      end
  end.

(** *** The windows of a fetch, in closed form *)

(** Window [j] starts [j * window_days] days after the start and ends
    [window_days - 1] days later, or at the end of the period. *)
Definition news_window (start_dt_utc end_dt_utc : instant) (window_days : Z)
           (j : nat) : instant * instant :=
  let window_start := start_dt_utc + Z.of_nat j * (window_days * 86400) in
  (window_start, Z.min (window_start + (window_days - 1) * 86400) end_dt_utc).

Definition news_windows (start_dt_utc end_dt_utc : instant) (window_days : Z)
  : list (instant * instant) :=
  map (news_window start_dt_utc end_dt_utc window_days)
      (seq 0 (Z.to_nat ((end_dt_utc - start_dt_utc) / (window_days * 86400) + 1))).

(** The rows one window gives: none when the call raised. *)
Definition window_rows (ticker : string) (window : instant * instant)
  : outcome (list article) :=
  match call_news_sentiment ticker (fst window) (snd window) with
  | None => Ret []
  | Some data => parse_news_feed data ticker
  end.

(** The articles of a feed that get a row. *)
Definition kept (ticker : string) (article : feed_article json) : bool :=
  match parse_time_published (f_time_published article),
        find_ticker_entry ticker (f_ticker_sentiment article) with
  | Some _, Some _ => true
  | _, _ => false
  end.

End NewsFetch.

(** The row [r] is the one the parser makes of the feed article [a] for
    the requested ticker: it carries that ticker, the parsed time, the
    article's url and overall score, and the scores of the first entry of
    the article's ticker list that names the ticker. *)
Definition is_row_of {json : Type} (float : json -> outcome (option Q))
           (strptime : string -> string -> option instant) (requested : string)
           (a : feed_article json) (r : article) : Prop :=
  ticker r = requested
  /\ parse_time_published strptime (f_time_published a) = Some (time_published r)
  /\ url r = f_url a
  /\ float_or_None float (f_overall_sentiment_score a) = Ret (overall_sentiment_score r)
  /\ exists entry,
      find_ticker_entry requested (f_ticker_sentiment a) = Some entry
      /\ float_or_None float (ts_relevance_score entry) = Ret (ticker_relevance_score r)
      /\ float_or_None float (ts_ticker_sentiment_score entry)
         = Ret (ticker_sentiment_score r).

(** The articles of a response. *)
Definition feed_of {json : Type} (data : response json) : list (feed_article json) :=
  match feed data with
  | Some feed => feed
  | None => []
  end.

(** The articles the hourly table counts: those that came with a url and
    were published from the hour of the start to the end of the hour of
    the end. *)
Definition counted (start_dt_utc end_dt_utc : instant) (a : article) : bool :=
  match url a with
  | Some _ => true
  | None => false
  end
  && (floor_hour start_dt_utc <=? time_published a)
  && (time_published a <? floor_hour end_dt_utc + 3600).

Definition Zsum (xs : list Z) : Z := fold_right Z.add 0 xs.

(** One for [true], nothing for [false]. *)
Definition ind (b : bool) : Z := if b then 1 else 0.

(** What a row of the hourly table is a row for: its ticker and hour. *)
Definition row_key (row : hourly_row) : string * instant :=
  (row_ticker row, Datetime row).

(** The sum of the [news_count] column. *)
Definition total_news_count (table : list hourly_row) : Z :=
  Zsum (map news_count table).

(** * Proofs *)

Ltac zdiv := Z.to_euclidean_division_equations; lia.

(** ** Outcomes and loops *)

Lemma for_each_Ret {A B : Type} (body : A -> outcome B) (f : A -> B) (items : list A) :
  (forall x, In x items -> body x = Ret (f x)) ->
  for_each body items = Ret (map f items).
Proof.
  induction items as [|x items IH]; intros H; simpl.
  - reflexivity.
  - rewrite (H x (or_introl eq_refl)). simpl.
    rewrite IH by (intros y Hy; apply H; right; exact Hy).
    reflexivity.
Qed.

(** ** Calendar arithmetic *)

Lemma month_cases (m : Z) :
  1 <= m <= 12 ->
  m = 1 \/ m = 2 \/ m = 3 \/ m = 4 \/ m = 5 \/ m = 6 \/ m = 7 \/ m = 8
  \/ m = 9 \/ m = 10 \/ m = 11 \/ m = 12.
Proof. lia. Qed.

Lemma days_in_month_ge_28 (y m : Z) : 1 <= m <= 12 -> 28 <= days_in_month y m <= 31.
Proof.
  intros Hm. unfold days_in_month.
  destruct (month_cases m Hm) as [H|[H|[H|[H|[H|[H|[H|[H|[H|[H|[H|H]]]]]]]]]]];
    subst m; destruct (is_leap y); simpl; lia.
Qed.

Lemma weekday_range (dt : datetime) : 0 <= weekday dt < 7.
Proof. unfold weekday. apply Z.mod_pos_bound. lia. Qed.

Lemma weekday_shift (y m d k h mi h' mi' : Z) :
  weekday (mkdatetime y m (d + k) h mi)
  = (weekday (mkdatetime y m d h' mi') + k) mod 7.
Proof.
  unfold weekday, toordinal, ymd2ord. simpl.
  rewrite Zplus_mod_idemp_l. f_equal. lia.
Qed.

Lemma next_period_range (date : date) :
  valid_date date ->
  MINYEAR <= fst (next_period date) <= MAXYEAR /\ 1 <= snd (next_period date) <= 12.
Proof.
  intros [Hv Hy]. unfold valid_ymd, MINYEAR, MAXYEAR in *. unfold next_period.
  destruct (month date + 1 =? 13) eqn:E; simpl; lia.
Qed.

Lemma datetime_new_Ret (y m d h mi : Z) :
  MINYEAR <= y <= MAXYEAR -> 1 <= m <= 12 -> 1 <= d <= 28 ->
  0 <= h < 24 -> 0 <= mi < 60 ->
  datetime_new y m d h mi = Ret (mkdatetime y m d h mi).
Proof.
  intros Hy Hm Hd Hh Hmi. unfold datetime_new, valid_ymd.
  pose proof (days_in_month_ge_28 y m Hm) as Hdim.
  replace (MINYEAR <=? y) with true by (symmetry; apply Z.leb_le; lia).
  replace (y <=? MAXYEAR) with true by (symmetry; apply Z.leb_le; lia).
  replace (1 <=? m) with true by (symmetry; apply Z.leb_le; lia).
  replace (m <=? 12) with true by (symmetry; apply Z.leb_le; lia).
  replace (1 <=? d) with true by (symmetry; apply Z.leb_le; lia).
  replace (d <=? days_in_month y m) with true by (symmetry; apply Z.leb_le; lia).
  replace (0 <=? h) with true by (symmetry; apply Z.leb_le; lia).
  replace (h <? 24) with true by (symmetry; apply Z.ltb_lt; lia).
  replace (0 <=? mi) with true by (symmetry; apply Z.leb_le; lia).
  replace (mi <? 60) with true by (symmetry; apply Z.ltb_lt; lia).
  reflexivity.
Qed.

(** The weekend loop leaves a weekday alone, moves a Sunday one day on and
    a Saturday two, on any fuel of two or more. *)
Lemma roll_past_weekend_spec (fuel : nat) (y m d : Z) :
  MINYEAR <= y <= MAXYEAR -> 1 <= m <= 12 -> 1 <= d <= 26 -> (2 <= fuel)%nat ->
  let w := weekday (mkdatetime y m d 8 30) in
  roll_past_weekend fuel y m d (mkdatetime y m d 8 30)
  = Ret (mkdatetime y m (d + (if w =? 5 then 2 else if w =? 6 then 1 else 0)) 8 30).
Proof.
  intros Hy Hm Hd Hfuel w.
  pose proof (weekday_range (mkdatetime y m d 8 30)) as Hw. fold w in Hw.
  destruct fuel as [|[|fuel]]; try lia.
  assert (H1 : weekday (mkdatetime y m (d + 1) 8 30) = (w + 1) mod 7)
    by apply weekday_shift.
  assert (H2 : weekday (mkdatetime y m (d + 1 + 1) 8 30) = (w + 2) mod 7).
  { replace (d + 1 + 1) with (d + 2) by lia. apply weekday_shift. }
  cbn [roll_past_weekend]. fold w.
  destruct (5 <=? w) eqn:E5.
  - apply Z.leb_le in E5.
    rewrite (datetime_new_Ret y m (d + 1)) by lia. cbn [bind].
    rewrite H1.
    destruct (w =? 5) eqn:Ew5.
    + apply Z.eqb_eq in Ew5. rewrite Ew5.
      change ((5 + 1) mod 7) with 6. change (5 <=? 6) with true.
      rewrite (datetime_new_Ret y m (d + 1 + 1)) by lia. cbn [bind].
      destruct fuel; cbn [roll_past_weekend]; rewrite H2, Ew5;
        change ((5 + 2) mod 7) with 0; change (5 <=? 0) with false;
        replace (d + 1 + 1) with (d + 2) by lia; reflexivity.
    + apply Z.eqb_neq in Ew5. assert (w = 6) by lia. subst w.
      rewrite H. change ((6 + 1) mod 7) with 0. change (5 <=? 0) with false.
      change (6 =? 6) with true. reflexivity.
  - apply Z.leb_gt in E5.
    replace (w =? 5) with false by (symmetry; apply Z.eqb_neq; lia).
    replace (w =? 6) with false by (symmetry; apply Z.eqb_neq; lia).
    replace (d + 0) with d by lia. reflexivity.
Qed.

(** ** The fixed-day, weekend-rolled policy *)

Lemma fixed_day_release_local_spec (target : Z) (date : date) :
  1 <= target <= 26 -> valid_date date ->
  exists dt, fixed_day_release_local target date = Ret dt
             /\ weekend_rolled target date dt.
Proof.
  intros Ht Hv. unfold fixed_day_release_local.
  pose proof (next_period_range date Hv) as [Hy Hm].
  destruct (next_period date) as [ry rm] eqn:Enp. simpl in Hy, Hm.
  rewrite (datetime_new_Ret ry rm target) by lia. cbn [bind].
  rewrite roll_past_weekend_spec by lia.
  set (w := weekday (mkdatetime ry rm target 8 30)).
  pose proof (weekday_range (mkdatetime ry rm target 8 30)) as Hw. fold w in Hw.
  eexists. split; [reflexivity|].
  unfold weekend_rolled. cbn [dt_year dt_month dt_day dt_hour dt_minute].
  rewrite Enp. fold w.
  assert (Hsh : forall k, weekday (mkdatetime ry rm (target + k) 8 30) = (w + k) mod 7)
    by (intros k; apply weekday_shift).
  destruct (w =? 5) eqn:E5; [|destruct (w =? 6) eqn:E6].
  - apply Z.eqb_eq in E5. rewrite Hsh, E5. change ((5 + 2) mod 7) with 0.
    repeat split; try lia.
    intros d Hd. replace d with (target + (d - target)) by lia.
    rewrite Hsh, E5. zdiv.
  - apply Z.eqb_eq in E6. rewrite Hsh, E6. change ((6 + 1) mod 7) with 0.
    repeat split; try lia.
    intros d Hd. replace d with target by lia. change (5 <= w). lia.
  - apply Z.eqb_neq in E5. apply Z.eqb_neq in E6.
    rewrite Hsh. replace (w + 0) with w by lia. rewrite Z.mod_small by lia.
    repeat split; try lia.
Qed.

Lemma fixed_day_schedule (ny_tz : tzinfo) (target : Z) (dates : list date) :
  1 <= target <= 26 -> Forall valid_date dates ->
  exists dts, Forall2 (weekend_rolled target) dates dts
              /\ for_each (fixed_day_release ny_tz target) dates
                 = Ret (map (astimezone_utc ny_tz) dts).
Proof.
  intros Ht Hall. induction Hall as [|date dates Hv Hall IH].
  - exists []. split; [constructor|reflexivity].
  - destruct IH as [dts [Hroll Hrun]].
    destruct (fixed_day_release_local_spec target date Ht Hv) as [dt [Hdt Hr]].
    exists (dt :: dts). split; [constructor; assumption|].
    cbn [for_each]. unfold fixed_day_release at 1. rewrite Hdt. cbn [bind].
    rewrite Hrun. reflexivity.
Qed.

Lemma for_each_on_index {A B C : Type} (body : A -> outcome C) (series : list (A * B)) :
  for_each (fun '(date, _) => body date) series = for_each body (map fst series).
Proof.
  induction series as [|[d v] series IH]; simpl; [reflexivity|].
  rewrite IH. reflexivity.
Qed.

Lemma cpi_schedule_spec {V : Type} (ny_tz : tzinfo) (cpi_series : list (date * V)) :
  Forall valid_date (map fst cpi_series) ->
  exists dts, Forall2 (weekend_rolled 10) (map fst cpi_series) dts
              /\ get_cpi_release_schedule ny_tz cpi_series
                 = Ret (map (astimezone_utc ny_tz) dts).
Proof.
  intros Hc.
  destruct (fixed_day_schedule ny_tz 10 _ ltac:(lia) Hc) as [dts [H1 H2]].
  exists dts. split; [exact H1|].
  unfold get_cpi_release_schedule. rewrite for_each_on_index. exact H2.
Qed.

Lemma ppi_schedule_spec {V : Type} (ny_tz : tzinfo) (ppi_series : list (date * V)) :
  Forall valid_date (map fst ppi_series) ->
  exists dts, Forall2 (weekend_rolled 14) (map fst ppi_series) dts
              /\ get_ppi_release_schedule ny_tz ppi_series
                 = Ret (map (astimezone_utc ny_tz) dts).
Proof.
  intros Hp.
  destruct (fixed_day_schedule ny_tz 14 _ ltac:(lia) Hp) as [dts [H1 H2]].
  exists dts. split; [exact H1|].
  unfold get_ppi_release_schedule. rewrite for_each_on_index. exact H2.
Qed.

(** C5. Weekend-roll correctness: under the fixed-day-of-next-month policy
    (the 10th for CPI, the 14th for PPI, at 08:30 New York time) every
    observation is released on the target day when that is a weekday, and
    otherwise on the nearest following weekday, never an earlier day; a
    10th that is a Saturday rolls to the 12th, a Monday.  The schedule is
    the list of these wall-clock readings converted to UTC. *)
Theorem weekend_roll_correct {V : Type} (ny_tz : tzinfo)
        (cpi_series ppi_series : list (date * V)) :
  Forall valid_date (map fst cpi_series) ->
  Forall valid_date (map fst ppi_series) ->
  (exists dts, Forall2 (weekend_rolled 10) (map fst cpi_series) dts
               /\ get_cpi_release_schedule ny_tz cpi_series
                  = Ret (map (astimezone_utc ny_tz) dts))
  /\ (exists dts, Forall2 (weekend_rolled 14) (map fst ppi_series) dts
                  /\ get_ppi_release_schedule ny_tz ppi_series
                     = Ret (map (astimezone_utc ny_tz) dts)).
Proof.
  intros Hc Hp. split.
  - apply cpi_schedule_spec. exact Hc.
  - apply ppi_schedule_spec. exact Hp.
Qed.

Lemma valid_date_intro (y m d : Z) :
  valid_ymd y m d = true -> (y <? MAXYEAR) = true -> valid_date (mkdate y m d).
Proof. intros H1 H2. split; [exact H1|]. apply Z.ltb_lt. exact H2. Qed.

Lemma weekend_roll_correct_witness :
  (exists dts, Forall2 (weekend_rolled 10) (map fst [(mkdate 2023 5 1, 4%Z)]) dts
               /\ get_cpi_release_schedule us_eastern [(mkdate 2023 5 1, 4%Z)]
                  = Ret (map (astimezone_utc us_eastern) dts))
  /\ (exists dts, Forall2 (weekend_rolled 14) (map fst [(mkdate 2023 12 1, 1%Z)]) dts
                  /\ get_ppi_release_schedule us_eastern [(mkdate 2023 12 1, 1%Z)]
                     = Ret (map (astimezone_utc us_eastern) dts)).
Proof.
  apply (weekend_roll_correct us_eastern [(mkdate 2023 5 1, 4%Z)] [(mkdate 2023 12 1, 1%Z)]).
  - constructor; [apply valid_date_intro; reflexivity | constructor].
  - constructor; [apply valid_date_intro; reflexivity | constructor].
Defined.

(** ** The first-Friday policy *)

Lemma plus_one_day_same_month (y m d h mi : Z) :
  1 <= m <= 12 -> d < 28 ->
  plus_one_day (mkdatetime y m d h mi) = Ret (mkdatetime y m (d + 1) h mi).
Proof.
  intros Hm Hd. unfold plus_one_day. cbn [dt_year dt_month dt_day dt_hour dt_minute].
  pose proof (days_in_month_ge_28 y m Hm) as Hdim.
  replace (d <? days_in_month y m) with true by (symmetry; apply Z.ltb_lt; lia).
  reflexivity.
Qed.

(** The Friday loop moves on by the number of days left until Friday, on
    any fuel that covers them. *)
Lemma advance_to_friday_spec (fuel : nat) (y m d h mi : Z) :
  1 <= m <= 12 ->
  let k := (4 - weekday (mkdatetime y m d h mi)) mod 7 in
  d + k <= 28 -> k <= Z.of_nat fuel ->
  advance_to_friday fuel (mkdatetime y m d h mi) = Ret (mkdatetime y m (d + k) h mi).
Proof.
  intros Hm. revert d. induction fuel as [|fuel IH]; intros d k Hd Hk.
  - pose proof (weekday_range (mkdatetime y m d h mi)) as Hw.
    assert (Hk0 : k = 0) by (subst k; zdiv).
    assert (Hw4 : weekday (mkdatetime y m d h mi) = 4) by (subst k; zdiv).
    cbn [advance_to_friday]. rewrite Hw4. change (negb (4 =? 4)) with false.
    rewrite Hk0. replace (d + 0) with d by lia. reflexivity.
  - pose proof (weekday_range (mkdatetime y m d h mi)) as Hw.
    cbn [advance_to_friday].
    destruct (weekday (mkdatetime y m d h mi) =? 4) eqn:E4; cbn [negb].
    + apply Z.eqb_eq in E4.
      assert (Hk0 : k = 0) by (subst k; rewrite E4; reflexivity).
      rewrite Hk0. replace (d + 0) with d by lia. reflexivity.
    + apply Z.eqb_neq in E4.
      assert (Hk1 : 1 <= k) by (subst k; zdiv).
      rewrite plus_one_day_same_month by lia. cbn [bind].
      assert (Hk' : (4 - weekday (mkdatetime y m (d + 1) h mi)) mod 7 = k - 1).
      { rewrite (weekday_shift y m d 1 h mi h mi). subst k. zdiv. }
      rewrite IH; rewrite Hk'; try lia.
      f_equal. f_equal. lia.
Qed.

(** For a calendar date the code's month step is the month after: the
    next month of the same year, or January of the next year after
    December. *)
Lemma next_period_month_after (date : date) (y m : Z) :
  valid_date date ->
  ((month date < 12 /\ y = year date /\ m = month date + 1)
   \/ (month date = 12 /\ y = year date + 1 /\ m = 1))
  <-> (y, m) = next_period date.
Proof.
  intros [Hv _]. unfold valid_ymd in Hv.
  assert (Hm : 1 <= month date <= 12) by lia.
  unfold next_period. destruct (month date + 1 =? 13) eqn:E.
  - apply Z.eqb_eq in E. split.
    + intros [(H1 & H2 & H3)|(H1 & H2 & H3)]; [lia|]. subst. reflexivity.
    + intros H. injection H as -> ->. right. lia.
  - apply Z.eqb_neq in E. split.
    + intros [(H1 & H2 & H3)|(H1 & H2 & H3)]; [|lia]. subst. reflexivity.
    + intros H. injection H as -> ->. left. lia.
Qed.

Lemma nfp_release_local_spec (date : date) :
  valid_date date ->
  exists dt, nfp_release_local date = Ret dt /\ first_friday_of_next_month date dt.
Proof.
  intros Hv. unfold nfp_release_local.
  pose proof (next_period_range date Hv) as [Hy Hm].
  destruct (next_period date) as [ry rm] eqn:Enp. simpl in Hy, Hm.
  rewrite (datetime_new_Ret ry rm 1) by lia. cbn [bind].
  set (w := weekday (mkdatetime ry rm 1 8 30)).
  pose proof (weekday_range (mkdatetime ry rm 1 8 30)) as Hw. fold w in Hw.
  assert (Hk : 0 <= (4 - w) mod 7 < 7) by (apply Z.mod_pos_bound; lia).
  rewrite (advance_to_friday_spec 7 ry rm 1 8 30 Hm);
    fold w; [|lia|change (Z.of_nat 7) with 7; lia].
  eexists. split; [reflexivity|].
  unfold first_friday_of_next_month. cbn [dt_year dt_month dt_day dt_hour dt_minute].
  assert (Hsh : forall k, weekday (mkdatetime ry rm (1 + k) 8 30) = (w + k) mod 7)
    by (intros k; apply weekday_shift).
  split; [apply (next_period_month_after date ry rm Hv); symmetry; exact Enp|].
  repeat split; try lia.
  - rewrite Hsh. zdiv.
  - intros d Hd. replace d with (1 + (d - 1)) by lia. rewrite Hsh. zdiv.
Qed.

Lemma nfp_schedule_spec {V : Type} (ny_tz : tzinfo) (nfp_series : list (date * V)) :
  Forall valid_date (map fst nfp_series) ->
  exists dts, Forall2 first_friday_of_next_month (map fst nfp_series) dts
              /\ get_nfp_release_schedule ny_tz nfp_series
                 = Ret (map (astimezone_utc ny_tz) dts).
Proof.
  intros Hall. unfold get_nfp_release_schedule. rewrite for_each_on_index.
  induction Hall as [|date dates Hv Hall IH].
  - exists []. split; [constructor|reflexivity].
  - destruct IH as [dts [Hff Hrun]].
    destruct (nfp_release_local_spec date Hv) as [dt [Hdt Hf]].
    exists (dt :: dts). split; [constructor; assumption|].
    cbn [for_each]. unfold nfp_release at 1. rewrite Hdt. cbn [bind].
    rewrite Hrun. reflexivity.
Qed.

(** C6. First-weekday-of-month policy: the release of an observation dated
    in month M of year Y is 08:30 New York time on the first Friday of
    month M+1 (January of Y+1 after December), converted to UTC. *)
Theorem nfp_first_friday {V : Type} (ny_tz : tzinfo) (nfp_series : list (date * V)) :
  Forall valid_date (map fst nfp_series) ->
  exists dts, Forall2 first_friday_of_next_month (map fst nfp_series) dts
              /\ get_nfp_release_schedule ny_tz nfp_series
                 = Ret (map (astimezone_utc ny_tz) dts).
Proof.
  intros Hall. apply nfp_schedule_spec. exact Hall.
Qed.

Lemma nfp_first_friday_witness :
  exists dts, Forall2 first_friday_of_next_month
                      (map fst [(mkdate 2023 12 1, 7%Z); (mkdate 2023 10 1, 9%Z)]) dts
              /\ get_nfp_release_schedule us_eastern
                   [(mkdate 2023 12 1, 7%Z); (mkdate 2023 10 1, 9%Z)]
                 = Ret (map (astimezone_utc us_eastern) dts).
Proof.
  apply (nfp_first_friday us_eastern [(mkdate 2023 12 1, 7%Z); (mkdate 2023 10 1, 9%Z)]).
  repeat (constructor; [apply valid_date_intro; reflexivity|]). constructor.
Defined.

(** ** The change-triggered policy *)

Lemma fomc_loop_spec {V : Type} (ny_tz : tzinfo) (rate_neq : V -> V -> bool) :
  (forall a b, rate_neq a b = false <-> a = b) ->
  forall items prev_rate,
    fomc_loop ny_tz rate_neq prev_rate items
    = change_triggered_spec ny_tz rate_neq prev_rate items.
Proof.
  intros Hneq items. induction items as [|[d rate] rest IH]; intros prev_rate.
  - reflexivity.
  - cbn [fomc_loop change_triggered_spec].
    destruct prev_rate as [prev|].
    + destruct (rate_neq rate prev) eqn:E.
      * rewrite IH. reflexivity.
      * apply Hneq in E. subst prev. rewrite IH. reflexivity.
    + rewrite IH. reflexivity.
Qed.

(** C7. Change-triggered policy: for every daily rate series, an event is
    emitted for a date if and only if it is the first observation or its
    rate differs from the immediately preceding observation's rate; the
    event's instant is 14:00 New York time on that date converted to UTC
    and its value is the new rate. *)
Theorem fomc_change_triggered {V : Type} (ny_tz : tzinfo) (rate_neq : V -> V -> bool)
        (rate_series : list (date * V)) :
  (forall a b, rate_neq a b = false <-> a = b) ->
  get_fomc_decision_times ny_tz rate_neq rate_series
  = change_triggered_spec ny_tz rate_neq None rate_series.
Proof.
  intros Hneq. unfold get_fomc_decision_times. apply fomc_loop_spec. exact Hneq.
Qed.

Lemma Z_neqb_spec (a b : Z) : negb (a =? b) = false <-> a = b.
Proof.
  destruct (a =? b) eqn:E; simpl.
  - apply Z.eqb_eq in E. split; intros; [exact E|reflexivity].
  - apply Z.eqb_neq in E. split; intros H; [discriminate|contradiction].
Qed.

Lemma fomc_change_triggered_witness :
  get_fomc_decision_times us_eastern (fun a b => negb (a =? b))
    [(mkdate 2023 1 31, 450); (mkdate 2023 2 1, 475); (mkdate 2023 2 2, 475)]
  = change_triggered_spec us_eastern (fun a b => negb (a =? b)) None
      [(mkdate 2023 1 31, 450); (mkdate 2023 2 1, 475); (mkdate 2023 2 2, 475)].
Proof.
  apply (fomc_change_triggered us_eastern (fun a b => negb (a =? b))
           [(mkdate 2023 1 31, 450); (mkdate 2023 2 1, 475); (mkdate 2023 2 2, 475)]).
  exact Z_neqb_spec.
Defined.

(** ** Order of the schedules *)

Lemma days_before_year_step (y1 y2 : Z) :
  y1 < y2 -> days_before_year y1 + 365 <= days_before_year y2.
Proof.
  intros H. unfold days_before_year.
  assert (H4 : (y1 - 1) / 4 <= (y2 - 1) / 4) by (apply Z.div_le_mono; lia).
  assert (H100 : (y2 - 1) / 100 = (y2 - 1) / 4 / 25)
    by (rewrite Z.div_div by lia; reflexivity).
  assert (H100' : (y1 - 1) / 100 = (y1 - 1) / 4 / 25)
    by (rewrite Z.div_div by lia; reflexivity).
  assert (H400 : (y1 - 1) / 400 <= (y2 - 1) / 400) by (apply Z.div_le_mono; lia).
  rewrite H100, H100'.
  set (p1 := (y1 - 1) / 4) in *. set (p2 := (y2 - 1) / 4) in *.
  assert (p2 / 25 - p1 / 25 <= p2 - p1) by zdiv.
  lia.
Qed.

Lemma days_before_month_range (y m : Z) :
  1 <= m <= 12 -> 0 <= days_before_month y m <= 335.
Proof.
  intros Hm. unfold days_before_month.
  destruct (month_cases m Hm) as [H|[H|[H|[H|[H|[H|[H|[H|[H|[H|[H|H]]]]]]]]]]];
    subst m; destruct (is_leap y); simpl; lia.
Qed.

Lemma days_before_month_step (y m1 m2 : Z) :
  1 <= m1 -> m1 < m2 -> m2 <= 12 ->
  days_before_month y m1 + 28 <= days_before_month y m2.
Proof.
  intros H1 H12 H2. unfold days_before_month.
  assert (Hm1 : 1 <= m1 <= 12) by lia. assert (Hm2 : 1 <= m2 <= 12) by lia.
  destruct (month_cases m1 Hm1) as [H|[H|[H|[H|[H|[H|[H|[H|[H|[H|[H|H]]]]]]]]]]];
    subst m1;
    destruct (month_cases m2 Hm2) as [H|[H|[H|[H|[H|[H|[H|[H|[H|[H|[H|H]]]]]]]]]]];
    subst m2; try lia; destruct (is_leap y); simpl; lia.
Qed.

(** A day of one month comes before every day of a later month. *)
Lemma ymd2ord_lt (y1 m1 d1 y2 m2 d2 : Z) :
  1 <= m1 <= 12 -> 1 <= m2 <= 12 -> d1 <= 28 -> 1 <= d2 ->
  y1 < y2 \/ (y1 = y2 /\ m1 < m2) ->
  ymd2ord y1 m1 d1 < ymd2ord y2 m2 d2.
Proof.
  intros Hm1 Hm2 Hd1 Hd2 [Hy|[Hy Hm]]; unfold ymd2ord.
  - pose proof (days_before_year_step y1 y2 Hy).
    pose proof (days_before_month_range y1 m1 Hm1).
    pose proof (days_before_month_range y2 m2 Hm2). lia.
  - subst y2. pose proof (days_before_month_step y1 m1 m2). lia.
Qed.

Lemma astimezone_utc_lt (tz : tzinfo) (a b : datetime) :
  eastern_range tz ->
  toordinal a < toordinal b ->
  dt_hour a = dt_hour b -> dt_minute a = dt_minute b ->
  astimezone_utc tz a < astimezone_utc tz b.
Proof.
  intros Htz Hlt Hh Hm. unfold astimezone_utc.
  pose proof (Htz a). pose proof (Htz b). lia.
Qed.

Lemma next_period_mono (a b : date) :
  valid_date a -> valid_date b -> date_le a b ->
  next_period a = next_period b
  \/ (fst (next_period a) < fst (next_period b)
      \/ (fst (next_period a) = fst (next_period b)
          /\ snd (next_period a) < snd (next_period b))).
Proof.
  intros [Ha _] [Hb _] Hle. unfold valid_ymd in Ha, Hb. unfold date_le in Hle.
  unfold next_period.
  destruct (month a + 1 =? 13) eqn:Ea; destruct (month b + 1 =? 13) eqn:Eb;
    cbn [fst snd].
  - assert (year a = year b \/ year a < year b) as [E|E] by lia.
    + left. rewrite E. reflexivity.
    + right. lia.
  - right. lia.
  - right. lia.
  - assert ((year a = year b /\ month a = month b)
            \/ (year a < year b \/ (year a = year b /\ month a < month b)))
      as [[E1 E2]|E] by lia.
    + left. rewrite E1, E2. reflexivity.
    + right. lia.
Qed.

Lemma weekend_rolled_day (target : Z) (date : date) (dt : datetime) :
  weekend_rolled target date dt -> target <= dt_day dt <= target + 2.
Proof.
  unfold weekend_rolled. intros (_ & _ & _ & Hge & _ & _ & H0 & H5 & H6).
  pose proof (weekday_range (mkdatetime (dt_year dt) (dt_month dt) target 8 30)).
  lia.
Qed.

(** Two observations in chronological order are released in that order,
    whatever the policy, provided the policy looks at the next period only
    and lands on one of its first 28 days at a fixed clock time. *)
Lemma release_mono (tz : tzinfo) (local : date -> outcome datetime) (a b : date)
      (ta tb : datetime) :
  eastern_range tz ->
  valid_date a -> valid_date b -> date_le a b ->
  (next_period a = next_period b -> local a = local b) ->
  local a = Ret ta -> local b = Ret tb ->
  (dt_year ta, dt_month ta) = next_period a ->
  (dt_year tb, dt_month tb) = next_period b ->
  1 <= dt_day ta <= 28 -> 1 <= dt_day tb <= 28 ->
  dt_hour ta = dt_hour tb -> dt_minute ta = dt_minute tb ->
  astimezone_utc tz ta <= astimezone_utc tz tb.
Proof.
  intros Htz Ha Hb Hle Hsame Hta Htb Hpa Hpb Hda Hdb Hh Hm.
  pose proof (next_period_range a Ha) as [_ Hma].
  pose proof (next_period_range b Hb) as [_ Hmb].
  destruct (next_period_mono a b Ha Hb Hle) as [E|Hlt].
  - rewrite (Hsame E), Htb in Hta. injection Hta as ->. lia.
  - rewrite <- Hpa in Hma, Hlt. rewrite <- Hpb in Hmb, Hlt. cbn [fst snd] in *.
    apply Z.lt_le_incl, astimezone_utc_lt; try assumption.
    unfold toordinal. apply ymd2ord_lt; lia.
Qed.

Lemma for_each_sorted {A : Type} (body : A -> outcome Z) (le : A -> A -> Prop)
      (items : list A) :
  Sorted le items ->
  (forall a b ta tb, In a items -> In b items -> le a b ->
                     body a = Ret ta -> body b = Ret tb -> ta <= tb) ->
  forall out, for_each body items = Ret out -> Sorted Z.le out.
Proof.
  induction 1 as [|a items Hs IH Hhd]; intros Hmono out Hrun.
  - simpl in Hrun. injection Hrun as <-. constructor.
  - cbn [for_each] in Hrun.
    destruct (body a) as [ta| |] eqn:Ea; try discriminate. cbn [bind] in Hrun.
    destruct (for_each body items) as [out'| |] eqn:Erest; try discriminate.
    cbn [bind] in Hrun. injection Hrun as <-.
    constructor.
    + apply IH; [|reflexivity].
      intros x y tx ty Hx Hy. apply Hmono; right; assumption.
    + destruct Hhd as [|b items' Hab].
      * simpl in Erest. injection Erest as <-. constructor.
      * cbn [for_each] in Erest.
        destruct (body b) as [tb| |] eqn:Eb; try discriminate. cbn [bind] in Erest.
        destruct (for_each body items') as [out''| |]; try discriminate.
        cbn [bind] in Erest. injection Erest as <-.
        constructor. apply (Hmono a b); simpl; auto.
Qed.

Lemma fixed_day_release_mono (tz : tzinfo) (target : Z) (a b : date) (ta tb : instant) :
  eastern_range tz -> 1 <= target <= 26 ->
  valid_date a -> valid_date b -> date_le a b ->
  fixed_day_release tz target a = Ret ta ->
  fixed_day_release tz target b = Ret tb ->
  ta <= tb.
Proof.
  intros Htz Ht Ha Hb Hle Hta Htb.
  destruct (fixed_day_release_local_spec target a Ht Ha) as [da [Eda Hra]].
  destruct (fixed_day_release_local_spec target b Ht Hb) as [db [Edb Hrb]].
  unfold fixed_day_release in Hta, Htb. rewrite Eda in Hta. rewrite Edb in Htb.
  cbn [bind] in Hta, Htb. injection Hta as <-. injection Htb as <-.
  pose proof (weekend_rolled_day _ _ _ Hra). pose proof (weekend_rolled_day _ _ _ Hrb).
  destruct Hra as (Hpa & Hha & Hmia & _). destruct Hrb as (Hpb & Hhb & Hmib & _).
  apply (release_mono tz (fixed_day_release_local target) a b); try assumption; try lia.
  intros E. unfold fixed_day_release_local. rewrite E. reflexivity.
Qed.

Lemma nfp_release_mono (tz : tzinfo) (a b : date) (ta tb : instant) :
  eastern_range tz ->
  valid_date a -> valid_date b -> date_le a b ->
  nfp_release tz a = Ret ta -> nfp_release tz b = Ret tb ->
  ta <= tb.
Proof.
  intros Htz Ha Hb Hle Hta Htb.
  destruct (nfp_release_local_spec a Ha) as [da [Eda Hra]].
  destruct (nfp_release_local_spec b Hb) as [db [Edb Hrb]].
  unfold nfp_release in Hta, Htb. rewrite Eda in Hta. rewrite Edb in Htb.
  cbn [bind] in Hta, Htb. injection Hta as <-. injection Htb as <-.
  destruct Hra as (Hpa & Hha & Hmia & Hda & _).
  destruct Hrb as (Hpb & Hhb & Hmib & Hdb & _).
  apply (next_period_month_after a _ _ Ha) in Hpa.
  apply (next_period_month_after b _ _ Hb) in Hpb.
  apply (release_mono tz nfp_release_local a b); try assumption; try lia.
  intros E. unfold nfp_release_local. rewrite E. reflexivity.
Qed.

Lemma schedule_sorted (body : date -> outcome instant) (dates : list date)
      (rts : list instant) :
  Forall valid_date dates -> Sorted date_le dates ->
  (forall a b ta tb, valid_date a -> valid_date b -> date_le a b ->
                     body a = Ret ta -> body b = Ret tb -> ta <= tb) ->
  for_each body dates = Ret rts -> Sorted Z.le rts.
Proof.
  intros Hv Hs Hmono Hrun.
  apply (for_each_sorted body date_le dates Hs); [|exact Hrun].
  rewrite Forall_forall in Hv.
  intros a b ta tb Ia Ib. apply Hmono; apply Hv; assumption.
Qed.

(** C4, as the code has it. The schedulers keep the order of their input and
    do not sort: for a series whose index dates are in chronological order
    (the pipelines sort the index before they schedule), the release
    instants of [get_cpi_release_schedule] and [get_nfp_release_schedule]
    are in non-decreasing order. *)
Theorem schedule_monotone {V : Type} (ny_tz : tzinfo)
        (cpi_series nfp_series : list (date * V)) :
  eastern_range ny_tz ->
  Forall valid_date (map fst cpi_series) -> Sorted date_le (map fst cpi_series) ->
  Forall valid_date (map fst nfp_series) -> Sorted date_le (map fst nfp_series) ->
  (exists releases, get_cpi_release_schedule ny_tz cpi_series = Ret releases
                    /\ List.length releases = List.length cpi_series
                    /\ Sorted Z.le releases)
  /\ (exists releases, get_nfp_release_schedule ny_tz nfp_series = Ret releases
                       /\ List.length releases = List.length nfp_series
                       /\ Sorted Z.le releases).
Proof.
  intros Htz Hvc Hsc Hvn Hsn. split.
  - destruct (cpi_schedule_spec ny_tz cpi_series Hvc) as [dts [Hroll Hrun]].
    exists (map (astimezone_utc ny_tz) dts). split; [exact Hrun|]. split.
    + rewrite length_map, <- (Forall2_length Hroll), length_map. reflexivity.
    + unfold get_cpi_release_schedule in Hrun. rewrite for_each_on_index in Hrun.
      apply (schedule_sorted _ _ _ Hvc Hsc) in Hrun; [exact Hrun|].
      intros a b ta tb. apply fixed_day_release_mono; [exact Htz|lia].
  - destruct (nfp_schedule_spec ny_tz nfp_series Hvn) as [dts [Hff Hrun]].
    exists (map (astimezone_utc ny_tz) dts). split; [exact Hrun|]. split.
    + rewrite length_map, <- (Forall2_length Hff), length_map. reflexivity.
    + unfold get_nfp_release_schedule in Hrun. rewrite for_each_on_index in Hrun.
      apply (schedule_sorted _ _ _ Hvn Hsn) in Hrun; [exact Hrun|].
      intros a b ta tb. apply nfp_release_mono. exact Htz.
Qed.

Lemma us_eastern_range : eastern_range us_eastern.
Proof.
  intros dt. unfold us_eastern.
  destruct ((sunday_on_or_after (dt_year dt) 3 8 <=? toordinal dt)
            && (toordinal dt <? sunday_on_or_after (dt_year dt) 11 1)); lia.
Qed.

Lemma date_le_intro (a b : date) :
  (year a <? year b)
  || ((year a =? year b)
      && ((month a <? month b) || ((month a =? month b) && (day a <=? day b)))) = true ->
  date_le a b.
Proof.
  unfold date_le. intros H.
  apply orb_true_iff in H. destruct H as [H|H].
  - left. apply Z.ltb_lt. exact H.
  - apply andb_true_iff in H. destruct H as [Hy H]. apply Z.eqb_eq in Hy.
    right. split; [exact Hy|].
    apply orb_true_iff in H. destruct H as [H|H].
    + left. apply Z.ltb_lt. exact H.
    + apply andb_true_iff in H. destruct H as [Hm Hd].
      right. split; [apply Z.eqb_eq; exact Hm | apply Z.leb_le; exact Hd].
Qed.

Lemma schedule_monotone_witness :
  (exists releases,
      get_cpi_release_schedule us_eastern
        [(mkdate 2022 12 1, 65%Z); (mkdate 2023 1 1, 64%Z)] = Ret releases
      /\ List.length releases = 2%nat /\ Sorted Z.le releases)
  /\ (exists releases,
         get_nfp_release_schedule us_eastern
           [(mkdate 2023 1 1, 5%Z); (mkdate 2023 3 1, 6%Z)] = Ret releases
         /\ List.length releases = 2%nat /\ Sorted Z.le releases).
Proof.
  apply (schedule_monotone us_eastern
           [(mkdate 2022 12 1, 65%Z); (mkdate 2023 1 1, 64%Z)]
           [(mkdate 2023 1 1, 5%Z); (mkdate 2023 3 1, 6%Z)]).
  - exact us_eastern_range.
  - repeat (constructor; [apply valid_date_intro; reflexivity|]). constructor.
  - apply Sorted_cons; [apply Sorted_cons; [apply Sorted_nil | apply HdRel_nil]|].
    apply HdRel_cons. apply date_le_intro. reflexivity.
  - repeat (constructor; [apply valid_date_intro; reflexivity|]). constructor.
  - apply Sorted_cons; [apply Sorted_cons; [apply Sorted_nil | apply HdRel_nil]|].
    apply HdRel_cons. apply date_le_intro. reflexivity.
Defined.

(** C4 as stated fails: a series that is not in date order (March before
    January) is scheduled in that same order, April's release before
    February's. *)
Lemma schedule_unsorted_counterexample :
  Forall valid_date (map fst [(mkdate 2023 3 1, 5%Z); (mkdate 2023 1 1, 6%Z)])
  /\ get_cpi_release_schedule us_eastern [(mkdate 2023 3 1, 5%Z); (mkdate 2023 1 1, 6%Z)]
     = Ret [63816813000; 63811719000]
  /\ get_nfp_release_schedule us_eastern [(mkdate 2023 3 1, 5%Z); (mkdate 2023 1 1, 6%Z)]
     = Ret [63816553800; 63811114200]
  /\ ~ Sorted Z.le [63816813000; 63811719000]
  /\ ~ Sorted Z.le [63816553800; 63811114200].
Proof.
  split.
  { repeat (constructor; [apply valid_date_intro; reflexivity|]). constructor. }
  split; [vm_compute; reflexivity|].
  split; [vm_compute; reflexivity|].
  split; intros H; inversion H as [|? ? _ Hhd]; subst;
    inversion Hhd as [|? ? Hle]; subst; lia.
Qed.

(** ** Lists, columns and fills *)

Lemma getitem_last_app {A : Type} (l : list A) (x : A) :
  getitem_last (l ++ [x]) = Ret x.
Proof. unfold getitem_last. rewrite rev_app_distr. reflexivity. Qed.

Lemma getitem_last_cases {A : Type} (l : list A) :
  (l = [] /\ getitem_last l = Raise IndexError)
  \/ (exists l' x, l = l' ++ [x] /\ getitem_last l = Ret x).
Proof.
  destruct (rev l) as [|x r] eqn:E.
  - left. assert (l = []) by (rewrite <- (rev_involutive l), E; reflexivity).
    subst l. split; reflexivity.
  - right. exists (rev r), x.
    assert (l = rev r ++ [x]) by (rewrite <- (rev_involutive l), E; reflexivity).
    subst l. split; [reflexivity|apply getitem_last_app].
Qed.

Lemma sorted_below_last (l : list Z) (x : Z) :
  Sorted Z.le (l ++ [x]) -> Forall (fun t => t <= x) (l ++ [x]).
Proof.
  intros Hs. apply Sorted_StronglySorted in Hs; [|intros a b c; apply Z.le_trans].
  induction l as [|y l IH]; simpl in *.
  - constructor; [lia|constructor].
  - inversion Hs as [|? ? Hs' Hall]; subst. constructor.
    + rewrite Forall_app in Hall. destruct Hall as [_ Hx].
      inversion Hx; subst. assumption.
    + apply IH. exact Hs'.
Qed.

Lemma loc_assign_length {A : Type} (index : list instant) (lo hi : instant) (v : A)
      (column : list (option A)) :
  List.length (loc_assign index lo hi v column) = List.length column.
Proof.
  revert column. induction index as [|t index IH]; intros [|old column]; simpl;
    try reflexivity. rewrite IH. reflexivity.
Qed.

Lemma ffill_from_length {A : Type} (prev : option A) (column : list (option A)) :
  List.length (ffill_from prev column) = List.length column.
Proof.
  revert prev. induction column as [|[v|] column IH]; intros prev; simpl;
    try rewrite IH; reflexivity.
Qed.

Lemma bfill_length {A : Type} (column : list (option A)) :
  List.length (bfill column) = List.length column.
Proof.
  induction column as [|[v|] column IH]; simpl; try rewrite IH; reflexivity.
Qed.

(** A fill never touches a slot that holds a value. *)
Lemma ffill_from_keeps {A : Type} (column : list (option A)) (prev : option A)
      (k : nat) (v : A) :
  nth_error column k = Some (Some v) ->
  nth_error (ffill_from prev column) k = Some (Some v).
Proof.
  revert prev k. induction column as [|[x|] column IH]; intros prev [|k] H;
    simpl in *; try discriminate; try assumption; apply IH; assumption.
Qed.

Lemma bfill_keeps {A : Type} (column : list (option A)) (k : nat) (v : A) :
  nth_error column k = Some (Some v) ->
  nth_error (bfill column) k = Some (Some v).
Proof.
  revert k. induction column as [|[x|] column IH]; intros [|k] H;
    simpl in *; try discriminate; try assumption; apply IH; assumption.
Qed.

(** A forward fill only brings values down from slots above. *)
Lemma ffill_from_source {A : Type} (column : list (option A)) (prev : option A)
      (k : nat) (v : A) :
  nth_error (ffill_from prev column) k = Some (Some v) ->
  prev = Some v \/ exists j, (j <= k)%nat /\ nth_error column j = Some (Some v).
Proof.
  revert prev k. induction column as [|[x|] column IH]; intros prev [|k] H;
    simpl in *; try discriminate.
  - right. exists 0%nat. split; [lia|assumption].
  - apply IH in H. destruct H as [H|[j [Hj H]]].
    + right. exists 0%nat. split; [lia|]. simpl. rewrite H. reflexivity.
    + right. exists (S j). split; [lia|assumption].
  - left. injection H as ->. reflexivity.
  - apply IH in H. destruct H as [H|[j [Hj H]]].
    + left. assumption.
    + right. exists (S j). split; [lia|assumption].
Qed.

Lemma ffill_all_nan {A : Type} (index : list instant) :
  ffill (@empty_column A index) = empty_column index.
Proof.
  unfold ffill, empty_column. induction index as [|t index IH]; simpl;
    [reflexivity|]. rewrite IH. reflexivity.
Qed.

Lemma bfill_all_nan {A : Type} (index : list instant) :
  bfill (@empty_column A index) = empty_column index.
Proof.
  unfold empty_column. induction index as [|t index IH]; simpl; [reflexivity|].
  rewrite IH. destruct index; reflexivity.
Qed.

(** ** The interval loop *)

Lemma column_after_cons {V : Type} (events : list (instant * V)) (stop t : instant)
      (index : list instant) (old : option V) (column : list (option V)) :
  column_after events stop (t :: index) (old :: column)
  = interval_value events stop t old :: column_after events stop index column.
Proof.
  revert old column. induction events as [|[rel v] rest IH]; intros old column.
  - reflexivity.
  - cbn [column_after interval_value loc_assign]. rewrite IH. reflexivity.
Qed.

Lemma column_after_empty_column {V : Type} (events : list (instant * V))
      (stop : instant) (index : list instant) :
  column_after events stop index (empty_column index)
  = map (fun t => interval_value events stop t None) index.
Proof.
  unfold empty_column. induction index as [|t index IH]; simpl.
  - induction events as [|[rel v] rest IHe]; simpl; [reflexivity|exact IHe].
  - rewrite column_after_cons, IH. reflexivity.
Qed.

(** On ascending events, and for an instant before [stop], the interval
    loop writes what the backward as-of sweep finds. *)
Lemma interval_value_asof {V : Type} (events : list (instant * V))
      (stop t : instant) (old : option V) :
  Sorted Z.le (map fst events) -> t < stop ->
  interval_value events stop t old = asof_from old events t.
Proof.
  intros Hs Ht. revert old.
  induction events as [|[rel v] rest IH]; intros old; [reflexivity|].
  cbn [interval_value asof_from]. simpl in Hs.
  inversion Hs as [|? ? Hs' Hhd]; subst.
  rewrite (IH Hs'). destruct rest as [|[rel' v'] rest'].
  - cbn [asof_from]. replace (t <? stop) with true by (symmetry; apply Z.ltb_lt; lia).
    rewrite andb_true_r. destruct (rel <=? t); reflexivity.
  - simpl in Hhd. inversion Hhd as [|? ? Hle]; subst.
    cbn [asof_from].
    destruct (rel <=? t) eqn:E1; destruct (rel' <=? t) eqn:E2;
      destruct (t <? rel') eqn:E3; cbn [andb]; try reflexivity;
      repeat match goal with
             | H : (_ <=? _) = true |- _ => apply Z.leb_le in H
             | H : (_ <=? _) = false |- _ => apply Z.leb_gt in H
             | H : (_ <? _) = true |- _ => apply Z.ltb_lt in H
             | H : (_ <? _) = false |- _ => apply Z.ltb_ge in H
             end; lia.
Qed.

(** The backward as-of sweep over ascending events either finds no event
    at or before [t], or returns the value of a greatest one. *)
Lemma asof_from_cases {V : Type} (events : list (instant * V)) (t : instant)
      (acc : option V) :
  Sorted Z.le (map fst events) ->
  ((forall e, In e events -> t < fst e) /\ asof_from acc events t = acc)
  \/ (exists e, greatest_at_or_before events t e
                /\ asof_from acc events t = Some (snd e)).
Proof.
  intros Hs. apply Sorted_StronglySorted in Hs; [|intros a b c; apply Z.le_trans].
  revert acc. induction events as [|[rel v] rest IH]; intros acc.
  - left. split; [intros e []|reflexivity].
  - simpl in Hs. inversion Hs as [|? ? Hs' Hall]; subst.
    rewrite Forall_forall in Hall.
    assert (Hrest : forall e, In e rest -> rel <= fst e)
      by (intros e He; apply Hall, in_map, He).
    cbn [asof_from]. destruct (rel <=? t) eqn:E.
    + apply Z.leb_le in E. right.
      destruct (IH Hs' (Some v)) as [[Hno Hacc]|[e [(Hin & Hle & Hmax) Hval]]].
      * exists (rel, v). split; [|exact Hacc].
        split; [left; reflexivity|]. split; [exact E|].
        intros e' [<-|He'] Hle'; [simpl; lia|]. specialize (Hno e' He'). lia.
      * exists e. split; [|exact Hval].
        split; [right; exact Hin|]. split; [exact Hle|].
        intros e' [<-|He'] Hle'; [simpl; apply Hrest; exact Hin|].
        apply Hmax; assumption.
    + apply Z.leb_gt in E. left. split; [|reflexivity].
      intros e [<-|He]; [simpl; lia|]. specialize (Hrest e He). lia.
Qed.

Lemma asof_as_of_slot {V : Type} (events : list (instant * V)) (t : instant) :
  Sorted Z.le (map fst events) ->
  as_of_slot events t (Some (asof_from None events t)).
Proof.
  intros Hs [e0 [Hin0 Hle0]].
  destruct (asof_from_cases events t None Hs) as [[Hno _]|[e [Hg Hval]]].
  - specialize (Hno e0 Hin0). lia.
  - exists e. split; [exact Hg|]. rewrite Hval. reflexivity.
Qed.

Lemma asof_no_lookahead {V : Type} (events : list (instant * V)) (t : instant)
      (v : V) :
  Sorted Z.le (map fst events) ->
  asof_from None events t = Some v ->
  exists e, In e events /\ fst e <= t /\ snd e = v.
Proof.
  intros Hs Hv.
  destruct (asof_from_cases events t None Hs) as [[_ Hacc]|[e [(Hin & Hle & _) Hval]]].
  - rewrite Hacc in Hv. discriminate.
  - exists e. rewrite Hval in Hv. injection Hv as <-. auto.
Qed.

(** Run of the shared loop from position [i]: it raises only for want of a
    last timeline entry, and otherwise leaves [column_after]. *)
Lemma fill_intervals_run {V : Type} (release_times : list instant) (values : list V)
      (hourly_index : list instant) :
  (List.length release_times <= List.length values)%nat ->
  forall todo i column,
    todo = skipn i release_times ->
    fill_intervals release_times values hourly_index i todo column
    = match todo with
      | [] => Ret column
      | _ :: _ =>
          last <- getitem_last hourly_index ;;
          Ret (column_after (combine todo (skipn i values)) (last + 3600)
                            hourly_index column)
      end.
Proof.
  intros Hlen todo. induction todo as [|rel todo IH]; intros i column Htodo.
  - reflexivity.
  - cbn [fill_intervals].
    assert (Hi : (i < List.length release_times)%nat).
    { destruct (Nat.lt_ge_cases i (List.length release_times)) as [H|H]; [exact H|].
      rewrite skipn_all2 in Htodo by exact H. discriminate. }
    assert (Hskip : skipn (S i) release_times = todo).
    { replace (S i) with (1 + i)%nat by lia. rewrite <- skipn_skipn, <- Htodo.
      reflexivity. }
    destruct (nth_error values i) as [val|] eqn:Eval;
      [|apply nth_error_None in Eval; lia].
    assert (Hvals : skipn i values = val :: skipn (S i) values).
    { rewrite <- (firstn_skipn i values) in Eval at 1.
      rewrite nth_error_app2 in Eval by (rewrite length_firstn; lia).
      rewrite length_firstn in Eval.
      replace (i - Nat.min i (List.length values))%nat with 0%nat in Eval by lia.
      replace (S i) with (1 + i)%nat by lia. rewrite <- skipn_skipn.
      destruct (skipn i values) as [|x rest]; simpl in Eval; [discriminate|].
      injection Eval as ->. reflexivity. }
    unfold getitem at 1. rewrite Eval. cbn [bind].
    rewrite Hvals. cbn [combine column_after].
    destruct todo as [|rel' todo'].
    + assert (Hlast : (S i = List.length release_times)%nat).
      { assert (Hl : List.length (skipn (S i) release_times) = 0%nat)
          by (rewrite Hskip; reflexivity).
        rewrite length_skipn in Hl. lia. }
      replace (Z.of_nat i <? Z.of_nat (List.length release_times) - 1) with false
        by (symmetry; apply Z.ltb_ge; lia).
      destruct (getitem_last hourly_index) as [last| |]; reflexivity.
    + assert (Hmore : (S i < List.length release_times)%nat).
      { assert (Hl : List.length (skipn (S i) release_times) = S (List.length todo'))
          by (rewrite Hskip; reflexivity).
        rewrite length_skipn in Hl. lia. }
      replace (Z.of_nat i <? Z.of_nat (List.length release_times) - 1) with true
        by (symmetry; apply Z.ltb_lt; lia).
      assert (Enext : nth_error release_times (i + 1) = Some rel').
      { replace (i + 1)%nat with (S i + 0)%nat by lia.
        rewrite <- nth_error_skipn, Hskip. reflexivity. }
      unfold getitem at 1. rewrite Enext. cbn [bind].
      rewrite (IH (S i) _ (eq_sym Hskip)).
      destruct (skipn (S i) values) as [|val' rest] eqn:Ev.
      * assert (Hl : List.length (skipn (S i) values) = 0%nat) by (rewrite Ev; reflexivity).
        rewrite length_skipn in Hl. lia.
      * reflexivity.
Qed.

Lemma fill_intervals_ok {V : Type} (release_times : list instant) (values : list V)
      (hourly_index : list instant) (last : instant) (column : list (option V)) :
  (List.length release_times <= List.length values)%nat ->
  getitem_last hourly_index = Ret last ->
  fill_intervals release_times values hourly_index 0 release_times column
  = Ret (column_after (combine release_times values) (last + 3600)
                      hourly_index column).
Proof.
  intros Hlen Hlast.
  rewrite (fill_intervals_run release_times values hourly_index Hlen
             release_times 0 column eq_refl).
  destruct release_times; [reflexivity|]. rewrite Hlast. reflexivity.
Qed.

Lemma fill_intervals_empty_index {V : Type} (release_times : list instant)
      (values : list V) (column : list (option V)) :
  (List.length release_times <= List.length values)%nat ->
  release_times <> [] ->
  fill_intervals release_times values [] 0 release_times column = Raise IndexError.
Proof.
  intros Hlen Hne.
  rewrite (fill_intervals_run release_times values [] Hlen release_times 0 column eq_refl).
  destruct release_times; [contradiction|reflexivity].
Qed.

(** With fewer values than releases the loop runs out of values. *)
Lemma fill_intervals_short {V : Type} (release_times : list instant) (values : list V)
      (hourly_index : list instant) :
  (List.length values < List.length release_times)%nat ->
  forall todo i column,
    todo = skipn i release_times -> todo <> [] ->
    fill_intervals release_times values hourly_index i todo column = Raise IndexError.
Proof.
  intros Hlen todo. induction todo as [|rel todo IH]; intros i column Htodo Hne;
    [contradiction|].
  cbn [fill_intervals]. unfold getitem at 1.
  destruct (nth_error values i) as [val|] eqn:Eval; [|reflexivity].
  cbn [bind].
  assert (Hi : (i < List.length values)%nat)
    by (apply nth_error_Some; rewrite Eval; discriminate).
  replace (Z.of_nat i <? Z.of_nat (List.length release_times) - 1) with true
    by (symmetry; apply Z.ltb_lt; lia).
  assert (Hskip : skipn (S i) release_times = todo).
  { replace (S i) with (1 + i)%nat by lia. rewrite <- skipn_skipn, <- Htodo.
    reflexivity. }
  destruct todo as [|rel' todo'].
  - assert (Hl : List.length (skipn (S i) release_times) = 0%nat)
      by (rewrite Hskip; reflexivity).
    rewrite length_skipn in Hl. lia.
  - assert (Enext : nth_error release_times (i + 1) = Some rel').
    { replace (i + 1)%nat with (S i + 0)%nat by lia.
      rewrite <- nth_error_skipn, Hskip. reflexivity. }
    unfold getitem at 1. rewrite Enext. cbn [bind].
    apply IH; [symmetry; exact Hskip|discriminate].
Qed.

(** The two columns of the CPI loop are two runs of the shared loop. *)
Lemma cpi_fill_split {V : Type} (release_datetimes : list instant)
      (cpi_values : list (V * V)) (hourly_index : list instant) :
  forall todo i yoy mom,
    cpi_fill release_datetimes cpi_values hourly_index i todo yoy mom
    = (a <- fill_intervals release_datetimes (map fst cpi_values) hourly_index i todo yoy ;;
       b <- fill_intervals release_datetimes (map snd cpi_values) hourly_index i todo mom ;;
       Ret (a, b)).
Proof.
  induction todo as [|rel todo IH]; intros i yoy mom; [reflexivity|].
  cbn [cpi_fill fill_intervals].
  assert (Hg : forall f : V * V -> V,
             getitem (map f cpi_values) i
             = match nth_error cpi_values i with
               | Some p => Ret (f p)
               | None => Raise IndexError
               end).
  { intros f. unfold getitem. rewrite nth_error_map.
    destruct (nth_error cpi_values i); reflexivity. }
  rewrite !Hg. unfold getitem at 1.
  destruct (nth_error cpi_values i) as [[yoy_val mom_val]|]; [|reflexivity].
  cbn [bind fst snd].
  destruct (if Z.of_nat i <? Z.of_nat (List.length release_datetimes) - 1
            then getitem release_datetimes (i + 1)
            else last <- getitem_last hourly_index;; Ret (last + 3600))
    as [next| |]; cbn [bind]; try reflexivity.
  apply IH.
Qed.

(** On ascending inputs the loop leaves, in every slot, what the backward
    as-of sweep finds for the slot's instant. *)
Lemma column_after_sorted {V : Type} (events : list (instant * V))
      (hourly_index : list instant) (last : instant) :
  Sorted Z.le (map fst events) -> Sorted Z.le hourly_index ->
  getitem_last hourly_index = Ret last ->
  column_after events (last + 3600) hourly_index (empty_column hourly_index)
  = map (asof_from None events) hourly_index.
Proof.
  intros Hev Hidx Hlast. rewrite column_after_empty_column.
  destruct (getitem_last_cases hourly_index) as [[_ H]|[l' [x [Heq H]]]];
    rewrite H in Hlast; [discriminate|]. injection Hlast as <-.
  subst hourly_index. pose proof (sorted_below_last l' x Hidx) as Hbelow.
  rewrite Forall_forall in Hbelow.
  apply map_ext_in. intros t Ht. specialize (Hbelow t Ht).
  apply interval_value_asof; [exact Hev|lia].
Qed.

Lemma getitem_last_nonempty {A : Type} (l : list A) :
  l <> [] -> exists x, getitem_last l = Ret x.
Proof.
  intros Hne. destruct (getitem_last_cases l) as [[H _]|[l' [x [_ H]]]];
    [contradiction|]. exists x. exact H.
Qed.

Lemma combine_fst_snd {A B : Type} (l : list (A * B)) :
  combine (map fst l) (map snd l) = l.
Proof. induction l as [|[a b] l IH]; simpl; [reflexivity|rewrite IH; reflexivity]. Qed.

Lemma sorted_nth_le (l : list Z) (j k : nat) (a b : Z) :
  Sorted Z.le l -> (j <= k)%nat ->
  nth_error l j = Some a -> nth_error l k = Some b -> a <= b.
Proof.
  intros Hs. apply Sorted_StronglySorted in Hs; [|intros x y z; apply Z.le_trans].
  revert j k. induction Hs as [|x l Hs IH Hall]; intros [|j] [|k] Hjk Ha Hb;
    simpl in *; try discriminate; try lia.
  - injection Ha as <-. injection Hb as <-. lia.
  - injection Ha as <-. rewrite Forall_forall in Hall. apply Hall.
    apply nth_error_In in Hb. exact Hb.
  - apply (IH j k); [lia|assumption|assumption].
Qed.

(** ** Sorting *)

Section SortValues.

Context {A : Type}.
Variable key : A -> Z.

Lemma insert_by_In (less : A -> A -> bool) (x y : A) (l : list A) :
  In y (insert_by less x l) <-> y = x \/ In y l.
Proof.
  induction l as [|z l IH]; simpl.
  - split; intros [H|H]; auto.
  - destruct (less z x); simpl; [rewrite IH|]; split; intros H;
      repeat (destruct H as [H|H]); auto.
Qed.

Lemma sort_values_In (less : A -> A -> bool) (y : A) (l : list A) :
  In y (sort_values less l) <-> In y l.
Proof.
  induction l as [|x l IH]; simpl; [reflexivity|].
  rewrite insert_by_In, IH. split; intros [H|H]; auto.
Qed.

Lemma insert_by_length (less : A -> A -> bool) (x : A) (l : list A) :
  List.length (insert_by less x l) = S (List.length l).
Proof.
  induction l as [|z l IH]; simpl; [reflexivity|].
  destruct (less z x); simpl; [rewrite IH|]; reflexivity.
Qed.

Lemma sort_values_length (less : A -> A -> bool) (l : list A) :
  List.length (sort_values less l) = List.length l.
Proof.
  induction l as [|x l IH]; simpl; [reflexivity|].
  rewrite insert_by_length, IH. reflexivity.
Qed.

Lemma insert_by_sorted (x : A) (l : list A) :
  Sorted Z.le (map key l) -> Sorted Z.le (map key (insert_by (key_lt key) x l)).
Proof.
  induction l as [|z l IH]; intros Hs; simpl.
  - repeat constructor.
  - simpl in Hs. inversion Hs as [|? ? Hs' Hhd]; subst.
    unfold key_lt at 1. destruct (key z <? key x) eqn:E.
    + apply Z.ltb_lt in E. simpl. constructor; [apply IH; exact Hs'|].
      destruct l as [|w l]; simpl.
      * constructor. lia.
      * unfold key_lt at 1. destruct (key w <? key x); simpl; constructor.
        -- inversion Hhd; subst. assumption.
        -- lia.
    + apply Z.ltb_ge in E. simpl. constructor; [exact Hs|]. constructor. exact E.
Qed.

Lemma sort_values_sorted (l : list A) :
  Sorted Z.le (map key (sort_values (key_lt key) l)).
Proof.
  induction l as [|x l IH]; simpl; [constructor|].
  apply insert_by_sorted. exact IH.
Qed.

(** A frame that is already in order is left as it is. *)
Lemma sort_values_id (l : list A) :
  Sorted Z.le (map key l) -> sort_values (key_lt key) l = l.
Proof.
  induction l as [|x l IH]; intros Hs; simpl; [reflexivity|].
  simpl in Hs. inversion Hs as [|? ? Hs' Hhd]; subst.
  rewrite (IH Hs'). destruct l as [|z l]; simpl; [reflexivity|].
  simpl in Hhd. inversion Hhd; subst.
  unfold key_lt. replace (key z <? key x) with false by (symmetry; apply Z.ltb_ge; lia).
  reflexivity.
Qed.

End SortValues.

Lemma sort_timeline_sorted (l : list Z) : Sorted Z.le (sort_values Z.ltb l).
Proof.
  pose proof (sort_values_sorted (fun t : Z => t) l) as H.
  rewrite map_id in H. exact H.
Qed.

Lemma sort_timeline_id (l : list Z) : Sorted Z.le l -> sort_values Z.ltb l = l.
Proof.
  intros Hs. apply (sort_values_id (fun t : Z => t)). rewrite map_id. exact Hs.
Qed.

(** ** What each aligner returns *)

Lemma for_each_length {A B : Type} (body : A -> outcome B) (items : list A)
      (out : list B) :
  for_each body items = Ret out -> List.length out = List.length items.
Proof.
  revert out. induction items as [|x items IH]; intros out H; simpl in H.
  - injection H as <-. reflexivity.
  - destruct (body x); try discriminate. cbn [bind] in H.
    destruct (for_each body items) as [ys| |]; try discriminate.
    cbn [bind] in H. injection H as <-. simpl. rewrite (IH ys eq_refl). reflexivity.
Qed.

Lemma map_fst_combine_le {A B : Type} (l : list A) (l' : list B) :
  (List.length l <= List.length l')%nat -> map fst (combine l l') = l.
Proof.
  revert l'. induction l as [|x l IH]; intros [|y l'] H; simpl in *;
    try reflexivity; try lia. rewrite IH by lia. reflexivity.
Qed.

Lemma combine_snd_combine {A B C : Type} (r : list C) (l : list A) (l' : list B) :
  List.length r = List.length l -> (List.length l <= List.length l')%nat ->
  combine r (map snd (combine l l')) = combine r l'.
Proof.
  revert l l'. induction r as [|c r IH]; intros [|x l] [|y l'] H1 H2; simpl in *;
    try reflexivity; try lia. rewrite IH by lia. reflexivity.
Qed.

Lemma align_rate_run {V : Type} (rate_changes : list (instant * V))
      (hourly_index : list (option instant)) (last : instant) :
  getitem_last (dropna hourly_index) = Ret last ->
  align_rate_to_hours rate_changes hourly_index
  = Ret (mkframe (dropna hourly_index)
                 (bfill (column_after rate_changes (last + 3600) (dropna hourly_index)
                                      (empty_column (dropna hourly_index))))).
Proof.
  intros Hlast. unfold align_rate_to_hours.
  rewrite (fill_intervals_ok _ _ _ last) by (rewrite ?length_map; auto).
  cbn [bind]. rewrite combine_fst_snd. reflexivity.
Qed.

Lemma align_cpi_run {V : Type} (ny_tz : tzinfo) (cpi_yoy : list (date * V))
      (cpi_mom : list V) (hourly_index : list (option instant))
      (releases : list instant) (last : instant) :
  get_cpi_release_schedule ny_tz cpi_yoy = Ret releases ->
  (List.length cpi_yoy <= List.length cpi_mom)%nat ->
  getitem_last (dropna hourly_index) = Ret last ->
  align_cpi_to_hours ny_tz cpi_yoy cpi_mom hourly_index
  = Ret (mkcpi_frame
           (dropna hourly_index)
           (ffill (column_after (combine releases (map snd cpi_yoy)) (last + 3600)
                                (dropna hourly_index)
                                (empty_column (dropna hourly_index))))
           (ffill (column_after (combine releases cpi_mom) (last + 3600)
                                (dropna hourly_index)
                                (empty_column (dropna hourly_index))))).
Proof.
  intros Hsched Hlen Hlast. unfold align_cpi_to_hours. rewrite Hsched. cbn [bind].
  pose proof (for_each_length _ _ _ Hsched) as Hrel.
  rewrite cpi_fill_split.
  rewrite map_fst_combine_le by (rewrite length_map; exact Hlen).
  rewrite (fill_intervals_ok _ _ _ last) by (rewrite ?length_map; auto; lia).
  cbn [bind].
  rewrite (fill_intervals_ok _ _ _ last);
    [|rewrite length_map, length_combine, length_map; lia|exact Hlast].
  cbn [bind fst snd].
  rewrite combine_snd_combine by (rewrite ?length_map; auto).
  reflexivity.
Qed.

(** ** As-of correctness *)

Lemma as_of_slot_fill {V : Type} (fill : list (option V) -> list (option V))
      (events : list (instant * V)) (index : list instant) (k : nat) (t : instant) :
  (forall column j v, nth_error column j = Some (Some v) ->
                      nth_error (fill column) j = Some (Some v)) ->
  Sorted Z.le (map fst events) ->
  nth_error index k = Some t ->
  as_of_slot events t (nth_error (fill (map (asof_from None events) index)) k).
Proof.
  intros Hkeep Hev Hk Hex.
  destruct (asof_as_of_slot events t Hev Hex) as [e [Hg Hval]].
  exists e. split; [exact Hg|]. injection Hval as Hval.
  apply Hkeep. rewrite nth_error_map, Hk. simpl. rewrite Hval. reflexivity.
Qed.

Lemma no_lookahead_ffill {V : Type} (events : list (instant * V))
      (index : list instant) (k : nat) (t : instant) :
  Sorted Z.le (map fst events) -> Sorted Z.le index ->
  nth_error index k = Some t ->
  no_lookahead_slot events t
                    (nth_error (ffill (map (asof_from None events) index)) k).
Proof.
  intros Hev Hidx Hk v Hv. unfold ffill in Hv.
  apply ffill_from_source in Hv. destruct Hv as [Hv|[j [Hjk Hj]]]; [discriminate|].
  rewrite nth_error_map in Hj.
  destruct (nth_error index j) as [tj|] eqn:Etj; [|discriminate].
  simpl in Hj. injection Hj as Hj.
  destruct (asof_no_lookahead events tj v Hev Hj) as [e (Hin & Hle & Hval)].
  exists e. split; [exact Hin|]. split; [|exact Hval].
  pose proof (sorted_nth_le index j k tj t Hidx Hjk Etj Hk). lia.
Qed.

Lemma as_of_slot_ext {V : Type} (events events' : list (instant * V)) (t : instant)
      (slot : option (option V)) :
  (forall e, In e events <-> In e events') ->
  as_of_slot events t slot -> as_of_slot events' t slot.
Proof.
  intros Hext H [e0 [Hin0 Hle0]].
  destruct H as [e [(Hin & Hle & Hmax) Hval]].
  { exists e0. split; [apply Hext; exact Hin0|exact Hle0]. }
  exists e. split; [|exact Hval]. split; [apply Hext; exact Hin|].
  split; [exact Hle|]. intros e' He'. apply Hmax. apply Hext. exact He'.
Qed.

Lemma merge_asof_backward_fst {V : Type} (left : list instant)
      (right : list (instant * V)) :
  map fst (merge_asof_backward left right) = left.
Proof.
  unfold merge_asof_backward. rewrite map_map. simpl. apply map_id.
Qed.

Lemma merge_asof_backward_snd {V : Type} (left : list instant)
      (right : list (instant * V)) :
  map snd (merge_asof_backward left right) = map (asof_from None right) left.
Proof. unfold merge_asof_backward. rewrite map_map. reflexivity. Qed.

(** [align_to_hourly] joins every instant of the sorted timeline to a
    greatest release at or before it, whatever order its inputs came in. *)
Lemma align_to_hourly_as_of {V : Type} (gdp_release_df : list (option instant * V))
      (hourly_index_utc : list (option instant)) (k : nat) (t : instant) :
  nth_error (index (align_to_hourly gdp_release_df hourly_index_utc)) k = Some t ->
  as_of_slot (dropna_Datetime gdp_release_df) t
             (nth_error (column (align_to_hourly gdp_release_df hourly_index_utc)) k).
Proof.
  unfold align_to_hourly. cbn [index column].
  rewrite merge_asof_backward_fst, merge_asof_backward_snd. intros Hk.
  apply (as_of_slot_ext
           (sort_values (key_lt fst) (dropna_Datetime gdp_release_df))).
  - intros e. apply sort_values_In.
  - apply (as_of_slot_fill (fun c => bfill (ffill c))).
    + intros c j v H. apply bfill_keeps, ffill_from_keeps, H.
    + apply (sort_values_sorted fst).
    + exact Hk.
Qed.

Lemma align_to_hourly_index {V : Type} (gdp_release_df : list (option instant * V))
      (hourly_index_utc : list (option instant)) :
  index (align_to_hourly gdp_release_df hourly_index_utc)
  = sort_values Z.ltb (dropna hourly_index_utc).
Proof. unfold align_to_hourly. cbn [index]. apply merge_asof_backward_fst. Qed.

Lemma nth_error_nonempty {A : Type} (l : list A) (k : nat) (x : A) :
  nth_error l k = Some x -> l <> [].
Proof. intros H ->. destruct k; discriminate. Qed.

(** C1, as the code has it. On an ascending timeline and ascending events,
    every aligner gives the slot of instant [t] the value of an event with
    the greatest release instant at or before [t], when there is one.  The
    forward-filling CPI aligner never gives a slot a value from an event
    released after [t].  (The rate and GDP aligners back-fill: slots
    before the first release take a later event's value.) *)
Theorem align_as_of {V : Type} (ny_tz : tzinfo)
        (rate_changes : list (instant * V))
        (gdp_release_df : list (option instant * V))
        (cpi_yoy : list (date * V)) (cpi_mom : list V) (releases : list instant)
        (hourly_index : list (option instant)) (k : nat) (t : instant) :
  Sorted Z.le (map fst rate_changes) ->
  get_cpi_release_schedule ny_tz cpi_yoy = Ret releases ->
  Sorted Z.le releases ->
  (List.length cpi_yoy <= List.length cpi_mom)%nat ->
  Sorted Z.le (dropna hourly_index) ->
  nth_error (dropna hourly_index) k = Some t ->
  (exists df, align_rate_to_hours rate_changes hourly_index = Ret df
              /\ index df = dropna hourly_index
              /\ as_of_slot rate_changes t (nth_error (column df) k))
  /\ (index (align_to_hourly gdp_release_df hourly_index) = dropna hourly_index
      /\ as_of_slot (dropna_Datetime gdp_release_df) t
                    (nth_error (column (align_to_hourly gdp_release_df hourly_index)) k))
  /\ (exists df, align_cpi_to_hours ny_tz cpi_yoy cpi_mom hourly_index = Ret df
                 /\ cpi_index df = dropna hourly_index
                 /\ as_of_slot (combine releases (map snd cpi_yoy)) t
                               (nth_error (CPI_YoY df) k)
                 /\ as_of_slot (combine releases cpi_mom) t
                               (nth_error (CPI_MoM df) k)
                 /\ no_lookahead_slot (combine releases (map snd cpi_yoy)) t
                                      (nth_error (CPI_YoY df) k)
                 /\ no_lookahead_slot (combine releases cpi_mom) t
                                      (nth_error (CPI_MoM df) k)).
Proof.
  intros Hrc Hsched Hrel Hlen Hidx Hk.
  destruct (getitem_last_nonempty _ (nth_error_nonempty _ _ _ Hk)) as [last Hlast].
  pose proof (for_each_length _ _ _ Hsched) as Hrl.
  assert (Hy : map fst (combine releases (map snd cpi_yoy)) = releases)
    by (apply map_fst_combine_le; rewrite length_map; lia).
  assert (Hm : map fst (combine releases cpi_mom) = releases)
    by (apply map_fst_combine_le; lia).
  split; [|split].
  - eexists. split; [apply (align_rate_run _ _ last Hlast)|].
    cbn [index column]. split; [reflexivity|].
    rewrite (column_after_sorted _ _ last Hrc Hidx Hlast).
    apply as_of_slot_fill; [apply bfill_keeps|exact Hrc|exact Hk].
  - rewrite align_to_hourly_index, (sort_timeline_id _ Hidx).
    split; [reflexivity|]. apply align_to_hourly_as_of.
    rewrite align_to_hourly_index, (sort_timeline_id _ Hidx). exact Hk.
  - eexists. split; [apply (align_cpi_run _ _ _ _ releases last Hsched Hlen Hlast)|].
    cbn [cpi_index CPI_YoY CPI_MoM]. split; [reflexivity|].
    rewrite !(column_after_sorted _ _ last) by (rewrite ?Hy, ?Hm; assumption).
    repeat split.
    + apply as_of_slot_fill;
        [intros c j v; apply ffill_from_keeps|rewrite Hy; exact Hrel|exact Hk].
    + apply as_of_slot_fill;
        [intros c j v; apply ffill_from_keeps|rewrite Hm; exact Hrel|exact Hk].
    + apply no_lookahead_ffill; [rewrite Hy; exact Hrel|exact Hidx|exact Hk].
    + apply no_lookahead_ffill; [rewrite Hm; exact Hrel|exact Hidx|exact Hk].
Qed.

Lemma align_as_of_witness :
  (exists df, align_rate_to_hours example_events example_timeline = Ret df
              /\ index df = dropna example_timeline
              /\ as_of_slot example_events (utc 2023 2 3 14 0) (nth_error (column df) 1))
  /\ (index (align_to_hourly [(Some (utc 2023 2 3 13 30), 10)] example_timeline)
      = dropna example_timeline
      /\ as_of_slot (dropna_Datetime [(Some (utc 2023 2 3 13 30), 10)])
                    (utc 2023 2 3 14 0)
                    (nth_error
                       (column (align_to_hourly [(Some (utc 2023 2 3 13 30), 10)]
                                                example_timeline)) 1))
  /\ (exists df,
         align_cpi_to_hours us_eastern [(mkdate 2022 12 1, 64); (mkdate 2023 1 1, 60)]
                            [5; 4; 3] example_timeline = Ret df
         /\ cpi_index df = dropna example_timeline
         /\ as_of_slot (combine [utc 2023 1 10 13 30; utc 2023 2 10 13 30]
                                (map snd [(mkdate 2022 12 1, 64); (mkdate 2023 1 1, 60)]))
                       (utc 2023 2 3 14 0) (nth_error (CPI_YoY df) 1)
         /\ as_of_slot (combine [utc 2023 1 10 13 30; utc 2023 2 10 13 30] [5; 4; 3])
                       (utc 2023 2 3 14 0) (nth_error (CPI_MoM df) 1)
         /\ no_lookahead_slot
              (combine [utc 2023 1 10 13 30; utc 2023 2 10 13 30]
                       (map snd [(mkdate 2022 12 1, 64); (mkdate 2023 1 1, 60)]))
              (utc 2023 2 3 14 0) (nth_error (CPI_YoY df) 1)
         /\ no_lookahead_slot
              (combine [utc 2023 1 10 13 30; utc 2023 2 10 13 30] [5; 4; 3])
              (utc 2023 2 3 14 0) (nth_error (CPI_MoM df) 1)).
Proof.
  apply (align_as_of us_eastern example_events [(Some (utc 2023 2 3 13 30), 10)]
           [(mkdate 2022 12 1, 64); (mkdate 2023 1 1, 60)] [5; 4; 3]
           [utc 2023 1 10 13 30; utc 2023 2 10 13 30] example_timeline 1
           (utc 2023 2 3 14 0)).
  - vm_compute. repeat constructor; discriminate.
  - vm_compute. reflexivity.
  - vm_compute. repeat constructor; discriminate.
  - simpl. lia.
  - vm_compute. repeat constructor; discriminate.
  - reflexivity.
Defined.

(** C1 as stated fails for the back-filling aligners: on the spec's own
    example the rate aligner and the GDP aligner give the slot of
    2023-02-01T00:00Z the value 10, which no event released by then
    carries. *)
Lemma align_lookahead_counterexample :
  align_rate_to_hours example_events example_timeline
  = Ret (mkframe (dropna example_timeline) [Some 10; Some 10; Some 12])
  /\ align_to_hourly [(Some (utc 2023 2 3 13 30), 10); (Some (utc 2023 3 3 13 30), 12)]
                     example_timeline
     = mkframe (dropna example_timeline) [Some 10; Some 10; Some 12]
  /\ nth_error (dropna example_timeline) 0 = Some (utc 2023 2 1 0 0)
  /\ ~ no_lookahead_slot example_events (utc 2023 2 1 0 0)
                         (nth_error [Some 10; Some 10; Some 12] 0).
Proof.
  split; [vm_compute; reflexivity|].
  split; [vm_compute; reflexivity|].
  split; [reflexivity|].
  intros H. destruct (H 10 eq_refl) as [e (Hin & Hle & _)].
  destruct Hin as [<-|[<-|[]]]; vm_compute in Hle; apply Hle; reflexivity.
Qed.

(** ** Boundary fill *)

(** Under the forward-fill-only policy a slot before every release stays
    absent. *)
Lemma ffill_leading_absent {V : Type} (events : list (instant * V))
      (index : list instant) (k : nat) (t : instant) :
  Sorted Z.le (map fst events) -> Sorted Z.le index ->
  nth_error index k = Some t ->
  (forall e, In e events -> t < fst e) ->
  nth_error (ffill (map (asof_from None events) index)) k = Some None.
Proof.
  intros Hev Hidx Hk Hbefore.
  destruct (nth_error (ffill (map (asof_from None events) index)) k)
    as [[v|]|] eqn:E.
  - destruct (no_lookahead_ffill events index k t Hev Hidx Hk v) as [e (Hin & Hle & _)].
    + rewrite E. reflexivity.
    + specialize (Hbefore e Hin). lia.
  - reflexivity.
  - apply nth_error_None in E. unfold ffill in E.
    rewrite ffill_from_length, length_map in E.
    assert (k < List.length index)%nat by (apply nth_error_Some; rewrite Hk; discriminate).
    lia.
Qed.

(** A back-fill gives the slots above the first valid slot that slot's
    value. *)
Lemma bfill_leading {A : Type} (column : list (option A)) (k0 : nat) (v : A) :
  nth_error column k0 = Some (Some v) ->
  (forall j, (j < k0)%nat -> nth_error column j = Some None) ->
  forall k, (k <= k0)%nat -> nth_error (bfill column) k = Some (Some v).
Proof.
  revert k0. induction column as [|x column IH]; intros k0 Hk0 Hlead k Hk.
  - destruct k0; discriminate.
  - destruct k0 as [|k0].
    + simpl in Hk0. injection Hk0 as ->. assert (k = 0%nat) by lia. subst k.
      reflexivity.
    + assert (Hx : x = None).
      { specialize (Hlead 0%nat ltac:(lia)). simpl in Hlead. injection Hlead as ->.
        reflexivity. }
      subst x. cbn [bfill].
      assert (Hrest : forall k', (k' <= k0)%nat ->
                                 nth_error (bfill column) k' = Some (Some v)).
      { apply (IH k0); [exact Hk0|].
        intros j Hj. apply (Hlead (S j)). lia. }
      destruct k as [|k]; [|apply Hrest; lia].
      specialize (Hrest 0%nat ltac:(lia)).
      destruct (bfill column) as [|y rest]; [discriminate|].
      simpl in Hrest. injection Hrest as ->. reflexivity.
Qed.

(** When the first timeline point at or after the first release comes
    before every later release, the back-filling rate aligner gives it and
    every slot above it the first event's value. *)
Lemma rate_backfill_first_value {V : Type} (rel0 : instant) (v0 : V)
      (rest : list (instant * V)) (hourly_index : list (option instant))
      (k0 : nat) (t0 : instant) :
  Sorted Z.le (map fst ((rel0, v0) :: rest)) ->
  Sorted Z.le (dropna hourly_index) ->
  nth_error (dropna hourly_index) k0 = Some t0 ->
  rel0 <= t0 -> (forall e, In e rest -> t0 < fst e) ->
  (forall j tj, (j < k0)%nat -> nth_error (dropna hourly_index) j = Some tj -> tj < rel0) ->
  exists df, align_rate_to_hours ((rel0, v0) :: rest) hourly_index = Ret df
             /\ forall k, (k <= k0)%nat -> nth_error (column df) k = Some (Some v0).
Proof.
  intros Hev Hidx Hk0 Hrel Hrest Hlead.
  destruct (getitem_last_nonempty _ (nth_error_nonempty _ _ _ Hk0)) as [last Hlast].
  eexists. split; [apply (align_rate_run _ _ last Hlast)|].
  cbn [column]. rewrite (column_after_sorted _ _ last Hev Hidx Hlast).
  apply bfill_leading.
  - rewrite nth_error_map, Hk0. cbn [option_map asof_from].
    replace (rel0 <=? t0) with true by (symmetry; apply Z.leb_le; exact Hrel).
    simpl in Hev. inversion Hev as [|? ? Hev' _]; subst.
    destruct (asof_from_cases rest t0 (Some v0) Hev')
      as [[_ Hacc]|[e [(Hin & Hle & _) _]]].
    + rewrite Hacc. reflexivity.
    + specialize (Hrest e Hin). lia.
  - intros j Hj. rewrite nth_error_map.
    destruct (nth_error (dropna hourly_index) j) as [tj|] eqn:Etj.
    + specialize (Hlead j tj Hj Etj). cbn [option_map asof_from].
      replace (rel0 <=? tj) with false by (symmetry; apply Z.leb_gt; exact Hlead).
      reflexivity.
    + apply nth_error_None in Etj.
      assert (k0 < List.length (dropna hourly_index))%nat
        by (apply nth_error_Some; rewrite Hk0; discriminate).
      lia.
Qed.

(** C2 fails on the back-fill side. [align_rate_to_hours] back-fills with
    [bfill], which copies the next valid slot, not the first event: when no
    timeline point falls between the first two releases the leading slot
    takes the second event's value (12, not 10), and when the whole
    timeline precedes the first release the leading slots stay absent.
    The forward-fill-only aligner does leave its leading slot absent. *)
Theorem backfill_takes_next_valid_slot :
  align_rate_to_hours example_events sparse_timeline
  = Ret (mkframe (dropna sparse_timeline) [Some 12; Some 12])
  /\ align_rate_to_hours example_events early_timeline
     = Ret (mkframe (dropna early_timeline) [None; None])
  /\ align_rate_to_hours example_events example_timeline
     = Ret (mkframe (dropna example_timeline) [Some 10; Some 10; Some 12])
  /\ align_nfp_to_hours us_eastern [(mkdate 2023 1 1, 10); (mkdate 2023 2 1, 12)]
                        example_timeline
     = Ret (mkframe (dropna example_timeline) [None; Some 10; Some 12]).
Proof. repeat split; vm_compute; reflexivity. Qed.

(** ** Ordering of the inputs *)

Lemma dropna_map_Some {A : Type} (l : list A) : dropna (map Some l) = l.
Proof. induction l as [|x l IH]; simpl; [reflexivity|rewrite IH; reflexivity]. Qed.

Lemma dropna_Datetime_map_Some {V : Type} (l : list (instant * V)) :
  dropna_Datetime (map (fun e => (Some (fst e), snd e)) l) = l.
Proof.
  unfold dropna_Datetime. induction l as [|[t v] l IH]; simpl;
    [reflexivity|rewrite IH; reflexivity].
Qed.

(** [align_to_hourly] sorts both of its inputs itself: it returns what it
    returns on the sorted inputs, on the sorted timeline. *)
Lemma align_to_hourly_sorts {V : Type} (gdp_release_df : list (option instant * V))
      (hourly_index_utc : list (option instant)) :
  align_to_hourly gdp_release_df hourly_index_utc
  = align_to_hourly
      (map (fun e => (Some (fst e), snd e))
           (sort_values (key_lt fst) (dropna_Datetime gdp_release_df)))
      (map Some (sort_values Z.ltb (dropna hourly_index_utc))).
Proof.
  unfold align_to_hourly.
  rewrite dropna_map_Some, dropna_Datetime_map_Some.
  rewrite (sort_timeline_id _ (sort_timeline_sorted _)).
  rewrite (sort_values_id fst _ (sort_values_sorted fst _)).
  reflexivity.
Qed.

Lemma schedule_returns {V : Type} (ny_tz : tzinfo) (series : list (date * V)) :
  Forall valid_date (map fst series) ->
  (exists r, get_cpi_release_schedule ny_tz series = Ret r
             /\ List.length r = List.length series)
  /\ (exists r, get_ppi_release_schedule ny_tz series = Ret r
                /\ List.length r = List.length series)
  /\ (exists r, get_nfp_release_schedule ny_tz series = Ret r
                /\ List.length r = List.length series).
Proof.
  intros Hv. split; [|split].
  - destruct (cpi_schedule_spec ny_tz series Hv) as [dts [_ H]].
    eexists. split; [exact H|]. apply (for_each_length _ _ _ H).
  - destruct (ppi_schedule_spec ny_tz series Hv) as [dts [_ H]].
    eexists. split; [exact H|]. apply (for_each_length _ _ _ H).
  - destruct (nfp_schedule_spec ny_tz series Hv) as [dts [_ H]].
    eexists. split; [exact H|]. apply (for_each_length _ _ _ H).
Qed.

(** C3, as the code has it. No aligner checks the order of its inputs and
    none raises for it.  The CPI aligner neither checks nor sorts: on any
    non-empty timeline it returns a frame on the timeline as given.  The
    GDP aligner sorts both sequences itself: it always returns, on the
    ascending timeline, what it returns for the sorted inputs. *)
Theorem align_checks_no_order {V : Type} (ny_tz : tzinfo)
        (cpi_yoy : list (date * V)) (cpi_mom : list V)
        (gdp_release_df : list (option instant * V))
        (hourly_index : list (option instant)) :
  Forall valid_date (map fst cpi_yoy) ->
  (List.length cpi_yoy <= List.length cpi_mom)%nat ->
  dropna hourly_index <> [] ->
  (exists df, align_cpi_to_hours ny_tz cpi_yoy cpi_mom hourly_index = Ret df
              /\ cpi_index df = dropna hourly_index)
  /\ index (align_to_hourly gdp_release_df hourly_index)
     = sort_values Z.ltb (dropna hourly_index)
  /\ Sorted Z.le (index (align_to_hourly gdp_release_df hourly_index))
  /\ align_to_hourly gdp_release_df hourly_index
     = align_to_hourly
         (map (fun e => (Some (fst e), snd e))
              (sort_values (key_lt fst) (dropna_Datetime gdp_release_df)))
         (map Some (sort_values Z.ltb (dropna hourly_index))).
Proof.
  intros Hv Hlen Hne.
  destruct (schedule_returns ny_tz cpi_yoy Hv) as [[releases [Hsched _]] _].
  destruct (getitem_last_nonempty _ Hne) as [last Hlast].
  split; [|split; [|split]].
  - eexists. split; [apply (align_cpi_run _ _ _ _ releases last Hsched Hlen Hlast)|].
    reflexivity.
  - apply align_to_hourly_index.
  - rewrite align_to_hourly_index. apply sort_timeline_sorted.
  - apply align_to_hourly_sorts.
Qed.

Lemma align_checks_no_order_witness :
  (exists df,
      align_cpi_to_hours us_eastern [(mkdate 2023 1 1, 60); (mkdate 2022 12 1, 64)]
                         [4; 5] unsorted_timeline = Ret df
      /\ cpi_index df = dropna unsorted_timeline)
  /\ index (align_to_hourly (map (fun e => (Some (fst e), snd e)) unsorted_events)
                            unsorted_timeline)
     = sort_values Z.ltb (dropna unsorted_timeline)
  /\ Sorted Z.le (index (align_to_hourly
                           (map (fun e => (Some (fst e), snd e)) unsorted_events)
                           unsorted_timeline))
  /\ align_to_hourly (map (fun e => (Some (fst e), snd e)) unsorted_events)
                     unsorted_timeline
     = align_to_hourly
         (map (fun e => (Some (fst e), snd e))
              (sort_values (key_lt fst)
                 (dropna_Datetime (map (fun e => (Some (fst e), snd e)) unsorted_events))))
         (map Some (sort_values Z.ltb (dropna unsorted_timeline))).
Proof.
  apply (align_checks_no_order us_eastern
           [(mkdate 2023 1 1, 60); (mkdate 2022 12 1, 64)] [4; 5]
           (map (fun e => (Some (fst e), snd e)) unsorted_events) unsorted_timeline).
  - repeat (constructor; [apply valid_date_intro; reflexivity|]). constructor.
  - simpl. lia.
  - discriminate.
Defined.

(** C3 as stated fails: with the events and the timeline both out of
    order, the interval aligners return a frame on the timeline as given,
    and the GDP aligner returns a frame on the sorted timeline; nothing is
    raised. *)
Lemma unsorted_input_counterexample :
  ~ Sorted Z.le (map fst unsorted_events)
  /\ ~ Sorted Z.le (dropna unsorted_timeline)
  /\ align_rate_to_hours unsorted_events unsorted_timeline
     = Ret (mkframe (dropna unsorted_timeline) [Some 10; Some 10; Some 10])
  /\ align_cpi_to_hours us_eastern [(mkdate 2023 1 1, 60); (mkdate 2022 12 1, 64)]
                        [4; 5] unsorted_timeline
     = Ret (mkcpi_frame (dropna unsorted_timeline)
                        [None; Some 64; Some 64] [None; Some 5; Some 5])
  /\ align_to_hourly (map (fun e => (Some (fst e), snd e)) unsorted_events)
                     unsorted_timeline
     = mkframe (dropna example_timeline) [Some 10; Some 10; Some 12].
Proof.
  split.
  { intros H. inversion H as [|? ? _ Hhd]; subst.
    inversion Hhd as [|? ? Hle]; subst. vm_compute in Hle. apply Hle. reflexivity. }
  split.
  { intros H. inversion H as [|? ? _ Hhd]; subst.
    inversion Hhd as [|? ? Hle]; subst. vm_compute in Hle. apply Hle. reflexivity. }
  repeat split; vm_compute; reflexivity.
Qed.

(** ** Empty inputs *)

Lemma align_cpi_short {V : Type} (ny_tz : tzinfo) (cpi_yoy : list (date * V))
      (cpi_mom : list V) (hourly_index : list (option instant)) :
  Forall valid_date (map fst cpi_yoy) ->
  (List.length cpi_mom < List.length cpi_yoy)%nat ->
  align_cpi_to_hours ny_tz cpi_yoy cpi_mom hourly_index = Raise IndexError.
Proof.
  intros Hv Hlen.
  destruct (schedule_returns ny_tz cpi_yoy Hv) as [[releases [Hsched Hrl]] _].
  unfold align_cpi_to_hours. rewrite Hsched. cbn [bind]. rewrite cpi_fill_split.
  rewrite (fill_intervals_short releases _ _) with (i := 0%nat);
    [reflexivity| |reflexivity|].
  - rewrite length_map, length_combine, length_map. lia.
  - intros ->. simpl in Hrl. lia.
Qed.

Lemma align_cpi_empty_index {V : Type} (ny_tz : tzinfo) (cpi_yoy : list (date * V))
      (cpi_mom : list V) (hourly_index : list (option instant)) :
  Forall valid_date (map fst cpi_yoy) ->
  dropna hourly_index = [] -> cpi_yoy <> [] ->
  align_cpi_to_hours ny_tz cpi_yoy cpi_mom hourly_index = Raise IndexError.
Proof.
  intros Hv Hidx Hne.
  destruct (Nat.lt_ge_cases (List.length cpi_mom) (List.length cpi_yoy)) as [Hs|Hl];
    [apply align_cpi_short; assumption|].
  destruct (schedule_returns ny_tz cpi_yoy Hv) as [[releases [Hsched Hrl]] _].
  unfold align_cpi_to_hours. rewrite Hsched, Hidx. cbn [bind]. rewrite cpi_fill_split.
  rewrite fill_intervals_empty_index; [reflexivity| |].
  - rewrite length_map, length_combine, length_map. lia.
  - intros ->. destruct cpi_yoy; [contradiction|discriminate].
Qed.

Lemma align_cpi_returns {V : Type} (ny_tz : tzinfo) (cpi_yoy : list (date * V))
      (cpi_mom : list V) (hourly_index : list (option instant)) :
  Forall valid_date (map fst cpi_yoy) ->
  dropna hourly_index <> [] \/ cpi_yoy = [] ->
  (List.length cpi_yoy <= List.length cpi_mom)%nat ->
  exists df, align_cpi_to_hours ny_tz cpi_yoy cpi_mom hourly_index = Ret df
             /\ cpi_index df = dropna hourly_index.
Proof.
  intros Hv [Hne| ->] Hlen.
  - destruct (schedule_returns ny_tz cpi_yoy Hv) as [[releases [Hsched _]] _].
    destruct (getitem_last_nonempty _ Hne) as [last Hlast].
    eexists. split; [apply (align_cpi_run _ _ _ _ releases last Hsched Hlen Hlast)|].
    reflexivity.
  - eexists. split; reflexivity.
Qed.

(** The single-column aligners differ in their schedule and their fill
    only; [run] is the aligner once its releases are known. *)
Lemma fill_intervals_outcome {V : Type} (release_times : list instant)
      (values : list V) (hourly_index : list instant) :
  (List.length release_times <= List.length values)%nat ->
  (hourly_index <> [] \/ release_times = [] ->
   exists column,
     fill_intervals release_times values hourly_index 0 release_times
                    (empty_column hourly_index) = Ret column)
  /\ (hourly_index = [] -> release_times <> [] ->
      fill_intervals release_times values hourly_index 0 release_times
                     (empty_column hourly_index) = Raise IndexError).
Proof.
  intros Hlen. split.
  - intros [Hne| ->]; [|eexists; reflexivity].
    destruct (getitem_last_nonempty _ Hne) as [last Hlast].
    eexists. apply (fill_intervals_ok _ _ _ last); assumption.
  - intros -> Hne. apply fill_intervals_empty_index; assumption.
Qed.

Lemma align_ppi_outcome {V : Type} (ny_tz : tzinfo) (ppi_yoy : list (date * V))
      (hourly_index : list (option instant)) :
  Forall valid_date (map fst ppi_yoy) ->
  (dropna hourly_index <> [] \/ ppi_yoy = [] ->
   exists df, align_ppi_to_hours ny_tz ppi_yoy hourly_index = Ret df
              /\ index df = dropna hourly_index)
  /\ (dropna hourly_index = [] -> ppi_yoy <> [] ->
      align_ppi_to_hours ny_tz ppi_yoy hourly_index = Raise IndexError).
Proof.
  intros Hv.
  destruct (schedule_returns ny_tz ppi_yoy Hv) as (_ & [releases [Hsched Hrl]] & _).
  destruct (fill_intervals_outcome releases (map snd ppi_yoy) (dropna hourly_index))
    as [Hok Hfail]; [rewrite length_map; lia|].
  unfold align_ppi_to_hours. rewrite Hsched. cbn [bind]. split.
  - intros H. destruct Hok as [column Hc].
    { destruct H as [H| ->]; [left; exact H|right].
      destruct releases; [reflexivity|discriminate]. }
    rewrite Hc. cbn [bind]. eexists. split; reflexivity.
  - intros Hidx Hne. rewrite Hfail; [reflexivity|exact Hidx|].
    intros ->. destruct ppi_yoy; [contradiction|discriminate].
Qed.

Lemma align_nfp_outcome {V : Type} (ny_tz : tzinfo) (nfp_changes : list (date * V))
      (hourly_index : list (option instant)) :
  Forall valid_date (map fst nfp_changes) ->
  (dropna hourly_index <> [] \/ nfp_changes = [] ->
   exists df, align_nfp_to_hours ny_tz nfp_changes hourly_index = Ret df
              /\ index df = dropna hourly_index)
  /\ (dropna hourly_index = [] -> nfp_changes <> [] ->
      align_nfp_to_hours ny_tz nfp_changes hourly_index = Raise IndexError).
Proof.
  intros Hv.
  destruct (schedule_returns ny_tz nfp_changes Hv) as (_ & _ & [releases [Hsched Hrl]]).
  destruct (fill_intervals_outcome releases (map snd nfp_changes) (dropna hourly_index))
    as [Hok Hfail]; [rewrite length_map; lia|].
  unfold align_nfp_to_hours. rewrite Hsched. cbn [bind]. split.
  - intros H. destruct Hok as [column Hc].
    { destruct H as [H| ->]; [left; exact H|right].
      destruct releases; [reflexivity|discriminate]. }
    rewrite Hc. cbn [bind]. eexists. split; reflexivity.
  - intros Hidx Hne. rewrite Hfail; [reflexivity|exact Hidx|].
    intros ->. destruct nfp_changes; [contradiction|discriminate].
Qed.

Lemma align_rate_outcome {V : Type} (rate_changes : list (instant * V))
      (hourly_index : list (option instant)) :
  (dropna hourly_index <> [] \/ rate_changes = [] ->
   exists df, align_rate_to_hours rate_changes hourly_index = Ret df
              /\ index df = dropna hourly_index)
  /\ (dropna hourly_index = [] -> rate_changes <> [] ->
      align_rate_to_hours rate_changes hourly_index = Raise IndexError).
Proof.
  destruct (fill_intervals_outcome (map fst rate_changes) (map snd rate_changes)
                                   (dropna hourly_index))
    as [Hok Hfail]; [rewrite !length_map; lia|].
  unfold align_rate_to_hours. split.
  - intros H. destruct Hok as [column Hc].
    { destruct H as [H| ->]; [left; exact H|right; reflexivity]. }
    rewrite Hc. cbn [bind]. eexists. split; reflexivity.
  - intros Hidx Hne. rewrite Hfail; [reflexivity|exact Hidx|].
    intros H. apply map_eq_nil in H. contradiction.
Qed.

(** C10, as the code has it. The interval aligners read the last timeline
    entry once there is a release: each of them returns a frame when the
    (cleaned) timeline is non-empty or there is no observation, and raises
    IndexError when the timeline is empty and there is one.  The CPI
    aligner pairs its two columns by position and needs a MoM value for
    every YoY observation: with fewer it raises IndexError whatever the
    timeline. *)
Theorem align_needs_timeline {V : Type} (ny_tz : tzinfo)
        (cpi_yoy ppi_yoy nfp_changes : list (date * V)) (cpi_mom : list V)
        (rate_changes : list (instant * V)) (hourly_index : list (option instant)) :
  Forall valid_date (map fst cpi_yoy) ->
  Forall valid_date (map fst ppi_yoy) ->
  Forall valid_date (map fst nfp_changes) ->
  ((dropna hourly_index <> [] \/ cpi_yoy = [] ->
    (List.length cpi_yoy <= List.length cpi_mom)%nat ->
    exists df, align_cpi_to_hours ny_tz cpi_yoy cpi_mom hourly_index = Ret df
               /\ cpi_index df = dropna hourly_index)
   /\ (dropna hourly_index = [] -> cpi_yoy <> [] ->
       align_cpi_to_hours ny_tz cpi_yoy cpi_mom hourly_index = Raise IndexError)
   /\ ((List.length cpi_mom < List.length cpi_yoy)%nat ->
       align_cpi_to_hours ny_tz cpi_yoy cpi_mom hourly_index = Raise IndexError))
  /\ ((dropna hourly_index <> [] \/ ppi_yoy = [] ->
       exists df, align_ppi_to_hours ny_tz ppi_yoy hourly_index = Ret df
                  /\ index df = dropna hourly_index)
      /\ (dropna hourly_index = [] -> ppi_yoy <> [] ->
          align_ppi_to_hours ny_tz ppi_yoy hourly_index = Raise IndexError))
  /\ ((dropna hourly_index <> [] \/ nfp_changes = [] ->
       exists df, align_nfp_to_hours ny_tz nfp_changes hourly_index = Ret df
                  /\ index df = dropna hourly_index)
      /\ (dropna hourly_index = [] -> nfp_changes <> [] ->
          align_nfp_to_hours ny_tz nfp_changes hourly_index = Raise IndexError))
  /\ ((dropna hourly_index <> [] \/ rate_changes = [] ->
       exists df, align_rate_to_hours rate_changes hourly_index = Ret df
                  /\ index df = dropna hourly_index)
      /\ (dropna hourly_index = [] -> rate_changes <> [] ->
          align_rate_to_hours rate_changes hourly_index = Raise IndexError)).
Proof.
  intros Hc Hp Hn. split; [|split; [|split]].
  - split; [|split].
    + intros H Hlen. apply align_cpi_returns; assumption.
    + apply align_cpi_empty_index. exact Hc.
    + apply align_cpi_short. exact Hc.
  - apply align_ppi_outcome. exact Hp.
  - apply align_nfp_outcome. exact Hn.
  - apply align_rate_outcome.
Qed.

Lemma align_needs_timeline_witness :
  ((dropna nat_timeline <> [] \/ [(mkdate 2022 12 1, 64)] = [] ->
    (List.length [(mkdate 2022 12 1, 64)] <= List.length [5])%nat ->
    exists df, align_cpi_to_hours us_eastern [(mkdate 2022 12 1, 64)] [5] nat_timeline = Ret df
               /\ cpi_index df = dropna nat_timeline)
   /\ (dropna nat_timeline = [] -> [(mkdate 2022 12 1, 64)] <> [] ->
       align_cpi_to_hours us_eastern [(mkdate 2022 12 1, 64)] [5] nat_timeline
       = Raise IndexError)
   /\ ((List.length [5] < List.length [(mkdate 2022 12 1, 64)])%nat ->
       align_cpi_to_hours us_eastern [(mkdate 2022 12 1, 64)] [5] nat_timeline
       = Raise IndexError))
  /\ ((dropna nat_timeline <> [] \/ [(mkdate 2022 12 1, 64)] = [] ->
       exists df, align_ppi_to_hours us_eastern [(mkdate 2022 12 1, 64)] nat_timeline = Ret df
                  /\ index df = dropna nat_timeline)
      /\ (dropna nat_timeline = [] -> [(mkdate 2022 12 1, 64)] <> [] ->
          align_ppi_to_hours us_eastern [(mkdate 2022 12 1, 64)] nat_timeline
          = Raise IndexError))
  /\ ((dropna nat_timeline <> [] \/ [(mkdate 2022 12 1, 64)] = [] ->
       exists df, align_nfp_to_hours us_eastern [(mkdate 2022 12 1, 64)] nat_timeline = Ret df
                  /\ index df = dropna nat_timeline)
      /\ (dropna nat_timeline = [] -> [(mkdate 2022 12 1, 64)] <> [] ->
          align_nfp_to_hours us_eastern [(mkdate 2022 12 1, 64)] nat_timeline
          = Raise IndexError))
  /\ ((dropna nat_timeline <> [] \/ example_events = [] ->
       exists df, align_rate_to_hours example_events nat_timeline = Ret df
                  /\ index df = dropna nat_timeline)
      /\ (dropna nat_timeline = [] -> example_events <> [] ->
          align_rate_to_hours example_events nat_timeline = Raise IndexError)).
Proof.
  apply (align_needs_timeline us_eastern [(mkdate 2022 12 1, 64)]
           [(mkdate 2022 12 1, 64)] [(mkdate 2022 12 1, 64)] [5] example_events nat_timeline).
  - repeat (constructor; [apply valid_date_intro; reflexivity|]). constructor.
  - repeat (constructor; [apply valid_date_intro; reflexivity|]). constructor.
  - repeat (constructor; [apply valid_date_intro; reflexivity|]). constructor.
Defined.

(** C10 as stated fails for the CPI aligner: on a non-empty timeline it
    still raises IndexError when the MoM column has no value for a YoY
    observation. *)
Lemma align_cpi_short_counterexample :
  dropna example_timeline <> []
  /\ align_cpi_to_hours us_eastern [(mkdate 2022 12 1, 64)] [] example_timeline
     = Raise IndexError.
Proof. split; [discriminate|vm_compute; reflexivity]. Qed.

(** C9. Empty input is not an error: every scheduler returns the empty
    schedule for the empty series; every aligner returns, for no
    observations, a frame with one absent entry per timeline point; the
    aggregator returns the empty table for no articles. *)
Theorem empty_input_not_an_error {V : Type} (ny_tz : tzinfo) (rate_neq : V -> V -> bool)
        (cpi_mom : list V) (hourly_index : list (option instant))
        (start_dt_utc end_dt_utc : instant) :
  get_cpi_release_schedule ny_tz (@nil (date * V)) = Ret []
  /\ get_ppi_release_schedule ny_tz (@nil (date * V)) = Ret []
  /\ get_nfp_release_schedule ny_tz (@nil (date * V)) = Ret []
  /\ get_fomc_decision_times ny_tz rate_neq [] = []
  /\ align_cpi_to_hours ny_tz [] cpi_mom hourly_index
     = Ret (mkcpi_frame (dropna hourly_index) (empty_column (dropna hourly_index))
                        (empty_column (dropna hourly_index)))
  /\ align_ppi_to_hours ny_tz (@nil (date * V)) hourly_index
     = Ret (mkframe (dropna hourly_index) (empty_column (dropna hourly_index)))
  /\ align_nfp_to_hours ny_tz (@nil (date * V)) hourly_index
     = Ret (mkframe (dropna hourly_index) (empty_column (dropna hourly_index)))
  /\ align_rate_to_hours (@nil (instant * V)) hourly_index
     = Ret (mkframe (dropna hourly_index) (empty_column (dropna hourly_index)))
  /\ align_to_hourly (@nil (option instant * V)) hourly_index
     = mkframe (sort_values Z.ltb (dropna hourly_index))
               (empty_column (sort_values Z.ltb (dropna hourly_index)))
  /\ List.length (@empty_column V (dropna hourly_index))
     = List.length (dropna hourly_index)
  /\ Forall (fun slot => slot = None) (@empty_column V (dropna hourly_index))
  /\ aggregate_to_hourly [] start_dt_utc end_dt_utc = [].
Proof.
  repeat split; try reflexivity.
  - unfold align_cpi_to_hours, get_cpi_release_schedule.
    cbn [for_each bind cpi_fill fst snd]. rewrite !ffill_all_nan. reflexivity.
  - unfold align_ppi_to_hours, get_ppi_release_schedule.
    cbn [for_each bind fill_intervals]. rewrite ffill_all_nan. reflexivity.
  - unfold align_nfp_to_hours, get_nfp_release_schedule.
    cbn [for_each bind fill_intervals]. rewrite ffill_all_nan. reflexivity.
  - unfold align_rate_to_hours.
    cbn [map bind fill_intervals]. rewrite bfill_all_nan. reflexivity.
  - unfold align_to_hourly. rewrite merge_asof_backward_fst, merge_asof_backward_snd.
    cbn [asof_from dropna_Datetime map dropna sort_values].
    change (map (fun _ : instant => @None V) ?l) with (@empty_column V l).
    rewrite ffill_all_nan, bfill_all_nan. reflexivity.
  - unfold empty_column. apply length_map.
  - unfold empty_column. apply Forall_forall. intros slot Hin.
    apply in_map_iff in Hin. destruct Hin as [_ [<- _]]. reflexivity.
Qed.

(** ** The aggregator *)

Lemma floor_hour_spec (t : instant) :
  floor_hour t = 3600 * (t / 3600) /\ floor_hour t <= t < floor_hour t + 3600.
Proof. unfold floor_hour. zdiv. Qed.

Lemma floor_hour_mono (a b : instant) : a <= b -> floor_hour a <= floor_hour b.
Proof. unfold floor_hour. intros H. zdiv. Qed.

Lemma date_range_1H_In (lo hi h : instant) :
  In h (date_range_1H lo hi)
  <-> lo <= h <= hi /\ (h - lo) mod 3600 = 0.
Proof.
  unfold date_range_1H. rewrite in_map_iff. split.
  - intros [k [<- Hk]]. apply in_seq in Hk.
    assert (Z.of_nat k < (hi - lo) / 3600 + 1) by lia.
    split; [zdiv|]. replace (lo + 3600 * Z.of_nat k - lo) with (Z.of_nat k * 3600) by lia.
    apply Z_mod_mult.
  - intros [Hr Hm]. exists (Z.to_nat ((h - lo) / 3600)). split.
    + rewrite Z2Nat.id by zdiv. zdiv.
    + apply in_seq. split; [lia|]. simpl.
      apply Z2Nat.inj_lt; [zdiv|zdiv|]. zdiv.
Qed.

Lemma fold_min_le (t : Z) (ts : list Z) :
  forall x, In x (t :: ts) -> fold_right Z.min t ts <= x.
Proof.
  induction ts as [|y ts IH]; simpl.
  - intros x [<-|[]]. lia.
  - intros x H.
    assert (Ht : fold_right Z.min t ts <= t) by (apply IH; left; reflexivity).
    destruct H as [<-|[<-|H]]; try lia.
    assert (fold_right Z.min t ts <= x) by (apply IH; right; exact H). lia.
Qed.

Lemma fold_max_ge (t : Z) (ts : list Z) :
  forall x, In x (t :: ts) -> x <= fold_right Z.max t ts.
Proof.
  induction ts as [|y ts IH]; simpl.
  - intros x [<-|[]]. lia.
  - intros x H.
    assert (Ht : t <= fold_right Z.max t ts) by (apply IH; left; reflexivity).
    destruct H as [<-|[<-|H]]; try lia.
    assert (x <= fold_right Z.max t ts) by (apply IH; right; exact H). lia.
Qed.

Lemma find_keyed_In {B : Type} (f : Z -> B) (h : Z) (l : list Z) :
  In h l -> find (fun r => fst r =? h) (map (fun k => (k, f k)) l) = Some (h, f h).
Proof.
  induction l as [|k l IH]; simpl; [intros []|]. intros H.
  destruct (k =? h) eqn:E.
  - apply Z.eqb_eq in E. rewrite E. reflexivity.
  - apply Z.eqb_neq in E. destruct H as [H|H]; [contradiction|]. apply IH, H.
Qed.

Lemma find_keyed_out {B : Type} (f : Z -> B) (h : Z) (l : list Z) :
  ~ In h l -> find (fun r => fst r =? h) (map (fun k => (k, f k)) l) = None.
Proof.
  induction l as [|k l IH]; simpl; [reflexivity|]. intros H.
  destruct (k =? h) eqn:E.
  - apply Z.eqb_eq in E. exfalso. apply H. left. exact E.
  - apply IH. intros Hin. apply H. right. exact Hin.
Qed.

Lemma filter_filter {A : Type} (f g : A -> bool) (l : list A) :
  filter f (filter g l) = filter (fun a => g a && f a) l.
Proof.
  induction l as [|a l IH]; simpl; [reflexivity|].
  destruct (g a); simpl; [destruct (f a)|]; rewrite IH; reflexivity.
Qed.

Lemma bucket_of_group (df : list article) (t : string) (h : instant) :
  filter (in_bin h) (get_group df t) = bucket df t h.
Proof. unfold get_group, bucket. apply filter_filter. Qed.

(** An hour outside the span of a group's articles holds none of them. *)
Lemma outside_resample_empty (group : list article) (t0 : instant) (ts : list instant)
      (h : instant) :
  map time_published group = t0 :: ts ->
  ~ In h (date_range_1H (floor_hour (fold_right Z.min t0 ts))
                        (floor_hour (fold_right Z.max t0 ts))) ->
  filter (in_bin h) group = [].
Proof.
  intros Htimes Hout.
  destruct (filter (in_bin h) group) as [|a rest] eqn:E; [reflexivity|exfalso].
  assert (Ha : In a (filter (in_bin h) group)) by (rewrite E; left; reflexivity).
  apply filter_In in Ha. destruct Ha as [Hin Hbin].
  unfold in_bin in Hbin. apply Z.eqb_eq in Hbin.
  assert (Ht : In (time_published a) (t0 :: ts))
    by (rewrite <- Htimes; apply in_map; exact Hin).
  pose proof (fold_min_le t0 ts _ Ht) as Hmin.
  pose proof (fold_max_ge t0 ts _ Ht) as Hmax.
  apply floor_hour_mono in Hmin. apply floor_hour_mono in Hmax.
  rewrite Hbin in Hmin, Hmax.
  apply Hout. apply date_range_1H_In. split; [lia|].
  destruct (floor_hour_spec (time_published a)) as [Eh _]. rewrite Hbin in Eh.
  destruct (floor_hour_spec (fold_right Z.min t0 ts)) as [El _].
  rewrite Eh, El. zdiv.
Qed.

(** Reindexing the resampled group at hour [h] gives the row of the bucket
    of [h], whether the hour was resampled or not. *)
Lemma reindex_row_bucket (df : list article) (t : string) (h : instant) :
  reindex_row (resample_1H (get_group df t)) t h = row_of_bucket t h (bucket df t h).
Proof.
  unfold reindex_row, resample_1H, row_of_bucket.
  destruct (map time_published (get_group df t)) as [|t0 ts] eqn:Etimes.
  - apply map_eq_nil in Etimes. rewrite <- bucket_of_group, Etimes. reflexivity.
  - destruct (in_dec Z.eq_dec h
                      (date_range_1H (floor_hour (fold_right Z.min t0 ts))
                                     (floor_hour (fold_right Z.max t0 ts))))
      as [Hin|Hout].
    + rewrite (find_keyed_In _ h _ Hin). rewrite bucket_of_group. reflexivity.
    + rewrite (find_keyed_out _ h _ Hout). rewrite <- bucket_of_group.
      rewrite (outside_resample_empty _ t0 ts h Etimes Hout). reflexivity.
Qed.

Lemma group_keys_In (df : list article) (t : string) :
  In t (group_keys df) <-> In t (map ticker df).
Proof. unfold group_keys. rewrite sort_values_In, nodup_In. reflexivity. Qed.

(** The rows of the hourly table: one for every subject that has an
    article and every hour of the grid, holding that bucket's aggregates. *)
Lemma aggregate_to_hourly_rows (df : list article) (start_dt_utc end_dt_utc : instant)
      (row : hourly_row) :
  In row (aggregate_to_hourly df start_dt_utc end_dt_utc)
  <-> exists t h,
      In t (map ticker df)
      /\ In h (date_range_1H (floor_hour start_dt_utc) (floor_hour end_dt_utc))
      /\ row = row_of_bucket t h (bucket df t h).
Proof.
  unfold aggregate_to_hourly. destruct df as [|a df'].
  - split; [intros []|intros (t & h & [] & _)].
  - set (df := a :: df').
    set (grid := date_range_1H (floor_hour start_dt_utc) (floor_hour end_dt_utc)).
    set (frames := map (fun t => map (reindex_row (resample_1H (get_group df t)) t) grid)
                       (group_keys df)).
    assert (Hres : In row (match frames with
                           | [] => []
                           | _ :: _ => sort_values row_lt (concat frames)
                           end)
                   <-> In row (concat frames)).
    { destruct frames; [reflexivity|apply sort_values_In]. }
    rewrite Hres, in_concat. unfold frames. split.
    + intros [frame [Hframe Hrow]]. apply in_map_iff in Hframe.
      destruct Hframe as [t [<- Ht]]. apply in_map_iff in Hrow.
      destruct Hrow as [h [<- Hh]]. exists t, h.
      split; [apply group_keys_In; exact Ht|]. split; [exact Hh|].
      apply reindex_row_bucket.
    + intros (t & h & Ht & Hh & ->).
      exists (map (reindex_row (resample_1H (get_group df t)) t) grid). split.
      * apply in_map_iff. exists t. split; [reflexivity|apply group_keys_In; exact Ht].
      * apply in_map_iff. exists h. split; [apply reindex_row_bucket|exact Hh].
Qed.

Lemma mean_is_mean_of_present (xs : list (option Q)) : mean_of_present xs (mean xs).
Proof.
  unfold mean, mean_of_present. destruct (dropna xs) as [|y ys] eqn:E.
  - reflexivity.
  - split; [discriminate|]. apply Qred_correct.
Qed.

Lemma dropna_all_present {A B : Type} (f : A -> option B) (l : list A) :
  (forall a, In a l -> f a <> None) ->
  List.length (dropna (map f l)) = List.length l.
Proof.
  induction l as [|a l IH]; intros H; simpl; [reflexivity|].
  destruct (f a) eqn:E.
  - simpl. rewrite IH; [reflexivity|]. intros a' Ha'. apply H. right. exact Ha'.
  - exfalso. apply (H a); [left; reflexivity|exact E].
Qed.

(** C8, as the code has it. For every subject that has an article and
    every hour of the grid the table has exactly the row of that bucket.
    A bucket with no record has count 0 and every mean absent.  A bucket
    whose records all carry a url has count equal to its number of
    records.  Each mean is the arithmetic mean over the bucket's records
    that carry the field, and is absent when none does. *)
Theorem aggregate_absence_vs_zero (df : list article) (start_dt_utc end_dt_utc : instant)
        (t : string) (h : instant) :
  In t (map ticker df) ->
  In h (date_range_1H (floor_hour start_dt_utc) (floor_hour end_dt_utc)) ->
  exists row,
    In row (aggregate_to_hourly df start_dt_utc end_dt_utc)
    /\ row_ticker row = t /\ Datetime row = h
    /\ (forall row', In row' (aggregate_to_hourly df start_dt_utc end_dt_utc) ->
                     row_ticker row' = t -> Datetime row' = h -> row' = row)
    /\ (bucket df t h = [] ->
        news_count row = 0
        /\ overall_sentiment_mean row = None
        /\ ticker_sentiment_mean row = None
        /\ ticker_relevance_mean row = None)
    /\ ((forall a, In a (bucket df t h) -> url a <> None) ->
        news_count row = Z.of_nat (List.length (bucket df t h)))
    /\ mean_of_present (map overall_sentiment_score (bucket df t h))
                       (overall_sentiment_mean row)
    /\ mean_of_present (map ticker_sentiment_score (bucket df t h))
                       (ticker_sentiment_mean row)
    /\ mean_of_present (map ticker_relevance_score (bucket df t h))
                       (ticker_relevance_mean row).
Proof.
  intros Ht Hh. exists (row_of_bucket t h (bucket df t h)).
  split; [apply aggregate_to_hourly_rows; exists t, h; auto|].
  split; [reflexivity|]. split; [reflexivity|]. split; [|split; [|split]].
  - intros row' Hin Ht' Hh'. apply aggregate_to_hourly_rows in Hin.
    destruct Hin as (t' & h' & _ & _ & ->). simpl in Ht', Hh'. subst. reflexivity.
  - intros ->. repeat split; reflexivity.
  - intros Hurl. cbn [row_of_bucket news_count]. unfold count.
    rewrite (dropna_all_present url _ Hurl). reflexivity.
  - cbn [row_of_bucket overall_sentiment_mean ticker_sentiment_mean
                       ticker_relevance_mean].
    repeat split; apply mean_is_mean_of_present.
Qed.

Lemma aggregate_absence_vs_zero_witness :
  exists row,
    In row (aggregate_to_hourly [article_complete; article_without_score]
                                (utc 2023 1 2 9 30) (utc 2023 1 2 11 0))
    /\ row_ticker row = "MSFT"%string /\ Datetime row = utc 2023 1 2 9 0
    /\ (forall row', In row' (aggregate_to_hourly [article_complete; article_without_score]
                                (utc 2023 1 2 9 30) (utc 2023 1 2 11 0)) ->
                     row_ticker row' = "MSFT"%string ->
                     Datetime row' = utc 2023 1 2 9 0 -> row' = row)
    /\ (bucket [article_complete; article_without_score] "MSFT" (utc 2023 1 2 9 0) = [] ->
        news_count row = 0
        /\ overall_sentiment_mean row = None
        /\ ticker_sentiment_mean row = None
        /\ ticker_relevance_mean row = None)
    /\ ((forall a, In a (bucket [article_complete; article_without_score] "MSFT" (utc 2023 1 2 9 0)) ->
                   url a <> None) ->
        news_count row
        = Z.of_nat (List.length (bucket [article_complete; article_without_score] "MSFT"
                                        (utc 2023 1 2 9 0))))
    /\ mean_of_present (map overall_sentiment_score
                            (bucket [article_complete; article_without_score] "MSFT" (utc 2023 1 2 9 0)))
                       (overall_sentiment_mean row)
    /\ mean_of_present (map ticker_sentiment_score
                            (bucket [article_complete; article_without_score] "MSFT" (utc 2023 1 2 9 0)))
                       (ticker_sentiment_mean row)
    /\ mean_of_present (map ticker_relevance_score
                            (bucket [article_complete; article_without_score] "MSFT" (utc 2023 1 2 9 0)))
                       (ticker_relevance_mean row).
Proof.
  apply (aggregate_absence_vs_zero [article_complete; article_without_score]
           (utc 2023 1 2 9 30) (utc 2023 1 2 11 0) "MSFT" (utc 2023 1 2 9 0)).
  - simpl. left. reflexivity.
  - vm_compute. left. reflexivity.
Defined.

(** C8 as stated fails on records that lack a field.  An article without
    an overall score gives a bucket with one record and count 1 whose
    overall mean is absent; an article without a url is not counted, so
    its bucket has count 0 and yet carries means. *)
Lemma aggregate_missing_field_counterexample :
  bucket [article_without_url; article_without_score] "MSFT" (utc 2023 1 2 10 0)
  = [article_without_score]
  /\ bucket [article_without_url; article_without_score] "AAPL" (utc 2023 1 2 10 0)
     = [article_without_url]
  /\ aggregate_to_hourly [article_without_url; article_without_score]
                         (utc 2023 1 2 10 0) (utc 2023 1 2 10 59)
     = [mkhourly_row (utc 2023 1 2 10 0) "AAPL" 0
                     (Some (1 # 2)) (Some (1 # 4)) (Some (9 # 10));
        mkhourly_row (utc 2023 1 2 10 0) "MSFT" 1
                     None (Some (1 # 5)) (Some (4 # 5))].
Proof. repeat split; vm_compute; reflexivity. Qed.

(** * Further properties of the scripts *)

(** ** The single-column aligners *)

Lemma align_nfp_run {V : Type} (ny_tz : tzinfo) (nfp_changes : list (date * V))
      (hourly_index : list (option instant)) (releases : list instant)
      (last : instant) :
  get_nfp_release_schedule ny_tz nfp_changes = Ret releases ->
  getitem_last (dropna hourly_index) = Ret last ->
  align_nfp_to_hours ny_tz nfp_changes hourly_index
  = Ret (mkframe (dropna hourly_index)
                 (ffill (column_after (combine releases (map snd nfp_changes))
                                      (last + 3600) (dropna hourly_index)
                                      (empty_column (dropna hourly_index))))).
Proof.
  intros Hsched Hlast. unfold align_nfp_to_hours. rewrite Hsched. cbn [bind].
  pose proof (for_each_length _ _ _ Hsched) as Hrl.
  rewrite (fill_intervals_ok _ _ _ last) by (rewrite ?length_map; auto; lia).
  reflexivity.
Qed.

Lemma align_ppi_run {V : Type} (ny_tz : tzinfo) (ppi_yoy : list (date * V))
      (hourly_index : list (option instant)) (releases : list instant)
      (last : instant) :
  get_ppi_release_schedule ny_tz ppi_yoy = Ret releases ->
  getitem_last (dropna hourly_index) = Ret last ->
  align_ppi_to_hours ny_tz ppi_yoy hourly_index
  = Ret (mkframe (dropna hourly_index)
                 (ffill (column_after (combine releases (map snd ppi_yoy))
                                      (last + 3600) (dropna hourly_index)
                                      (empty_column (dropna hourly_index))))).
Proof.
  intros Hsched Hlast. unfold align_ppi_to_hours. rewrite Hsched. cbn [bind].
  pose proof (for_each_length _ _ _ Hsched) as Hrl.
  rewrite (fill_intervals_ok _ _ _ last) by (rewrite ?length_map; auto; lia).
  reflexivity.
Qed.

Lemma ppi_release_sorted {V : Type} (ny_tz : tzinfo) (series : list (date * V))
      (releases : list instant) :
  eastern_range ny_tz ->
  Forall valid_date (map fst series) -> Sorted date_le (map fst series) ->
  get_ppi_release_schedule ny_tz series = Ret releases ->
  Sorted Z.le releases.
Proof.
  intros Htz Hv Hs Hrun.
  unfold get_ppi_release_schedule in Hrun. rewrite for_each_on_index in Hrun.
  apply (schedule_sorted _ _ _ Hv Hs) in Hrun; [exact Hrun|].
  intros a b ta tb. apply fixed_day_release_mono; [exact Htz|lia].
Qed.

Lemma cpi_release_sorted {V : Type} (ny_tz : tzinfo) (series : list (date * V))
      (releases : list instant) :
  eastern_range ny_tz ->
  Forall valid_date (map fst series) -> Sorted date_le (map fst series) ->
  get_cpi_release_schedule ny_tz series = Ret releases ->
  Sorted Z.le releases.
Proof.
  intros Htz Hv Hs Hrun.
  unfold get_cpi_release_schedule in Hrun. rewrite for_each_on_index in Hrun.
  apply (schedule_sorted _ _ _ Hv Hs) in Hrun; [exact Hrun|].
  intros a b ta tb. apply fixed_day_release_mono; [exact Htz|lia].
Qed.

Lemma nfp_release_sorted {V : Type} (ny_tz : tzinfo) (series : list (date * V))
      (releases : list instant) :
  eastern_range ny_tz ->
  Forall valid_date (map fst series) -> Sorted date_le (map fst series) ->
  get_nfp_release_schedule ny_tz series = Ret releases ->
  Sorted Z.le releases.
Proof.
  intros Htz Hv Hs Hrun.
  unfold get_nfp_release_schedule in Hrun. rewrite for_each_on_index in Hrun.
  apply (schedule_sorted _ _ _ Hv Hs) in Hrun; [exact Hrun|].
  intros a b ta tb. apply nfp_release_mono. exact Htz.
Qed.

(** The forward-filled as-of column, slot by slot. *)
Lemma ffill_asof_slots {V : Type} (events : list (instant * V)) (releases : list instant)
      (index : list instant) (last : instant) (k : nat) (t : instant) :
  map fst events = releases -> Sorted Z.le releases -> Sorted Z.le index ->
  getitem_last index = Ret last ->
  nth_error index k = Some t ->
  as_of_slot events t
             (nth_error (ffill (column_after events (last + 3600) index
                                             (empty_column index))) k)
  /\ no_lookahead_slot events t
                       (nth_error (ffill (column_after events (last + 3600) index
                                                       (empty_column index))) k).
Proof.
  intros <- Hrel Hidx Hlast Hk.
  rewrite (column_after_sorted _ _ last Hrel Hidx Hlast). split.
  - apply as_of_slot_fill;
      [intros c j v; apply ffill_from_keeps|exact Hrel|exact Hk].
  - apply no_lookahead_ffill; assumption.
Qed.

(** X1. For a series in date order, the NFP and the PPI aligner give the
    slot of instant [t] the value of an observation with the greatest
    release at or before [t], and never a value released after [t]. *)
Theorem nfp_ppi_as_of {V : Type} (ny_tz : tzinfo)
        (nfp_changes ppi_yoy : list (date * V))
        (hourly_index : list (option instant)) (k : nat) (t : instant) :
  eastern_range ny_tz ->
  Forall valid_date (map fst nfp_changes) -> Sorted date_le (map fst nfp_changes) ->
  Forall valid_date (map fst ppi_yoy) -> Sorted date_le (map fst ppi_yoy) ->
  Sorted Z.le (dropna hourly_index) ->
  nth_error (dropna hourly_index) k = Some t ->
  (exists releases df,
      get_nfp_release_schedule ny_tz nfp_changes = Ret releases
      /\ align_nfp_to_hours ny_tz nfp_changes hourly_index = Ret df
      /\ index df = dropna hourly_index
      /\ as_of_slot (combine releases (map snd nfp_changes)) t
                    (nth_error (column df) k)
      /\ no_lookahead_slot (combine releases (map snd nfp_changes)) t
                           (nth_error (column df) k))
  /\ (exists releases df,
         get_ppi_release_schedule ny_tz ppi_yoy = Ret releases
         /\ align_ppi_to_hours ny_tz ppi_yoy hourly_index = Ret df
         /\ index df = dropna hourly_index
         /\ as_of_slot (combine releases (map snd ppi_yoy)) t
                       (nth_error (column df) k)
         /\ no_lookahead_slot (combine releases (map snd ppi_yoy)) t
                              (nth_error (column df) k)).
Proof.
  intros Htz Hvn Hsn Hvp Hsp Hidx Hk.
  destruct (getitem_last_nonempty _ (nth_error_nonempty _ _ _ Hk)) as [last Hlast].
  split.
  - destruct (schedule_returns ny_tz nfp_changes Hvn) as (_ & _ & [releases [Hs Hl]]).
    exists releases. eexists. split; [exact Hs|].
    split; [apply (align_nfp_run _ _ _ releases last Hs Hlast)|].
    cbn [index column]. split; [reflexivity|].
    apply (ffill_asof_slots _ releases); try assumption.
    + apply map_fst_combine_le. rewrite length_map. lia.
    + apply (nfp_release_sorted ny_tz nfp_changes); assumption.
  - destruct (schedule_returns ny_tz ppi_yoy Hvp) as (_ & [releases [Hs Hl]] & _).
    exists releases. eexists. split; [exact Hs|].
    split; [apply (align_ppi_run _ _ _ releases last Hs Hlast)|].
    cbn [index column]. split; [reflexivity|].
    apply (ffill_asof_slots _ releases); try assumption.
    + apply map_fst_combine_le. rewrite length_map. lia.
    + apply (ppi_release_sorted ny_tz ppi_yoy); assumption.
Qed.


Lemma nfp_ppi_as_of_witness :
  (exists releases df,
      get_nfp_release_schedule us_eastern [(mkdate 2023 1 1, 10); (mkdate 2023 2 1, 12)]
      = Ret releases
      /\ align_nfp_to_hours us_eastern [(mkdate 2023 1 1, 10); (mkdate 2023 2 1, 12)]
                            example_timeline = Ret df
      /\ index df = dropna example_timeline
      /\ as_of_slot (combine releases (map snd [(mkdate 2023 1 1, 10); (mkdate 2023 2 1, 12)]))
                    (utc 2023 2 3 14 0) (nth_error (column df) 1)
      /\ no_lookahead_slot
           (combine releases (map snd [(mkdate 2023 1 1, 10); (mkdate 2023 2 1, 12)]))
           (utc 2023 2 3 14 0) (nth_error (column df) 1))
  /\ (exists releases df,
         get_ppi_release_schedule us_eastern [(mkdate 2022 12 1, 64); (mkdate 2023 1 1, 60)]
         = Ret releases
         /\ align_ppi_to_hours us_eastern [(mkdate 2022 12 1, 64); (mkdate 2023 1 1, 60)]
                               example_timeline = Ret df
         /\ index df = dropna example_timeline
         /\ as_of_slot
              (combine releases (map snd [(mkdate 2022 12 1, 64); (mkdate 2023 1 1, 60)]))
              (utc 2023 2 3 14 0) (nth_error (column df) 1)
         /\ no_lookahead_slot
              (combine releases (map snd [(mkdate 2022 12 1, 64); (mkdate 2023 1 1, 60)]))
              (utc 2023 2 3 14 0) (nth_error (column df) 1)).
Proof.
  apply (nfp_ppi_as_of us_eastern [(mkdate 2023 1 1, 10); (mkdate 2023 2 1, 12)]
           [(mkdate 2022 12 1, 64); (mkdate 2023 1 1, 60)] example_timeline 1
           (utc 2023 2 3 14 0)).
  - exact us_eastern_range.
  - repeat (constructor; [apply valid_date_intro; reflexivity|]). constructor.
  - apply Sorted_cons; [apply Sorted_cons; [apply Sorted_nil | apply HdRel_nil]|].
    apply HdRel_cons. apply date_le_intro. reflexivity.
  - repeat (constructor; [apply valid_date_intro; reflexivity|]). constructor.
  - apply Sorted_cons; [apply Sorted_cons; [apply Sorted_nil | apply HdRel_nil]|].
    apply HdRel_cons. apply date_le_intro. reflexivity.
  - vm_compute. repeat constructor; discriminate.
  - reflexivity.
Defined.

(** ** Boundary slots *)

(** X2. When the first timeline point at or after the first decision comes
    before every later decision, the rate aligner's back-fill gives that
    point and every slot above it the first decision's rate. *)
Theorem backfill_first_rate {V : Type} (rel0 : instant) (v0 : V)
        (rest : list (instant * V)) (hourly_index : list (option instant))
        (k0 : nat) (t0 : instant) :
  Sorted Z.le (map fst ((rel0, v0) :: rest)) ->
  Sorted Z.le (dropna hourly_index) ->
  nth_error (dropna hourly_index) k0 = Some t0 ->
  rel0 <= t0 -> (forall e, In e rest -> t0 < fst e) ->
  (forall j tj, (j < k0)%nat -> nth_error (dropna hourly_index) j = Some tj -> tj < rel0) ->
  exists df, align_rate_to_hours ((rel0, v0) :: rest) hourly_index = Ret df
             /\ forall k, (k <= k0)%nat -> nth_error (column df) k = Some (Some v0).
Proof. apply rate_backfill_first_value. Qed.

Lemma backfill_first_rate_witness :
  exists df, align_rate_to_hours ((utc 2023 2 3 13 30, 10) :: [(utc 2023 3 3 13 30, 12)])
                                 example_timeline = Ret df
             /\ forall k, (k <= 1)%nat -> nth_error (column df) k = Some (Some 10).
Proof.
  apply (backfill_first_rate (utc 2023 2 3 13 30) 10 [(utc 2023 3 3 13 30, 12)]
           example_timeline 1 (utc 2023 2 3 14 0)).
  - vm_compute. repeat constructor; discriminate.
  - vm_compute. repeat constructor; discriminate.
  - reflexivity.
  - vm_compute. discriminate.
  - intros e [<-|[]]. vm_compute. reflexivity.
  - intros j tj Hj Hnth. assert (j = 0%nat) by lia. subst j.
    vm_compute in Hnth. injection Hnth as <-. vm_compute. reflexivity.
Defined.

Lemma loc_assign_untouched {A : Type} (index : list instant) (lo hi : instant) (v : A)
      (column : list (option A)) :
  (forall t, In t index -> t < lo) -> loc_assign index lo hi v column = column.
Proof.
  revert column. induction index as [|t index IH]; intros [|old column] H; simpl;
    try reflexivity.
  replace (lo <=? t) with false
    by (symmetry; apply Z.leb_gt; apply H; left; reflexivity).
  cbn [andb]. rewrite IH; [reflexivity|]. intros t' Ht'. apply H. right. exact Ht'.
Qed.

Lemma column_after_untouched {V : Type} (events : list (instant * V)) (stop : instant)
      (index : list instant) (column : list (option V)) :
  (forall e t, In e events -> In t index -> t < fst e) ->
  column_after events stop index column = column.
Proof.
  revert column. induction events as [|[rel v] rest IH]; intros column H;
    [reflexivity|].
  cbn [column_after]. rewrite loc_assign_untouched.
  - apply IH. intros e t He. apply H. right. exact He.
  - intros t Ht. apply (H (rel, v) t); [left; reflexivity|exact Ht].
Qed.

Lemma asof_from_before {V : Type} (events : list (instant * V)) (t : instant)
      (acc : option V) :
  Sorted Z.le (map fst events) ->
  (forall e, In e events -> t < fst e) -> asof_from acc events t = acc.
Proof.
  intros _ H. destruct events as [|[rel v] rest]; [reflexivity|].
  cbn [asof_from].
  replace (rel <=? t) with false; [reflexivity|].
  symmetry. apply Z.leb_gt. apply (H (rel, v)). left. reflexivity.
Qed.

(** X3. When every timeline point comes before every release, each aligner
    returns a column that is absent throughout: the forward-filling NFP
    aligner, and the back-filling rate and GDP aligners too, which find
    no valid slot to copy. *)
Theorem timeline_before_first_release {V : Type} (ny_tz : tzinfo)
        (rate_changes : list (instant * V)) (nfp_changes : list (date * V))
        (gdp_release_df : list (option instant * V)) (releases : list instant)
        (hourly_index : list (option instant)) :
  dropna hourly_index <> [] ->
  (forall e t, In e rate_changes -> In t (dropna hourly_index) -> t < fst e) ->
  get_nfp_release_schedule ny_tz nfp_changes = Ret releases ->
  (forall r t, In r releases -> In t (dropna hourly_index) -> t < r) ->
  (forall e t, In e (dropna_Datetime gdp_release_df) ->
               In t (dropna hourly_index) -> t < fst e) ->
  align_rate_to_hours rate_changes hourly_index
  = Ret (mkframe (dropna hourly_index) (empty_column (dropna hourly_index)))
  /\ align_nfp_to_hours ny_tz nfp_changes hourly_index
     = Ret (mkframe (dropna hourly_index) (empty_column (dropna hourly_index)))
  /\ align_to_hourly gdp_release_df hourly_index
     = mkframe (sort_values Z.ltb (dropna hourly_index))
               (empty_column (sort_values Z.ltb (dropna hourly_index))).
Proof.
  intros Hne Hrate Hsched Hnfp Hgdp.
  destruct (getitem_last_nonempty _ Hne) as [last Hlast].
  split; [|split].
  - rewrite (align_rate_run _ _ last Hlast).
    rewrite column_after_untouched by exact Hrate.
    rewrite bfill_all_nan. reflexivity.
  - rewrite (align_nfp_run _ _ _ releases last Hsched Hlast).
    rewrite column_after_untouched.
    + rewrite ffill_all_nan. reflexivity.
    + intros [r v] t He. apply in_combine_l in He. apply Hnfp. exact He.
  - unfold align_to_hourly.
    rewrite merge_asof_backward_fst, merge_asof_backward_snd.
    replace (map (asof_from None
                    (sort_values (key_lt fst) (dropna_Datetime gdp_release_df)))
                 (sort_values Z.ltb (dropna hourly_index)))
      with (@empty_column V (sort_values Z.ltb (dropna hourly_index))).
    + rewrite ffill_all_nan, bfill_all_nan. reflexivity.
    + unfold empty_column. apply map_ext_in. intros t Ht.
      symmetry. apply asof_from_before; [apply (sort_values_sorted fst)|].
      intros e He. apply sort_values_In in He. apply sort_values_In in Ht.
      apply Hgdp; assumption.
Qed.

Lemma timeline_before_first_release_witness :
  align_rate_to_hours example_events early_timeline
  = Ret (mkframe (dropna early_timeline) (empty_column (dropna early_timeline)))
  /\ align_nfp_to_hours us_eastern [(mkdate 2023 1 1, 10); (mkdate 2023 2 1, 12)]
                        early_timeline
     = Ret (mkframe (dropna early_timeline) (empty_column (dropna early_timeline)))
  /\ align_to_hourly [(Some (utc 2023 2 3 13 30), 10)] early_timeline
     = mkframe (sort_values Z.ltb (dropna early_timeline))
               (empty_column (sort_values Z.ltb (dropna early_timeline))).
Proof.
  apply (timeline_before_first_release us_eastern example_events
           [(mkdate 2023 1 1, 10); (mkdate 2023 2 1, 12)]
           [(Some (utc 2023 2 3 13 30), 10)]
           [utc 2023 2 3 13 30; utc 2023 3 3 13 30] early_timeline).
  - discriminate.
  - intros e t [<-|[<-|[]]] [<-|[<-|[]]]; vm_compute; reflexivity.
  - vm_compute. reflexivity.
  - intros r t [<-|[<-|[]]] [<-|[<-|[]]]; vm_compute; reflexivity.
  - intros e t [<-|[]] [<-|[<-|[]]]; vm_compute; reflexivity.
Defined.


(** ** Equal release instants *)

(** The sweep keeps the last listed of the events at or before [t]. *)
Lemma asof_from_last {V : Type} (events : list (instant * V)) (t : instant) :
  Sorted Z.le (map fst events) ->
  forall i r v acc,
    nth_error events i = Some (r, v) -> r <= t ->
    (forall j e, (i < j)%nat -> nth_error events j = Some e -> t < fst e) ->
    asof_from acc events t = Some v.
Proof.
  intros Hs. apply Sorted_StronglySorted in Hs; [|intros a b c; apply Z.le_trans].
  induction events as [|[r0 v0] rest IH]; intros i r v acc Hi Hr Hafter.
  - destruct i; discriminate.
  - simpl in Hs. inversion Hs as [|? ? Hs' Hall]; subst.
    destruct i as [|i].
    + simpl in Hi. injection Hi as -> ->. cbn [asof_from].
      replace (r <=? t) with true by (symmetry; apply Z.leb_le; exact Hr).
      destruct rest as [|[r1 v1] rest']; [reflexivity|].
      cbn [asof_from].
      replace (r1 <=? t) with false; [reflexivity|].
      symmetry. apply Z.leb_gt. apply (Hafter 1%nat (r1, v1)); [lia|reflexivity].
    + simpl in Hi. cbn [asof_from].
      assert (Hr0 : r0 <= r).
      { rewrite Forall_forall in Hall. apply Hall.
        apply nth_error_In in Hi. apply (in_map fst) in Hi. exact Hi. }
      replace (r0 <=? t) with true by (symmetry; apply Z.leb_le; lia).
      apply (IH Hs' i r v); [exact Hi|exact Hr|].
      intros j e Hj He. apply (Hafter (S j) e); [lia|exact He].
Qed.

(** X4. Among events that share the greatest release instant at or before
    [t], the one listed last gives the slot its value: the rate aligner
    and the NFP aligner overwrite, they do not accumulate and do not keep
    the first. *)
Theorem later_listed_event_wins {V : Type} (ny_tz : tzinfo)
        (rate_changes : list (instant * V)) (nfp_changes : list (date * V))
        (releases : list instant) (hourly_index : list (option instant))
        (k : nat) (t : instant) (i : nat) (r : instant) (v : V)
        (i' : nat) (r' : instant) (d' : date) (v' : V) :
  Sorted Z.le (map fst rate_changes) ->
  Sorted Z.le (dropna hourly_index) ->
  nth_error (dropna hourly_index) k = Some t ->
  nth_error rate_changes i = Some (r, v) -> r <= t ->
  (forall j e, (i < j)%nat -> nth_error rate_changes j = Some e -> t < fst e) ->
  get_nfp_release_schedule ny_tz nfp_changes = Ret releases ->
  Sorted Z.le releases ->
  nth_error releases i' = Some r' -> nth_error nfp_changes i' = Some (d', v') ->
  r' <= t ->
  (forall j rj, (i' < j)%nat -> nth_error releases j = Some rj -> t < rj) ->
  (exists df, align_rate_to_hours rate_changes hourly_index = Ret df
              /\ nth_error (column df) k = Some (Some v))
  /\ (exists df, align_nfp_to_hours ny_tz nfp_changes hourly_index = Ret df
                 /\ nth_error (column df) k = Some (Some v')).
Proof.
  intros Hrc Hidx Hk Hi Hr Hafter Hsched Hrel Hi' Hd' Hr' Hafter'.
  destruct (getitem_last_nonempty _ (nth_error_nonempty _ _ _ Hk)) as [last Hlast].
  pose proof (for_each_length _ _ _ Hsched) as Hrl.
  split.
  - eexists. split; [apply (align_rate_run _ _ last Hlast)|]. cbn [column].
    rewrite (column_after_sorted _ _ last Hrc Hidx Hlast).
    apply bfill_keeps. rewrite nth_error_map, Hk. cbn [option_map].
    rewrite (asof_from_last rate_changes t Hrc i r v None Hi Hr Hafter). reflexivity.
  - eexists. split; [apply (align_nfp_run _ _ _ releases last Hsched Hlast)|].
    cbn [column].
    assert (Hfst : map fst (combine releases (map snd nfp_changes)) = releases)
      by (apply map_fst_combine_le; rewrite length_map; lia).
    rewrite (column_after_sorted _ _ last) by (rewrite ?Hfst; assumption).
    apply ffill_from_keeps. rewrite nth_error_map, Hk. cbn [option_map].
    rewrite (asof_from_last _ t) with (i := i') (r := r') (v := v');
      [reflexivity|rewrite Hfst; exact Hrel| |exact Hr'|].
    + clear - Hi' Hd'. revert i' nfp_changes Hi' Hd'.
      induction releases as [|x releases IH]; intros [|i'] [|[d0 v0] nfp] H1 H2;
        simpl in *; try discriminate.
      * injection H1 as ->. injection H2 as _ ->. reflexivity.
      * apply (IH i' nfp); assumption.
    + intros j [rj vj] Hj He. simpl.
      apply (Hafter' j rj Hj).
      clear - He. revert j nfp_changes He.
      induction releases as [|x releases IH]; intros [|j] [|[d0 v0] nfp] He;
        simpl in *; try discriminate.
      * injection He as -> _. reflexivity.
      * apply (IH j nfp). exact He.
Qed.

Lemma later_listed_event_wins_witness :
  (exists df,
      align_rate_to_hours [(utc 2023 2 3 13 30, 10); (utc 2023 2 3 13 30, 11)]
                          example_timeline = Ret df
      /\ nth_error (column df) 1 = Some (Some 11))
  /\ (exists df,
         align_nfp_to_hours us_eastern [(mkdate 2023 1 1, 10); (mkdate 2023 1 15, 11)]
                            example_timeline = Ret df
         /\ nth_error (column df) 1 = Some (Some 11)).
Proof.
  apply (later_listed_event_wins us_eastern
           [(utc 2023 2 3 13 30, 10); (utc 2023 2 3 13 30, 11)]
           [(mkdate 2023 1 1, 10); (mkdate 2023 1 15, 11)]
           [utc 2023 2 3 13 30; utc 2023 2 3 13 30] example_timeline
           1 (utc 2023 2 3 14 0) 1 (utc 2023 2 3 13 30) 11
           1 (utc 2023 2 3 13 30) (mkdate 2023 1 15) 11).
  - vm_compute. repeat constructor; discriminate.
  - vm_compute. repeat constructor; discriminate.
  - reflexivity.
  - reflexivity.
  - vm_compute. discriminate.
  - intros j e Hj He. destruct j as [|[|[|j]]]; try lia; discriminate.
  - vm_compute. reflexivity.
  - vm_compute. repeat constructor; discriminate.
  - reflexivity.
  - reflexivity.
  - vm_compute. discriminate.
  - intros j e Hj He. destruct j as [|[|[|j]]]; try lia; discriminate.
Defined.


(** ** Decisions of the rate series *)

Lemma fomc_loop_adjacent {V : Type} (ny_tz : tzinfo) (rate_neq : V -> V -> bool) :
  (forall a b, rate_neq a b = false <-> a = b) ->
  forall items prev_rate,
    Sorted (fun a b => snd a <> snd b) (fomc_loop ny_tz rate_neq prev_rate items)
    /\ (forall p, prev_rate = Some p ->
                  match fomc_loop ny_tz rate_neq prev_rate items with
                  | [] => True
                  | e :: _ => p <> snd e
                  end).
Proof.
  intros Hneq items. induction items as [|[d rate] rest IH]; intros prev_rate.
  - split; [constructor|intros; exact I].
  - cbn [fomc_loop].
    assert (Hemit : Sorted (fun a b => snd a <> snd b)
                           ((decision_time ny_tz d, rate)
                              :: fomc_loop ny_tz rate_neq (Some rate) rest)).
    { destruct (IH (Some rate)) as [Hs Hh]. constructor; [exact Hs|].
      specialize (Hh rate eq_refl).
      destruct (fomc_loop ny_tz rate_neq (Some rate) rest); constructor. exact Hh. }
    destruct prev_rate as [prev|].
    + destruct (rate_neq rate prev) eqn:E.
      * split; [exact Hemit|]. intros p Hp. injection Hp as <-.
        simpl. intros Heq. subst prev.
        assert (rate_neq rate rate = false) by (apply Hneq; reflexivity). congruence.
      * apply IH.
    + split; [exact Hemit|]. intros p Hp. discriminate.
Qed.

Lemma fomc_loop_length {V : Type} (ny_tz : tzinfo) (rate_neq : V -> V -> bool)
      (items : list (date * V)) (prev_rate : option V) :
  (List.length (fomc_loop ny_tz rate_neq prev_rate items) <= List.length items)%nat.
Proof.
  revert prev_rate. induction items as [|[d rate] rest IH]; intros prev_rate; simpl;
    [lia|].
  destruct (match prev_rate with Some prev => rate_neq rate prev | None => true end);
    simpl; [specialize (IH (Some rate))|specialize (IH prev_rate)]; lia.
Qed.

(** X5. [get_fomc_decision_times] starts with the first observation, never
    lists two consecutive decisions with the same rate, and lists at most
    one decision per observation. *)
Theorem fomc_decisions_change_rate {V : Type} (ny_tz : tzinfo)
        (rate_neq : V -> V -> bool) (rate_series : list (date * V)) :
  (forall a b, rate_neq a b = false <-> a = b) ->
  Sorted (fun a b => snd a <> snd b)
         (get_fomc_decision_times ny_tz rate_neq rate_series)
  /\ (List.length (get_fomc_decision_times ny_tz rate_neq rate_series)
      <= List.length rate_series)%nat
  /\ (forall d rate rest,
         rate_series = (d, rate) :: rest ->
         hd_error (get_fomc_decision_times ny_tz rate_neq rate_series)
         = Some (decision_time ny_tz d, rate)).
Proof.
  intros Hneq. unfold get_fomc_decision_times. split; [|split].
  - apply (fomc_loop_adjacent ny_tz rate_neq Hneq).
  - apply fomc_loop_length.
  - intros d rate rest ->. reflexivity.
Qed.

Lemma fomc_decisions_change_rate_witness :
  Sorted (fun a b => snd a <> snd b)
         (get_fomc_decision_times us_eastern (fun a b => negb (a =? b))
            [(mkdate 2023 1 31, 450); (mkdate 2023 2 1, 475); (mkdate 2023 2 2, 475)])
  /\ (List.length
        (get_fomc_decision_times us_eastern (fun a b => negb (a =? b))
           [(mkdate 2023 1 31, 450); (mkdate 2023 2 1, 475); (mkdate 2023 2 2, 475)])
      <= List.length [(mkdate 2023 1 31, 450); (mkdate 2023 2 1, 475);
                      (mkdate 2023 2 2, 475)])%nat
  /\ (forall d rate rest,
         [(mkdate 2023 1 31, 450); (mkdate 2023 2 1, 475); (mkdate 2023 2 2, 475)]
         = (d, rate) :: rest ->
         hd_error
           (get_fomc_decision_times us_eastern (fun a b => negb (a =? b))
              [(mkdate 2023 1 31, 450); (mkdate 2023 2 1, 475); (mkdate 2023 2 2, 475)])
         = Some (decision_time us_eastern d, rate)).
Proof.
  apply (fomc_decisions_change_rate us_eastern (fun a b => negb (a =? b))
           [(mkdate 2023 1 31, 450); (mkdate 2023 2 1, 475); (mkdate 2023 2 2, 475)]).
  exact Z_neqb_spec.
Defined.

(** *** The calendar is monotone *)

Lemma days_before_year_succ (y : Z) :
  days_before_year (y + 1) = days_before_year y + 365 + (if is_leap y then 1 else 0).
Proof.
  unfold days_before_year, is_leap.
  replace (y + 1 - 1) with y by lia.
  destruct (y mod 4 =? 0) eqn:E4; destruct (y mod 100 =? 0) eqn:E100;
    destruct (y mod 400 =? 0) eqn:E400; cbn [andb orb negb];
    repeat match goal with
           | H : (_ =? _) = true |- _ => apply Z.eqb_eq in H
           | H : (_ =? _) = false |- _ => apply Z.eqb_neq in H
           end; zdiv.
Qed.

Lemma days_before_year_le (y1 y2 : Z) :
  y1 <= y2 -> days_before_year y1 <= days_before_year y2.
Proof.
  intros H. assert (y1 = y2 \/ y1 < y2) as [->|Hlt] by lia; [lia|].
  pose proof (days_before_year_step y1 y2 Hlt). lia.
Qed.

Lemma days_in_year_bound (y m : Z) :
  1 <= m <= 12 ->
  days_before_month y m + days_in_month y m <= 365 + (if is_leap y then 1 else 0).
Proof.
  intros Hm. unfold days_before_month, days_in_month.
  destruct (month_cases m Hm) as [H|[H|[H|[H|[H|[H|[H|[H|[H|[H|[H|H]]]]]]]]]]];
    subst m; destruct (is_leap y); simpl; lia.
Qed.

Lemma days_before_next_month (y m1 m2 : Z) :
  1 <= m1 -> m1 < m2 -> m2 <= 12 ->
  days_before_month y m1 + days_in_month y m1 <= days_before_month y m2.
Proof.
  intros H1 H12 H2. unfold days_before_month, days_in_month.
  assert (Hm1 : 1 <= m1 <= 12) by lia. assert (Hm2 : 1 <= m2 <= 12) by lia.
  destruct (month_cases m1 Hm1) as [H|[H|[H|[H|[H|[H|[H|[H|[H|[H|[H|H]]]]]]]]]]];
    subst m1;
    destruct (month_cases m2 Hm2) as [H|[H|[H|[H|[H|[H|[H|[H|[H|[H|[H|H]]]]]]]]]]];
    subst m2; try lia; destruct (is_leap y); simpl; lia.
Qed.

Lemma valid_ymd_bounds (y m d : Z) :
  valid_ymd y m d = true ->
  MINYEAR <= y <= MAXYEAR /\ 1 <= m <= 12 /\ 1 <= d <= days_in_month y m.
Proof.
  unfold valid_ymd. intros H.
  repeat (apply andb_true_iff in H; destruct H as [H ?]).
  repeat match goal with
         | H : (_ <=? _) = true |- _ => apply Z.leb_le in H
         end. lia.
Qed.

(** A later valid date has a greater ordinal. *)
Lemma date_le_ordinal (a b : date) :
  valid_ymd (year a) (month a) (day a) = true ->
  valid_ymd (year b) (month b) (day b) = true ->
  date_le a b ->
  a = b \/ ymd2ord (year a) (month a) (day a) < ymd2ord (year b) (month b) (day b).
Proof.
  intros Ha Hb Hle.
  apply valid_ymd_bounds in Ha. apply valid_ymd_bounds in Hb.
  destruct a as [ya ma da], b as [yb mb db]. cbn [year month day] in *.
  unfold date_le in Hle. cbn [year month day] in Hle. unfold ymd2ord.
  destruct Hle as [Hy|[Hy [Hm|[Hm Hd]]]].
  - right.
    pose proof (days_in_year_bound ya ma ltac:(lia)).
    pose proof (days_before_year_succ ya).
    pose proof (days_before_year_le (ya + 1) yb ltac:(lia)).
    pose proof (days_before_month_range yb mb ltac:(lia)). lia.
  - right. subst yb.
    pose proof (days_before_next_month ya ma mb). lia.
  - subst yb mb. assert (da = db \/ da < db) as [->|Hlt] by lia.
    + left. reflexivity.
    + right. lia.
Qed.

Lemma decision_time_mono (ny_tz : tzinfo) (a b : date) :
  eastern_range ny_tz -> valid_date a -> valid_date b -> date_le a b ->
  decision_time ny_tz a <= decision_time ny_tz b.
Proof.
  intros Htz [Ha _] [Hb _] Hle.
  destruct (date_le_ordinal a b Ha Hb Hle) as [->|Hlt]; [lia|].
  apply Z.lt_le_incl. unfold decision_time.
  apply astimezone_utc_lt; [exact Htz| |reflexivity|reflexivity].
  exact Hlt.
Qed.

Lemma daily_events_sorted {V : Type} (ny_tz : tzinfo) (rate_series : list (date * V)) :
  eastern_range ny_tz ->
  Forall valid_date (map fst rate_series) -> Sorted date_le (map fst rate_series) ->
  Sorted Z.le (map fst (daily_events ny_tz rate_series)).
Proof.
  intros Htz Hv Hs. unfold daily_events. rewrite map_map. cbn [fst].
  induction rate_series as [|[d r] rest IH]; simpl; [constructor|].
  simpl in Hv, Hs. inversion Hv as [|? ? Hvd Hvr]; subst.
  inversion Hs as [|? ? Hs' Hhd]; subst.
  constructor; [apply IH; assumption|].
  destruct rest as [|[d' r'] rest']; simpl; constructor.
  simpl in Hhd. inversion Hhd; subst. inversion Hvr; subst.
  apply decision_time_mono; assumption.
Qed.

Lemma fomc_loop_In {V : Type} (ny_tz : tzinfo) (rate_neq : V -> V -> bool)
      (items : list (date * V)) (prev_rate : option V) (e : instant * V) :
  In e (fomc_loop ny_tz rate_neq prev_rate items) -> In e (daily_events ny_tz items).
Proof.
  revert prev_rate. induction items as [|[d rate] rest IH]; intros prev_rate;
    simpl; [intros []|].
  destruct (match prev_rate with Some prev => rate_neq rate prev | None => true end).
  - intros [<-|H]; [left; reflexivity|right; apply (IH _ H)].
  - intros H. right. apply (IH _ H).
Qed.

Lemma fomc_loop_sorted {V : Type} (ny_tz : tzinfo) (rate_neq : V -> V -> bool)
      (items : list (date * V)) (prev_rate : option V) :
  Sorted Z.le (map fst (daily_events ny_tz items)) ->
  Sorted Z.le (map fst (fomc_loop ny_tz rate_neq prev_rate items)).
Proof.
  intros Hs. apply Sorted_StronglySorted in Hs; [|intros a b c; apply Z.le_trans].
  apply StronglySorted_Sorted.
  revert prev_rate. induction items as [|[d rate] rest IH]; intros prev_rate;
    simpl; [constructor|].
  simpl in Hs. inversion Hs as [|? ? Hs' Hall]; subst.
  destruct (match prev_rate with Some prev => rate_neq rate prev | None => true end).
  - simpl. constructor; [apply IH; exact Hs'|].
    rewrite Forall_forall in *. intros x Hx. apply in_map_iff in Hx.
    destruct Hx as [e [<- He]]. apply Hall. apply in_map.
    apply (fomc_loop_In _ _ _ _ _ He).
  - apply IH. exact Hs'.
Qed.

(** Compressing the daily series to its changes loses nothing: an as-of
    lookup in the decisions finds the rate an as-of lookup in the daily
    series finds. *)
Lemma fomc_loop_asof {V : Type} (ny_tz : tzinfo) (rate_neq : V -> V -> bool)
      (t : instant) :
  (forall a b, rate_neq a b = false <-> a = b) ->
  forall items prev_rate,
    Sorted Z.le (map fst (daily_events ny_tz items)) ->
    asof_from prev_rate (fomc_loop ny_tz rate_neq prev_rate items) t
    = asof_from prev_rate (daily_events ny_tz items) t.
Proof.
  intros Hneq items. induction items as [|[d rate] rest IH]; intros prev_rate Hs;
    [reflexivity|].
  assert (Hs' : Sorted Z.le (map fst (daily_events ny_tz rest)))
    by (simpl in Hs; inversion Hs; assumption).
  cbn [fomc_loop daily_events map fst snd asof_from].
  destruct (match prev_rate with Some prev => rate_neq rate prev | None => true end)
           eqn:Emit.
  - cbn [asof_from]. destruct (decision_time ny_tz d <=? t); [|reflexivity].
    apply (IH (Some rate) Hs').
  - destruct prev_rate as [prev|]; [|discriminate].
    apply Hneq in Emit. subst prev.
    destruct (decision_time ny_tz d <=? t) eqn:Et.
    + apply (IH (Some rate) Hs').
    + apply Z.leb_gt in Et. apply asof_from_before.
      * apply fomc_loop_sorted. exact Hs'.
      * intros e He. apply fomc_loop_In in He.
        apply Sorted_StronglySorted in Hs; [|intros a b c; apply Z.le_trans].
        simpl in Hs. inversion Hs as [|? ? _ Hall]; subst.
        rewrite Forall_forall in Hall.
        specialize (Hall (fst e) (in_map fst _ _ He)). lia.
Qed.

(** X6. The rate pipeline loses nothing by keeping only the changes: for a
    daily series in date order, the hourly slot of instant [t] holds the
    rate of a daily observation with the greatest decision time at or
    before [t], whenever there is one. *)
Theorem fomc_main_as_of_daily {V : Type} (ny_tz : tzinfo) (rate_neq : V -> V -> bool)
        (rate_series : list (date * V)) (hourly_index : list (option instant))
        (k : nat) (t : instant) :
  (forall a b, rate_neq a b = false <-> a = b) ->
  eastern_range ny_tz ->
  Forall valid_date (map fst rate_series) -> Sorted date_le (map fst rate_series) ->
  Sorted Z.le (dropna hourly_index) ->
  nth_error (dropna hourly_index) k = Some t ->
  exists df, fomc_main ny_tz rate_neq rate_series hourly_index = Ret df
             /\ index df = dropna hourly_index
             /\ as_of_slot (daily_events ny_tz rate_series) t (nth_error (column df) k).
Proof.
  intros Hneq Htz Hv Hs Hidx Hk.
  destruct (getitem_last_nonempty _ (nth_error_nonempty _ _ _ Hk)) as [last Hlast].
  pose proof (daily_events_sorted ny_tz rate_series Htz Hv Hs) as Hdaily.
  pose proof (fomc_loop_sorted ny_tz rate_neq rate_series None Hdaily) as Hdec.
  unfold fomc_main, get_fomc_decision_times.
  eexists. split; [apply (align_rate_run _ _ last Hlast)|].
  cbn [index column]. split; [reflexivity|].
  rewrite (column_after_sorted _ _ last Hdec Hidx Hlast).
  intros Hex. destruct (asof_as_of_slot _ t Hdaily Hex) as [e [Hg Hval]].
  exists e. split; [exact Hg|]. injection Hval as Hval.
  apply bfill_keeps. rewrite nth_error_map, Hk. cbn [option_map].
  rewrite (fomc_loop_asof ny_tz rate_neq t Hneq rate_series None Hdaily), Hval.
  reflexivity.
Qed.

Lemma fomc_main_as_of_daily_witness :
  exists df,
    fomc_main us_eastern (fun a b => negb (a =? b))
              [(mkdate 2023 1 31, 450); (mkdate 2023 2 1, 475); (mkdate 2023 2 2, 475)]
              example_timeline = Ret df
    /\ index df = dropna example_timeline
    /\ as_of_slot
         (daily_events us_eastern
            [(mkdate 2023 1 31, 450); (mkdate 2023 2 1, 475); (mkdate 2023 2 2, 475)])
         (utc 2023 2 3 14 0) (nth_error (column df) 1).
Proof.
  apply (fomc_main_as_of_daily us_eastern (fun a b => negb (a =? b))
           [(mkdate 2023 1 31, 450); (mkdate 2023 2 1, 475); (mkdate 2023 2 2, 475)]
           example_timeline 1 (utc 2023 2 3 14 0)).
  - exact Z_neqb_spec.
  - exact us_eastern_range.
  - repeat (constructor; [apply valid_date_intro; reflexivity|]). constructor.
  - repeat (apply Sorted_cons;
            [|first [apply HdRel_nil
                    |apply HdRel_cons; apply date_le_intro; reflexivity]]).
    apply Sorted_nil.
  - vm_compute. repeat constructor; discriminate.
  - reflexivity.
Defined.


(** ** Transforms of the raw series *)

Lemma ffill_from_present {A : Type} (xs : list A) (prev : option A) :
  ffill_from prev (map Some xs) = map Some xs.
Proof.
  revert prev. induction xs as [|x xs IH]; intros prev; simpl; [reflexivity|].
  rewrite IH. reflexivity.
Qed.

Lemma elementwise_present {A : Type} (op : A -> A -> option A) (xs ys : list A) :
  elementwise op (map Some xs) (map Some ys)
  = map (fun p => op (fst p) (snd p)) (combine xs ys).
Proof.
  unfold elementwise. revert ys. induction xs as [|x xs IH]; intros [|y ys]; simpl;
    try reflexivity. rewrite IH. reflexivity.
Qed.

Lemma elementwise_shifted {A : Type} (op : A -> A -> option A) (periods : nat)
      (xs ys : list A) :
  elementwise op (map Some xs)
              (firstn (List.length xs) (repeat None periods ++ map Some ys))
  = repeat None (Nat.min periods (List.length xs))
    ++ map (fun p => op (fst p) (snd p)) (combine (skipn periods xs) ys).
Proof.
  revert xs. induction periods as [|k IH]; intros xs.
  - cbn [repeat app Nat.min skipn].
    replace (List.length xs) with (List.length (map (@Some A) xs))
      by apply length_map.
    unfold elementwise. rewrite <- combine_firstn_l.
    apply (elementwise_present op xs ys).
  - destruct xs as [|x xs]; [reflexivity|].
    cbn [List.length repeat app firstn map skipn Nat.min].
    unfold elementwise. cbn [combine map fst snd]. f_equal. apply IH.
Qed.

Lemma pct_change_present {A : Type} (op : A -> A -> option A) (periods : nat)
      (xs : list A) :
  pct_change op periods (map Some xs)
  = repeat None (Nat.min periods (List.length xs))
    ++ map (fun p => op (fst p) (snd p)) (combine (skipn periods xs) xs).
Proof.
  unfold pct_change, ffill, shift. rewrite ffill_from_present, length_map.
  apply elementwise_shifted.
Qed.

Lemma diff_present {A : Type} (op : A -> A -> option A) (xs : list A) :
  diff op (map Some xs)
  = repeat None (Nat.min 1 (List.length xs))
    ++ map (fun p => op (fst p) (snd p)) (combine (skipn 1 xs) xs).
Proof. unfold diff, shift. rewrite length_map. apply elementwise_shifted. Qed.

Lemma In_skipn {A : Type} (n : nat) (l : list A) (x : A) :
  In x (skipn n l) -> In x l.
Proof.
  intros H. rewrite <- (firstn_skipn n l). apply in_or_app. right. exact H.
Qed.

Lemma changes_defined {V : Type} (op : V -> V -> option V) (f : V -> V -> V)
      (periods : nat) (xs : list V) :
  (forall a b, In a xs -> In b xs -> op a b = Some (f a b)) ->
  map (fun p => op (fst p) (snd p)) (combine (skipn periods xs) xs)
  = map Some (changes f periods xs).
Proof.
  intros H. unfold changes. rewrite map_map. apply map_ext_in.
  intros [a b] Hin. cbn [fst snd]. apply H.
  - apply in_combine_l in Hin. apply (In_skipn _ _ _ Hin).
  - apply in_combine_r in Hin. exact Hin.
Qed.

Lemma series_dropna_leading {A : Type} (n : nat) (ds : list date) (zs : list A) :
  series_dropna (combine ds (repeat None n ++ map Some zs)) = combine (skipn n ds) zs.
Proof.
  unfold series_dropna. revert ds. induction n as [|n IH]; intros ds.
  - simpl. revert zs. induction ds as [|d ds IHd]; intros [|z zs]; simpl;
      try reflexivity. rewrite IHd. reflexivity.
  - destruct ds as [|d ds]; [reflexivity|]. simpl. apply IH.
Qed.

Lemma skipn_min_combine {A B : Type} (k : nat) (ds : list A) (zs : list B) (n : nat) :
  List.length ds = n -> (List.length zs <= n - k)%nat ->
  combine (skipn (Nat.min k n) ds) zs = combine (skipn k ds) zs.
Proof.
  intros Hn Hz. destruct (Nat.le_gt_cases k n) as [H|H].
  - rewrite Nat.min_l by exact H. reflexivity.
  - rewrite Nat.min_r by lia. assert (zs = []) by (destruct zs; [reflexivity|simpl in Hz; lia]).
    subst zs. rewrite !combine_nil. reflexivity.
Qed.

Lemma changes_length {V W : Type} (f : V -> V -> W) (periods : nat) (xs : list V) :
  List.length (changes f periods xs) = (List.length xs - periods)%nat.
Proof.
  unfold changes. rewrite length_map, length_combine, length_skipn. lia.
Qed.

(** *** Sorting by an arbitrary strict order *)

Lemma sort_values_sorted_gen {A : Type} (lt : A -> A -> bool) (l : list A) :
  (forall a b, lt a b = true -> lt b a = false) ->
  Sorted (fun a b => lt b a = false) (sort_values lt l).
Proof.
  intros Hasym. induction l as [|x l IH]; simpl; [constructor|].
  set (s := sort_values lt l) in *. clearbody s.
  induction s as [|z s IHs]; simpl.
  - repeat constructor.
  - inversion IH as [|? ? Hs Hhd]; subst.
    destruct (lt z x) eqn:E.
    + constructor; [apply IHs; exact Hs|].
      destruct s as [|w s]; simpl.
      * constructor. apply Hasym. exact E.
      * destruct (lt w x); constructor.
        -- inversion Hhd; subst. assumption.
        -- apply Hasym. exact E.
    + constructor; [exact IH|]. constructor. exact E.
Qed.

Lemma sort_values_id_gen {A : Type} (lt : A -> A -> bool) (l : list A) :
  Sorted (fun a b => lt b a = false) l -> sort_values lt l = l.
Proof.
  induction l as [|x l IH]; intros Hs; simpl; [reflexivity|].
  inversion Hs as [|? ? Hs' Hhd]; subst.
  rewrite (IH Hs'). destruct l as [|z l]; simpl; [reflexivity|].
  inversion Hhd; subst. rewrite H0. reflexivity.
Qed.

Lemma date_ltb_asym (a b : date) : date_ltb a b = true -> date_ltb b a = false.
Proof.
  unfold date_ltb. intros H.
  destruct (year a <? year b) eqn:E1; destruct (year a =? year b) eqn:E2;
    destruct (month a <? month b) eqn:E3; destruct (month a =? month b) eqn:E4;
    destruct (day a <? day b) eqn:E5; cbn in H; try discriminate;
    destruct (year b <? year a) eqn:F1; destruct (year b =? year a) eqn:F2;
    destruct (month b <? month a) eqn:F3; destruct (month b =? month a) eqn:F4;
    destruct (day b <? day a) eqn:F5; cbn; try reflexivity;
    repeat match goal with
           | H : (_ <? _) = true |- _ => apply Z.ltb_lt in H
           | H : (_ <? _) = false |- _ => apply Z.ltb_ge in H
           | H : (_ =? _) = true |- _ => apply Z.eqb_eq in H
           | H : (_ =? _) = false |- _ => apply Z.eqb_neq in H
           end; lia.
Qed.

Lemma date_ltb_false_le (a b : date) : date_ltb b a = false -> date_le a b.
Proof.
  unfold date_ltb, date_le. intros H.
  destruct (year b <? year a) eqn:F1; destruct (year b =? year a) eqn:F2;
    destruct (month b <? month a) eqn:F3; destruct (month b =? month a) eqn:F4;
    destruct (day b <? day a) eqn:F5; cbn in H; try discriminate;
    repeat match goal with
           | H : (_ <? _) = true |- _ => apply Z.ltb_lt in H
           | H : (_ <? _) = false |- _ => apply Z.ltb_ge in H
           | H : (_ =? _) = true |- _ => apply Z.eqb_eq in H
           | H : (_ =? _) = false |- _ => apply Z.eqb_neq in H
           end; lia.
Qed.

Lemma date_lt_le (a b : date) : date_lt a b -> date_le a b.
Proof. intros H. apply date_ltb_false_le, date_ltb_asym, H. Qed.

Lemma date_le_trans (a b c : date) : date_le a b -> date_le b c -> date_le a c.
Proof. unfold date_le. lia. Qed.

Lemma sort_index_id {W : Type} (series : list (date * W)) :
  Sorted date_lt (map fst series) -> sort_index series = series.
Proof.
  intros Hs. unfold sort_index. apply sort_values_id_gen.
  induction series as [|[d w] rest IH]; [constructor|].
  simpl in Hs. inversion Hs as [|? ? Hs' Hhd]; subst.
  constructor; [apply IH; exact Hs'|].
  destruct rest as [|[d' w'] rest']; constructor.
  simpl in Hhd. inversion Hhd; subst. cbn [fst]. apply date_ltb_asym. assumption.
Qed.

Lemma sort_index_sorted {W : Type} (series : list (date * W)) :
  Sorted date_le (map fst (sort_index series)).
Proof.
  unfold sort_index.
  pose proof (sort_values_sorted_gen (fun a b : date * W => date_ltb (fst a) (fst b))
                series (fun a b => date_ltb_asym (fst a) (fst b))) as H.
  induction H as [|x l Hs IH Hhd]; simpl; [constructor|].
  constructor; [exact IH|].
  destruct Hhd as [|y l' Hxy]; simpl; constructor.
  apply date_ltb_false_le. exact Hxy.
Qed.

Lemma map_fst_combine_present {A : Type} (ds : list date) (xs : list A) :
  List.length ds = List.length xs ->
  map fst (combine ds (map Some xs)) = ds /\ map snd (combine ds (map Some xs)) = map Some xs.
Proof.
  revert xs. induction ds as [|d ds IH]; intros [|x xs] H; simpl in *;
    try discriminate; [split; reflexivity|].
  destruct (IH xs ltac:(lia)) as [H1 H2]. rewrite H1, H2. split; reflexivity.
Qed.

(** The percentage-change series of a clean, ordered series, in closed
    form. *)
Lemma pct_series_closed {V : Type} (rel_change : V -> V -> option V)
      (times100 : V -> V) (f : V -> V -> V) (periods : nat)
      (ds : list date) (xs : list V) :
  List.length ds = List.length xs ->
  (forall a b, In a xs -> In b xs -> rel_change a b = Some (f a b)) ->
  series_dropna
    (with_values (combine ds (map Some xs))
       (map (option_map times100)
            (pct_change rel_change periods (map snd (combine ds (map Some xs))))))
  = combine (skipn periods ds) (changes (fun a b => times100 (f a b)) periods xs).
Proof.
  intros Hlen Hf. unfold with_values.
  destruct (map_fst_combine_present ds xs Hlen) as [-> ->].
  rewrite pct_change_present, (changes_defined rel_change f periods xs Hf).
  rewrite map_app, map_map.
  replace (map (option_map times100) (repeat None (Nat.min periods (List.length xs))))
    with (@repeat (option V) None (Nat.min periods (List.length xs)))
    by (induction (Nat.min periods (List.length xs)); simpl; congruence).
  cbn [option_map].
  replace (map (fun x : V => Some (times100 x)) (changes f periods xs))
    with (map Some (changes (fun a b => times100 (f a b)) periods xs))
    by (unfold changes; rewrite !map_map; reflexivity).
  rewrite series_dropna_leading.
  apply (skipn_min_combine periods ds _ (List.length xs)); [exact Hlen|].
  rewrite changes_length. lia.
Qed.

Lemma compute_inflation_rates_closed {V : Type} (rel_change : V -> V -> option V)
      (times100 : V -> V) (f : V -> V -> V) (ds : list date) (xs : list V) :
  List.length ds = List.length xs ->
  Sorted date_lt ds ->
  (forall a b, In a xs -> In b xs -> rel_change a b = Some (f a b)) ->
  compute_inflation_rates rel_change times100 (combine ds (map Some xs))
  = (combine (skipn 12 ds) (changes (fun a b => times100 (f a b)) 12 xs),
     combine (skipn 1 ds) (changes (fun a b => times100 (f a b)) 1 xs))
  /\ compute_yoy_inflation rel_change times100 (combine ds (map Some xs))
     = combine (skipn 12 ds) (changes (fun a b => times100 (f a b)) 12 xs).
Proof.
  intros Hlen Hs Hf.
  assert (Hid : sort_index (combine ds (map Some xs)) = combine ds (map Some xs)).
  { apply sort_index_id. destruct (map_fst_combine_present ds xs Hlen) as [-> _].
    exact Hs. }
  unfold compute_inflation_rates, compute_yoy_inflation. rewrite Hid.
  rewrite !(pct_series_closed rel_change times100 f) by assumption.
  split; reflexivity.
Qed.

(** X7. For a clean series of n observations with distinct dates in order,
    [compute_inflation_rates] returns as YoY the observations from the
    13th on, each against the one 12 rows above, and as MoM the
    observations from the 2nd on, each against the one above: n - 12 and
    n - 1 entries.  [compute_yoy_inflation] returns the same YoY series. *)
Theorem inflation_rates_closed_form {V : Type} (rel_change : V -> V -> option V)
        (times100 : V -> V) (f : V -> V -> V) (ds : list date) (xs : list V) :
  List.length ds = List.length xs ->
  Sorted date_lt ds ->
  (forall a b, In a xs -> In b xs -> rel_change a b = Some (f a b)) ->
  compute_inflation_rates rel_change times100 (combine ds (map Some xs))
  = (combine (skipn 12 ds) (changes (fun a b => times100 (f a b)) 12 xs),
     combine (skipn 1 ds) (changes (fun a b => times100 (f a b)) 1 xs))
  /\ compute_yoy_inflation rel_change times100 (combine ds (map Some xs))
     = combine (skipn 12 ds) (changes (fun a b => times100 (f a b)) 12 xs)
  /\ List.length (combine (skipn 12 ds) (changes (fun a b => times100 (f a b)) 12 xs))
     = (List.length xs - 12)%nat
  /\ List.length (combine (skipn 1 ds) (changes (fun a b => times100 (f a b)) 1 xs))
     = (List.length xs - 1)%nat.
Proof.
  intros Hlen Hs Hf.
  destruct (compute_inflation_rates_closed rel_change times100 f ds xs Hlen Hs Hf)
    as [H1 H2].
  split; [exact H1|]. split; [exact H2|].
  split; rewrite length_combine, length_skipn, changes_length; lia.
Qed.


Ltac sorted_dates :=
  repeat (apply Sorted_cons;
          [|first [apply HdRel_nil | apply HdRel_cons; reflexivity]]);
  apply Sorted_nil.

Ltac valid_dates :=
  repeat (constructor; [apply valid_date_intro; reflexivity|]); constructor.

Lemma inflation_rates_closed_form_witness :
  compute_inflation_rates (fun a b => Some (a - b)) (fun x => 100 * x)
                          (combine example_months (map Some example_levels))
  = (combine (skipn 12 example_months)
             (changes (fun a b => 100 * (a - b)) 12 example_levels),
     combine (skipn 1 example_months)
             (changes (fun a b => 100 * (a - b)) 1 example_levels))
  /\ compute_yoy_inflation (fun a b => Some (a - b)) (fun x => 100 * x)
                           (combine example_months (map Some example_levels))
     = combine (skipn 12 example_months)
               (changes (fun a b => 100 * (a - b)) 12 example_levels)
  /\ List.length (combine (skipn 12 example_months)
                          (changes (fun a b => 100 * (a - b)) 12 example_levels))
     = (List.length example_levels - 12)%nat
  /\ List.length (combine (skipn 1 example_months)
                          (changes (fun a b => 100 * (a - b)) 1 example_levels))
     = (List.length example_levels - 1)%nat.
Proof.
  apply (inflation_rates_closed_form (fun a b => Some (a - b)) (fun x => 100 * x)
           (fun a b => a - b) example_months example_levels).
  - reflexivity.
  - unfold example_months. sorted_dates.
  - intros a b _ _. reflexivity.
Defined.

(** *** Positions in the transformed series *)

Lemma nth_error_combine {A B : Type} (l : list A) (l' : list B) (i : nat) (a : A) (b : B) :
  nth_error l i = Some a -> nth_error l' i = Some b ->
  nth_error (combine l l') i = Some (a, b).
Proof.
  revert l l'. induction i as [|i IH]; intros [|x l] [|y l'] Ha Hb; simpl in *;
    try discriminate.
  - injection Ha as ->. injection Hb as ->. reflexivity.
  - apply IH; assumption.
Qed.

Lemma nth_error_changes {V W : Type} (f : V -> V -> W) (periods : nat) (xs : list V)
      (i : nat) (a b : V) :
  nth_error xs (i + periods) = Some a -> nth_error xs i = Some b ->
  nth_error (changes f periods xs) i = Some (f a b).
Proof.
  intros Ha Hb. unfold changes. rewrite nth_error_map.
  rewrite (nth_error_combine (skipn periods xs) xs i a b); [reflexivity| |exact Hb].
  rewrite nth_error_skipn. replace (periods + i)%nat with (i + periods)%nat by lia.
  exact Ha.
Qed.

Lemma for_each_nth {A B : Type} (body : A -> outcome B) (items : list A)
      (out : list B) (i : nat) (x : A) :
  for_each body items = Ret out -> nth_error items i = Some x ->
  exists y, body x = Ret y /\ nth_error out i = Some y.
Proof.
  revert out i. induction items as [|z items IH]; intros out i Hrun Hi.
  - destruct i; discriminate.
  - cbn [for_each] in Hrun.
    destruct (body z) as [y| |] eqn:Ez; try discriminate. cbn [bind] in Hrun.
    destruct (for_each body items) as [ys| |] eqn:Erest; try discriminate.
    cbn [bind] in Hrun. injection Hrun as <-.
    destruct i as [|i].
    + simpl in Hi. injection Hi as <-. exists y. split; [exact Ez|reflexivity].
    + simpl in Hi. destruct (IH ys i eq_refl Hi) as [y' [H1 H2]].
      exists y'. split; [exact H1|exact H2].
Qed.

Lemma map_fst_combine_eq {A B : Type} (l : list A) (l' : list B) :
  List.length l = List.length l' ->
  map fst (combine l l') = l /\ map snd (combine l l') = l'.
Proof.
  revert l'. induction l as [|x l IH]; intros [|y l'] H; simpl in *;
    try discriminate; [split; reflexivity|].
  destruct (IH l' ltac:(lia)) as [H1 H2]. rewrite H1, H2. split; reflexivity.
Qed.

Lemma Sorted_skipn {A : Type} (R : A -> A -> Prop) (n : nat) (l : list A) :
  Sorted R l -> Sorted R (skipn n l).
Proof.
  revert l. induction n as [|n IH]; intros l Hs; [exact Hs|].
  destruct l as [|x l]; [constructor|]. simpl. apply IH.
  inversion Hs; assumption.
Qed.

Lemma Forall_skipn {A : Type} (P : A -> Prop) (n : nat) (l : list A) :
  Forall P l -> Forall P (skipn n l).
Proof.
  intros H. rewrite Forall_forall in *. intros x Hx. apply H.
  apply (In_skipn n). exact Hx.
Qed.

Lemma Sorted_date_lt_le (ds : list date) : Sorted date_lt ds -> Sorted date_le ds.
Proof.
  induction 1 as [|d ds Hs IH Hhd]; constructor; [exact IH|].
  destruct Hhd; constructor. apply date_lt_le. assumption.
Qed.

(** X8. The CPI pipeline pairs its two columns by position although MoM
    starts 11 rows earlier than YoY: the event released for observation
    i + 12 carries the YoY change of observation i + 12 and the MoM change
    of observation i + 1, and the CPI_MoM column is the as-of lookup in
    those events. *)
Theorem cpi_main_pairs_earlier_mom {V : Type} (ny_tz : tzinfo)
        (rel_change : V -> V -> option V) (times100 : V -> V) (f : V -> V -> V)
        (ds : list date) (xs : list V) (hourly_index : list (option instant)) :
  eastern_range ny_tz ->
  List.length ds = List.length xs ->
  Sorted date_lt ds -> Forall valid_date ds ->
  (forall a b, In a xs -> In b xs -> rel_change a b = Some (f a b)) ->
  Sorted Z.le (dropna hourly_index) -> dropna hourly_index <> [] ->
  exists releases df,
    get_cpi_release_schedule ny_tz
      (combine (skipn 12 ds) (changes (fun a b => times100 (f a b)) 12 xs))
    = Ret releases
    /\ cpi_main rel_change times100 ny_tz (combine ds (map Some xs)) hourly_index
       = Ret df
    /\ cpi_index df = dropna hourly_index
    /\ (forall i d a b c,
           nth_error ds (i + 12) = Some d ->
           nth_error xs (i + 12) = Some a ->
           nth_error xs (i + 1) = Some c ->
           nth_error xs i = Some b ->
           exists r,
             fixed_day_release ny_tz 10 d = Ret r
             /\ nth_error (combine releases
                                   (changes (fun a b => times100 (f a b)) 12 xs)) i
                = Some (r, times100 (f a b))
             /\ nth_error (combine releases
                                   (changes (fun a b => times100 (f a b)) 1 xs)) i
                = Some (r, times100 (f c b)))
    /\ (forall k t,
           nth_error (dropna hourly_index) k = Some t ->
           as_of_slot (combine releases (changes (fun a b => times100 (f a b)) 12 xs))
                      t (nth_error (CPI_YoY df) k)
           /\ as_of_slot (combine releases (changes (fun a b => times100 (f a b)) 1 xs))
                         t (nth_error (CPI_MoM df) k)).
Proof.
  intros Htz Hlen Hs Hv Hf Hidx Hne.
  set (pct := fun a b => times100 (f a b)).
  destruct (compute_inflation_rates_closed rel_change times100 f ds xs Hlen Hs Hf)
    as [Hclosed _]. fold pct in Hclosed.
  assert (Hl12 : List.length (skipn 12 ds) = List.length (changes pct 12 xs))
    by (rewrite length_skipn, changes_length; lia).
  assert (Hl1 : List.length (skipn 1 ds) = List.length (changes pct 1 xs))
    by (rewrite length_skipn, changes_length; lia).
  destruct (map_fst_combine_eq _ _ Hl12) as [Hfy Hsy].
  destruct (map_fst_combine_eq _ _ Hl1) as [_ Hsm].
  assert (Hvy : Forall valid_date
                       (map fst (combine (skipn 12 ds) (changes pct 12 xs))))
    by (rewrite Hfy; apply Forall_skipn; exact Hv).
  destruct (schedule_returns ny_tz _ Hvy) as [[releases [Hsched Hrl]] _].
  destruct (getitem_last_nonempty _ Hne) as [last Hlast].
  assert (Hrel : Sorted Z.le releases).
  { apply (cpi_release_sorted ny_tz _ releases Htz Hvy); [|exact Hsched].
    rewrite Hfy. apply Sorted_skipn, Sorted_date_lt_le, Hs. }
  assert (Hrlen : List.length releases = List.length (changes pct 12 xs)).
  { rewrite Hrl, length_combine, <- Hl12. lia. }
  assert (Hmlen : (List.length releases <= List.length (changes pct 1 xs))%nat).
  { rewrite Hrlen, !changes_length. lia. }
  exists releases. eexists. split; [exact Hsched|]. split.
  { unfold cpi_main. rewrite Hclosed.
    apply (align_cpi_run _ _ _ _ releases last Hsched); [|exact Hlast].
    rewrite Hsm, length_combine, <- Hl12, Nat.min_id, Hl12, !changes_length. lia. }
  cbn [cpi_index CPI_YoY CPI_MoM]. split; [reflexivity|]. split.
  - intros i d a b c Hd Ha Hc Hb.
    assert (Hdi : nth_error (map fst (combine (skipn 12 ds) (changes pct 12 xs))) i
                  = Some d).
    { rewrite Hfy, nth_error_skipn. replace (12 + i)%nat with (i + 12)%nat by lia.
      exact Hd. }
    unfold get_cpi_release_schedule in Hsched. rewrite for_each_on_index in Hsched.
    destruct (for_each_nth _ _ _ i d Hsched Hdi) as [r [Hr Hnr]].
    exists r. split; [exact Hr|]. split.
    + apply nth_error_combine; [exact Hnr|].
      apply (nth_error_changes pct 12 xs i a b); assumption.
    + apply nth_error_combine; [exact Hnr|].
      apply (nth_error_changes pct 1 xs i c b); assumption.
  - intros k t Hk. rewrite Hsy, Hsm. split.
    + apply (ffill_asof_slots _ releases); try assumption.
      apply map_fst_combine_le. lia.
    + apply (ffill_asof_slots _ releases); try assumption.
      apply map_fst_combine_le. exact Hmlen.
Qed.

Lemma cpi_main_pairs_earlier_mom_witness :
  exists releases df,
    get_cpi_release_schedule us_eastern
      (combine (skipn 12 example_months)
               (changes (fun a b => 100 * (a - b)) 12 example_levels))
    = Ret releases
    /\ cpi_main (fun a b => Some (a - b)) (fun x => 100 * x) us_eastern
                (combine example_months (map Some example_levels)) example_timeline
       = Ret df
    /\ cpi_index df = dropna example_timeline
    /\ (forall i d a b c,
           nth_error example_months (i + 12) = Some d ->
           nth_error example_levels (i + 12) = Some a ->
           nth_error example_levels (i + 1) = Some c ->
           nth_error example_levels i = Some b ->
           exists r,
             fixed_day_release us_eastern 10 d = Ret r
             /\ nth_error (combine releases
                                   (changes (fun a b => 100 * (a - b)) 12 example_levels)) i
                = Some (r, 100 * (a - b))
             /\ nth_error (combine releases
                                   (changes (fun a b => 100 * (a - b)) 1 example_levels)) i
                = Some (r, 100 * (c - b)))
    /\ (forall k t,
           nth_error (dropna example_timeline) k = Some t ->
           as_of_slot (combine releases
                               (changes (fun a b => 100 * (a - b)) 12 example_levels))
                      t (nth_error (CPI_YoY df) k)
           /\ as_of_slot (combine releases
                                  (changes (fun a b => 100 * (a - b)) 1 example_levels))
                         t (nth_error (CPI_MoM df) k)).
Proof.
  apply (cpi_main_pairs_earlier_mom us_eastern (fun a b => Some (a - b))
           (fun x => 100 * x) (fun a b => a - b) example_months example_levels
           example_timeline).
  - exact us_eastern_range.
  - reflexivity.
  - unfold example_months. sorted_dates.
  - unfold example_months. valid_dates.
  - intros a b _ _. reflexivity.
  - vm_compute. repeat constructor; discriminate.
  - discriminate.
Defined.


Lemma compute_monthly_change_closed {V : Type} (sub : V -> V -> option V)
      (g : V -> V -> V) (ds : list date) (xs : list V) :
  List.length ds = List.length xs ->
  Sorted date_lt ds ->
  (forall a b, In a xs -> In b xs -> sub a b = Some (g a b)) ->
  compute_monthly_change sub (combine ds (map Some xs))
  = combine (skipn 1 ds) (changes g 1 xs).
Proof.
  intros Hlen Hs Hg.
  assert (Hid : sort_index (combine ds (map Some xs)) = combine ds (map Some xs)).
  { apply sort_index_id. destruct (map_fst_combine_present ds xs Hlen) as [-> _].
    exact Hs. }
  unfold compute_monthly_change. rewrite Hid. unfold with_values.
  destruct (map_fst_combine_present ds xs Hlen) as [-> ->].
  rewrite diff_present, (changes_defined sub g 1 xs Hg), series_dropna_leading.
  apply (skipn_min_combine 1 ds _ (List.length xs)); [exact Hlen|].
  rewrite changes_length. lia.
Qed.

(** X9. For a clean payroll series of n observations with distinct dates
    in order, the NFP pipeline has n - 1 events: the first observation
    gives none, and event i is the difference of observation i + 1 to
    observation i, released on the first Friday of the month after
    observation i + 1.  The hourly column is the as-of lookup in these
    events and never holds a difference released later. *)
Theorem nfp_main_events {V : Type} (ny_tz : tzinfo) (sub : V -> V -> option V)
        (g : V -> V -> V) (ds : list date) (xs : list V)
        (hourly_index : list (option instant)) :
  eastern_range ny_tz ->
  List.length ds = List.length xs ->
  Sorted date_lt ds -> Forall valid_date ds ->
  (forall a b, In a xs -> In b xs -> sub a b = Some (g a b)) ->
  Sorted Z.le (dropna hourly_index) -> dropna hourly_index <> [] ->
  compute_monthly_change sub (combine ds (map Some xs))
  = combine (skipn 1 ds) (changes g 1 xs)
  /\ exists releases df,
      get_nfp_release_schedule ny_tz (combine (skipn 1 ds) (changes g 1 xs))
      = Ret releases
      /\ List.length releases = (List.length xs - 1)%nat
      /\ nfp_main sub ny_tz (combine ds (map Some xs)) hourly_index = Ret df
      /\ index df = dropna hourly_index
      /\ (forall i d a b,
             nth_error ds (i + 1) = Some d ->
             nth_error xs (i + 1) = Some a ->
             nth_error xs i = Some b ->
             exists r,
               nfp_release ny_tz d = Ret r
               /\ nth_error (combine releases (changes g 1 xs)) i = Some (r, g a b))
      /\ (forall k t,
             nth_error (dropna hourly_index) k = Some t ->
             as_of_slot (combine releases (changes g 1 xs)) t (nth_error (column df) k)
             /\ no_lookahead_slot (combine releases (changes g 1 xs)) t
                                  (nth_error (column df) k)).
Proof.
  intros Htz Hlen Hs Hv Hg Hidx Hne.
  pose proof (compute_monthly_change_closed sub g ds xs Hlen Hs Hg) as Hclosed.
  split; [exact Hclosed|].
  assert (Hl1 : List.length (skipn 1 ds) = List.length (changes g 1 xs))
    by (rewrite length_skipn, changes_length; lia).
  destruct (map_fst_combine_eq _ _ Hl1) as [Hfd Hsd].
  assert (Hvd : Forall valid_date (map fst (combine (skipn 1 ds) (changes g 1 xs))))
    by (rewrite Hfd; apply Forall_skipn; exact Hv).
  destruct (schedule_returns ny_tz _ Hvd) as (_ & _ & [releases [Hsched Hrl]]).
  destruct (getitem_last_nonempty _ Hne) as [last Hlast].
  assert (Hrel : Sorted Z.le releases).
  { apply (nfp_release_sorted ny_tz _ releases Htz Hvd); [|exact Hsched].
    rewrite Hfd. apply Sorted_skipn, Sorted_date_lt_le, Hs. }
  assert (Hrlen : List.length releases = List.length (changes g 1 xs)).
  { rewrite Hrl, length_combine, <- Hl1. lia. }
  exists releases. eexists. split; [exact Hsched|].
  split; [rewrite Hrlen, changes_length; reflexivity|]. split.
  { unfold nfp_main. rewrite Hclosed.
    apply (align_nfp_run _ _ _ releases last Hsched Hlast). }
  cbn [index column]. split; [reflexivity|]. split.
  - intros i d a b Hd Ha Hb.
    assert (Hdi : nth_error (map fst (combine (skipn 1 ds) (changes g 1 xs))) i
                  = Some d).
    { rewrite Hfd, nth_error_skipn. replace (1 + i)%nat with (i + 1)%nat by lia.
      exact Hd. }
    unfold get_nfp_release_schedule in Hsched. rewrite for_each_on_index in Hsched.
    destruct (for_each_nth _ _ _ i d Hsched Hdi) as [r [Hr Hnr]].
    exists r. split; [exact Hr|].
    apply nth_error_combine; [exact Hnr|].
    apply (nth_error_changes g 1 xs i a b); assumption.
  - intros k t Hk. rewrite Hsd.
    apply (ffill_asof_slots _ releases); try assumption.
    apply map_fst_combine_le. lia.
Qed.

Lemma nfp_main_events_witness :
  compute_monthly_change (fun a b => Some (a - b))
                         (combine example_months (map Some example_levels))
  = combine (skipn 1 example_months) (changes Z.sub 1 example_levels)
  /\ exists releases df,
      get_nfp_release_schedule us_eastern
        (combine (skipn 1 example_months) (changes Z.sub 1 example_levels))
      = Ret releases
      /\ List.length releases = (List.length example_levels - 1)%nat
      /\ nfp_main (fun a b => Some (a - b)) us_eastern
                  (combine example_months (map Some example_levels)) example_timeline
         = Ret df
      /\ index df = dropna example_timeline
      /\ (forall i d a b,
             nth_error example_months (i + 1) = Some d ->
             nth_error example_levels (i + 1) = Some a ->
             nth_error example_levels i = Some b ->
             exists r,
               nfp_release us_eastern d = Ret r
               /\ nth_error (combine releases (changes Z.sub 1 example_levels)) i
                  = Some (r, a - b))
      /\ (forall k t,
             nth_error (dropna example_timeline) k = Some t ->
             as_of_slot (combine releases (changes Z.sub 1 example_levels)) t
                        (nth_error (column df) k)
             /\ no_lookahead_slot (combine releases (changes Z.sub 1 example_levels)) t
                                  (nth_error (column df) k)).
Proof.
  apply (nfp_main_events us_eastern (fun a b => Some (a - b)) Z.sub
           example_months example_levels example_timeline).
  - exact us_eastern_range.
  - reflexivity.
  - unfold example_months. sorted_dates.
  - unfold example_months. valid_dates.
  - intros a b _ _. reflexivity.
  - vm_compute. repeat constructor; discriminate.
  - discriminate.
Defined.

(** *** Order of the transformed series, whatever the input *)

Lemma with_values_dropna_dates {A B : Type} (series : list (date * A))
      (values : list (option B)) (d : date) :
  In d (map fst (series_dropna (with_values series values))) -> In d (map fst series).
Proof.
  unfold series_dropna, with_values. revert values.
  induction series as [|[d0 a] rest IH]; intros [|v values]; simpl;
    try (intros []).
  destruct v as [b|]; simpl.
  - intros [<-|H]; [left; reflexivity|right; apply (IH values H)].
  - intros H. right. apply (IH values H).
Qed.

Lemma with_values_dropna_sorted {A B : Type} (series : list (date * A))
      (values : list (option B)) :
  Sorted date_le (map fst series) ->
  Sorted date_le (map fst (series_dropna (with_values series values))).
Proof.
  intros Hs. apply Sorted_StronglySorted in Hs; [|exact date_le_trans].
  apply StronglySorted_Sorted. revert values.
  induction series as [|[d0 a] rest IH]; intros [|v values];
    try (simpl; constructor).
  simpl in Hs. inversion Hs as [|? ? Hs' Hall]; subst.
  change (StronglySorted date_le
            (map fst (series_dropna (with_values ((d0, a) :: rest) (v :: values))))).
  unfold series_dropna, with_values. cbn [map fst snd combine option_map dropna].
  destruct v as [b|]; cbn [option_map dropna map fst].
  - constructor; [apply (IH Hs' values)|].
    rewrite Forall_forall in *. intros d Hd. apply Hall.
    apply (with_values_dropna_dates rest values d Hd).
  - apply (IH Hs' values).
Qed.

Lemma sort_index_dates {W : Type} (series : list (date * W)) (d : date) :
  In d (map fst (sort_index series)) <-> In d (map fst series).
Proof.
  unfold sort_index. rewrite !in_map_iff. split; intros [r [Hr Hin]]; exists r;
    (split; [exact Hr|]); apply sort_values_In in Hin || apply sort_values_In;
    exact Hin.
Qed.

Lemma transformed_dates_valid {A B : Type} (series : list (date * A))
      (values : list (option B)) :
  Forall valid_date (map fst series) ->
  Forall valid_date (map fst (series_dropna (with_values (sort_index series) values))).
Proof.
  intros Hv. rewrite Forall_forall in *. intros d Hd. apply Hv.
  apply sort_index_dates. apply (with_values_dropna_dates _ values d Hd).
Qed.

(** X10. Whatever the order of the fetched series and wherever it has NaN,
    the three transforms return their series in date order, so the
    releases scheduled from them come out in non-decreasing order. *)
Theorem transforms_schedule_in_order {V : Type} (ny_tz : tzinfo)
        (rel_change : V -> V -> option V) (times100 : V -> V)
        (sub : V -> V -> option V) (series : list (date * option V)) :
  eastern_range ny_tz ->
  Forall valid_date (map fst series) ->
  (Sorted date_le (map fst (fst (compute_inflation_rates rel_change times100 series)))
   /\ exists releases,
       get_cpi_release_schedule ny_tz
         (fst (compute_inflation_rates rel_change times100 series)) = Ret releases
       /\ Sorted Z.le releases)
  /\ (Sorted date_le (map fst (compute_yoy_inflation rel_change times100 series))
      /\ exists releases,
          get_ppi_release_schedule ny_tz
            (compute_yoy_inflation rel_change times100 series) = Ret releases
          /\ Sorted Z.le releases)
  /\ (Sorted date_le (map fst (compute_monthly_change sub series))
      /\ exists releases,
          get_nfp_release_schedule ny_tz (compute_monthly_change sub series)
          = Ret releases
          /\ Sorted Z.le releases).
Proof.
  intros Htz Hv.
  assert (Hsorted : forall values : list (option V),
             Sorted date_le
                    (map fst (series_dropna (with_values (sort_index series) values))))
    by (intros values; apply with_values_dropna_sorted, sort_index_sorted).
  assert (Hvalid : forall values : list (option V),
             Forall valid_date
                    (map fst (series_dropna (with_values (sort_index series) values))))
    by (intros values; apply transformed_dates_valid; exact Hv).
  unfold compute_inflation_rates, compute_yoy_inflation, compute_monthly_change.
  cbn [fst]. split; [|split]; (split; [apply Hsorted|]).
  - destruct (schedule_returns ny_tz _ (Hvalid
                (map (option_map times100)
                     (pct_change rel_change 12 (map snd (sort_index series))))))
      as [[releases [Hs _]] _].
    exists releases. split; [exact Hs|].
    apply (cpi_release_sorted ny_tz _ releases Htz (Hvalid _) (Hsorted _) Hs).
  - destruct (schedule_returns ny_tz _ (Hvalid
                (map (option_map times100)
                     (pct_change rel_change 12 (map snd (sort_index series))))))
      as (_ & [releases [Hs _]] & _).
    exists releases. split; [exact Hs|].
    apply (ppi_release_sorted ny_tz _ releases Htz (Hvalid _) (Hsorted _) Hs).
  - destruct (schedule_returns ny_tz _ (Hvalid
                (diff sub (map snd (sort_index series)))))
      as (_ & _ & [releases [Hs _]]).
    exists releases. split; [exact Hs|].
    apply (nfp_release_sorted ny_tz _ releases Htz (Hvalid _) (Hsorted _) Hs).
Qed.


Lemma transforms_schedule_in_order_witness :
  (Sorted date_le
          (map fst (fst (compute_inflation_rates
                           (fun a b => Some (a - b)) (fun x => 100 * x)
                           [(mkdate 2023 3 1, Some 5); (mkdate 2023 1 1, None);
                            (mkdate 2023 2 1, Some 4)])))
   /\ exists releases,
       get_cpi_release_schedule us_eastern
         (fst (compute_inflation_rates
                 (fun a b => Some (a - b)) (fun x => 100 * x)
                 [(mkdate 2023 3 1, Some 5); (mkdate 2023 1 1, None);
                  (mkdate 2023 2 1, Some 4)])) = Ret releases
       /\ Sorted Z.le releases)
  /\ (Sorted date_le
             (map fst (compute_yoy_inflation
                         (fun a b => Some (a - b)) (fun x => 100 * x)
                         [(mkdate 2023 3 1, Some 5); (mkdate 2023 1 1, None);
                          (mkdate 2023 2 1, Some 4)]))
      /\ exists releases,
          get_ppi_release_schedule us_eastern
            (compute_yoy_inflation
               (fun a b => Some (a - b)) (fun x => 100 * x)
               [(mkdate 2023 3 1, Some 5); (mkdate 2023 1 1, None);
                (mkdate 2023 2 1, Some 4)]) = Ret releases
          /\ Sorted Z.le releases)
  /\ (Sorted date_le
             (map fst (compute_monthly_change
                         (fun a b => Some (a - b))
                         [(mkdate 2023 3 1, Some 5); (mkdate 2023 1 1, None);
                          (mkdate 2023 2 1, Some 4)]))
      /\ exists releases,
          get_nfp_release_schedule us_eastern
            (compute_monthly_change
               (fun a b => Some (a - b))
               [(mkdate 2023 3 1, Some 5); (mkdate 2023 1 1, None);
                (mkdate 2023 2 1, Some 4)]) = Ret releases
          /\ Sorted Z.le releases).
Proof.
  apply (transforms_schedule_in_order us_eastern (fun a b => Some (a - b))
           (fun x => 100 * x) (fun a b => Some (a - b))
           [(mkdate 2023 3 1, Some 5); (mkdate 2023 1 1, None);
            (mkdate 2023 2 1, Some 4)]).
  - exact us_eastern_range.
  - valid_dates.
Defined.


(** ** GDP vintages *)

Lemma date_ltb_spec (a b : date) :
  date_ltb a b = true
  <-> (year a < year b
       \/ (year a = year b
           /\ (month a < month b \/ (month a = month b /\ day a < day b)))).
Proof.
  unfold date_ltb.
  rewrite !orb_true_iff, !andb_true_iff, !orb_true_iff, !andb_true_iff,
    !Z.ltb_lt, !Z.eqb_eq.
  reflexivity.
Qed.

Lemma date_eqb_fields (a b : date) :
  date_eqb a b = true <-> (year a = year b /\ month a = month b /\ day a = day b).
Proof.
  unfold date_eqb. rewrite !andb_true_iff, !Z.eqb_eq. tauto.
Qed.

Lemma date_eqb_eq (a b : date) : date_eqb a b = true <-> a = b.
Proof.
  rewrite date_eqb_fields. destruct a as [ya ma da], b as [yb mb db].
  cbn [year month day]. split.
  - intros (-> & -> & ->). reflexivity.
  - intros H. injection H as -> -> ->. auto.
Qed.

Lemma nat_eqb_eq (a b : option date) : nat_eqb a b = true <-> a = b.
Proof.
  destruct a as [a|], b as [b|]; cbn [nat_eqb].
  - rewrite date_eqb_eq. split; [intros ->; reflexivity|intros H; injection H; auto].
  - split; discriminate.
  - split; discriminate.
  - split; reflexivity.
Qed.

Ltac date_cmp :=
  repeat match goal with
         | H : date_ltb _ _ = true |- _ => apply date_ltb_spec in H
         | H : date_ltb _ _ = false |- _ =>
             apply not_true_iff_false in H; rewrite date_ltb_spec in H
         | H : date_eqb _ _ = true |- _ => apply date_eqb_fields in H
         | H : date_eqb _ _ = false |- _ =>
             apply not_true_iff_false in H; rewrite date_eqb_fields in H
         end.

Lemma nat_last_ltb_irrefl (a : option date) : nat_last_ltb a a = false.
Proof.
  destruct a as [a|]; cbn [nat_last_ltb]; [|reflexivity].
  apply not_true_iff_false. rewrite date_ltb_spec. lia.
Qed.

Lemma nat_last_ltb_trans_le (a b c : option date) :
  nat_last_ltb b a = false -> nat_last_ltb c b = false -> nat_last_ltb c a = false.
Proof.
  destruct a as [a|], b as [b|], c as [c|]; cbn [nat_last_ltb]; intros H1 H2;
    try discriminate; try reflexivity.
  apply not_true_iff_false. date_cmp. rewrite date_ltb_spec. lia.
Qed.

Lemma nat_last_ltb_antisym (a b : option date) :
  nat_last_ltb a b = false -> nat_last_ltb b a = false -> a = b.
Proof.
  destruct a as [a|], b as [b|]; cbn [nat_last_ltb]; intros H1 H2;
    try discriminate; try reflexivity.
  f_equal. apply date_eqb_eq, date_eqb_fields. date_cmp. lia.
Qed.

Lemma nat_last_ltb_asym (a b : option date) :
  nat_last_ltb a b = true -> nat_last_ltb b a = false.
Proof.
  destruct a as [a|], b as [b|]; cbn [nat_last_ltb]; intros H;
    try discriminate; try reflexivity.
  apply not_true_iff_false. date_cmp. rewrite date_ltb_spec. lia.
Qed.

Lemma by_date_then_realtime_asym {V : Type} (a b : gdp_row V) :
  by_date_then_realtime a b = true -> by_date_then_realtime b a = false.
Proof.
  unfold by_date_then_realtime. intros H.
  apply orb_true_iff in H. apply orb_false_iff.
  destruct H as [H|H].
  - split; [apply nat_last_ltb_asym; exact H|].
    destruct (nat_eqb (gdp_date b) (gdp_date a)) eqn:E; [|reflexivity].
    apply nat_eqb_eq in E. rewrite E, nat_last_ltb_irrefl in H. discriminate.
  - apply andb_true_iff in H. destruct H as [He Hr].
    apply nat_eqb_eq in He. rewrite He. split; [apply nat_last_ltb_irrefl|].
    rewrite (nat_last_ltb_asym _ _ Hr). apply andb_false_r.
Qed.

Lemma by_date_then_realtime_le {V : Type} (a b : gdp_row V) :
  by_date_then_realtime b a = false
  <-> nat_last_ltb (gdp_date b) (gdp_date a) = false
      /\ (gdp_date b = gdp_date a ->
          nat_last_ltb (realtime_start b) (realtime_start a) = false).
Proof.
  unfold by_date_then_realtime. rewrite orb_false_iff, andb_false_iff. split.
  - intros [H1 [H2|H2]]; split; auto.
    intros He. apply nat_eqb_eq in He. rewrite He in H2. discriminate.
  - intros [H1 H2]. split; [exact H1|].
    destruct (nat_eqb (gdp_date b) (gdp_date a)) eqn:E; [|left; reflexivity].
    right. apply H2, nat_eqb_eq, E.
Qed.

Lemma by_date_then_realtime_trans {V : Type} (a b c : gdp_row V) :
  by_date_then_realtime b a = false -> by_date_then_realtime c b = false ->
  by_date_then_realtime c a = false.
Proof.
  rewrite !by_date_then_realtime_le. intros [Hd1 Hr1] [Hd2 Hr2]. split.
  - exact (nat_last_ltb_trans_le _ _ _ Hd1 Hd2).
  - intros He. rewrite He in Hd2.
    pose proof (nat_last_ltb_antisym _ _ Hd1 Hd2) as Hba.
    apply (nat_last_ltb_trans_le _ (realtime_start b)).
    + apply Hr1. exact Hba.
    + apply Hr2. rewrite He. symmetry. exact Hba.
Qed.

Lemma by_date_then_realtime_sorted {V : Type} (rows : list (gdp_row V)) :
  StronglySorted (fun a b => by_date_then_realtime b a = false)
                 (sort_values by_date_then_realtime rows).
Proof.
  apply Sorted_StronglySorted.
  - intros a b c. apply by_date_then_realtime_trans.
  - apply sort_values_sorted_gen. intros a b. apply by_date_then_realtime_asym.
Qed.

Lemma StronglySorted_after {A : Type} (R : A -> A -> Prop) (l1 l2 : list A) (r : A) :
  StronglySorted R (l1 ++ r :: l2) -> Forall (R r) l2.
Proof.
  induction l1 as [|x l1 IH]; simpl; intros H;
    inversion H as [|? ? Hs Hall]; subst; [exact Hall|apply IH; exact Hs].
Qed.

Section DropDuplicates.

Context {A K : Type}.
Variable same : A -> A -> bool.
Variable key : A -> K.
Hypothesis same_key : forall a b, same a b = true <-> key a = key b.

Lemma existsb_same (r : A) (seen : list A) :
  existsb (same r) seen = true <-> In (key r) (map key seen).
Proof.
  rewrite existsb_exists, in_map_iff. split.
  - intros [x [Hin Hs]]. exists x. apply same_key in Hs. auto.
  - intros [x [Hk Hin]]. exists x. split; [exact Hin|]. apply same_key. auto.
Qed.

Lemma drop_duplicates_from_In (r : A) (seen rows : list A) :
  In r (drop_duplicates_from same seen rows) ->
  In r rows /\ ~ In (key r) (map key seen).
Proof.
  revert seen. induction rows as [|x rows IH]; intros seen H; simpl in H; [contradiction|].
  destruct (existsb (same x) seen) eqn:E.
  - destruct (IH _ H) as [Hin Hk]. split; [right; exact Hin|exact Hk].
  - destruct H as [->|H].
    + split; [left; reflexivity|]. rewrite <- existsb_same, E. discriminate.
    + destruct (IH _ H) as [Hin Hk]. split; [right; exact Hin|].
      intros Hs. apply Hk. simpl. right. exact Hs.
Qed.

Lemma drop_duplicates_from_NoDup (seen rows : list A) :
  NoDup (map key (drop_duplicates_from same seen rows)).
Proof.
  revert seen. induction rows as [|x rows IH]; intros seen; simpl; [constructor|].
  destruct (existsb (same x) seen); [apply IH|].
  simpl. constructor; [|apply IH].
  intros Hin. apply in_map_iff in Hin. destruct Hin as [y [Hk Hy]].
  apply drop_duplicates_from_In in Hy. destruct Hy as [_ Hy].
  apply Hy. simpl. left. symmetry. exact Hk.
Qed.

Lemma drop_duplicates_from_covers (r : A) (seen rows : list A) :
  In r rows ->
  In (key r) (map key seen)
  \/ In (key r) (map key (drop_duplicates_from same seen rows)).
Proof.
  revert seen. induction rows as [|x rows IH]; intros seen H; [contradiction|].
  simpl. destruct (existsb (same x) seen) eqn:E.
  - destruct H as [->|H]; [left; apply existsb_same; exact E|apply IH; exact H].
  - destruct H as [->|H]; [right; left; reflexivity|].
    destruct (IH (x :: seen) H) as [[Hk|Hk]|Hk].
    + right. left. exact Hk.
    + left. exact Hk.
    + right. right. exact Hk.
Qed.

Lemma drop_duplicates_from_first (r : A) (seen rows : list A) :
  In r (drop_duplicates_from same seen rows) ->
  exists l1 l2, rows = l1 ++ r :: l2 /\ forall x, In x l1 -> key x <> key r.
Proof.
  revert seen. induction rows as [|x rows IH]; intros seen H; simpl in H; [contradiction|].
  destruct (existsb (same x) seen) eqn:E.
  - destruct (IH _ H) as [l1 [l2 [-> Hl1]]].
    exists (x :: l1), l2. split; [reflexivity|].
    intros y [<-|Hy]; [|apply Hl1; exact Hy].
    intros Hk. apply drop_duplicates_from_In in H. destruct H as [_ H].
    apply H. rewrite <- Hk. apply existsb_same. exact E.
  - destruct H as [->|H].
    + exists [], rows. split; [reflexivity|]. intros y [].
    + destruct (IH _ H) as [l1 [l2 [-> Hl1]]].
      exists (x :: l1), l2. split; [reflexivity|].
      intros y [<-|Hy]; [|apply Hl1; exact Hy].
      intros Hk. apply drop_duplicates_from_In in H. destruct H as [_ H].
      apply H. simpl. left. exact Hk.
Qed.

End DropDuplicates.

Lemma keep_initial_In {V : Type} (rows : list (gdp_row V)) (r : gdp_row V) :
  In r (keep_initial rows) -> In r rows.
Proof.
  unfold keep_initial, drop_duplicates. intros H.
  apply (drop_duplicates_from_In _ gdp_date (fun a b => nat_eqb_eq _ _)) in H.
  destruct H as [H _]. apply sort_values_In in H. exact H.
Qed.

Lemma keep_initial_covers {V : Type} (rows : list (gdp_row V)) (r : gdp_row V) :
  In r rows -> exists r', In r' (keep_initial rows) /\ gdp_date r' = gdp_date r.
Proof.
  intros H. unfold keep_initial, drop_duplicates.
  destruct (drop_duplicates_from_covers _ gdp_date (fun a b => nat_eqb_eq _ _) r []
              (sort_values by_date_then_realtime rows)) as [[]|Hk].
  - apply sort_values_In. exact H.
  - apply in_map_iff in Hk. destruct Hk as [r' [Hk Hin]]. exists r'. auto.
Qed.

Lemma keep_initial_earliest {V : Type} (rows : list (gdp_row V)) (r r' : gdp_row V) :
  In r' (keep_initial rows) -> In r rows -> gdp_date r = gdp_date r' ->
  nat_last_ltb (realtime_start r) (realtime_start r') = false.
Proof.
  unfold keep_initial, drop_duplicates. intros Hr' Hr Hd.
  destruct (drop_duplicates_from_first _ gdp_date (fun a b => nat_eqb_eq _ _) _ _ _ Hr')
    as [l1 [l2 [Heq Hl1]]].
  pose proof (by_date_then_realtime_sorted rows) as Hs. rewrite Heq in Hs.
  assert (Hle : by_date_then_realtime r r' = false).
  { apply (sort_values_In by_date_then_realtime) in Hr. rewrite Heq in Hr.
    apply in_app_or in Hr. destruct Hr as [Hr|[->|Hr]].
    - exfalso. apply (Hl1 r Hr). exact Hd.
    - destruct (by_date_then_realtime r r) eqn:E; [|reflexivity].
      rewrite (by_date_then_realtime_asym _ _ E) in E. discriminate.
    - apply StronglySorted_after in Hs. rewrite Forall_forall in Hs.
      apply Hs. exact Hr. }
  unfold by_date_then_realtime in Hle. rewrite Hd in Hle.
  apply orb_false_iff in Hle. destruct Hle as [_ Hle].
  replace (nat_eqb (gdp_date r') (gdp_date r')) with true in Hle
    by (symmetry; apply nat_eqb_eq; reflexivity).
  exact Hle.
Qed.

(** X11. Keeping one row per observation date: the kept rows are rows of
    the frame, no two of them share an observation date, every
    observation date of the frame is kept, and the kept row of a date is
    one with the earliest [realtime_start] among the rows of that date. *)
Theorem keep_initial_first_vintage {V : Type} (gdp_initial : list (gdp_row V)) :
  (forall r, In r (keep_initial gdp_initial) -> In r gdp_initial)
  /\ NoDup (map gdp_date (keep_initial gdp_initial))
  /\ (forall r, In r gdp_initial ->
                exists r', In r' (keep_initial gdp_initial)
                           /\ gdp_date r' = gdp_date r)
  /\ (forall r r' a, In r' (keep_initial gdp_initial) -> In r gdp_initial ->
                     gdp_date r = gdp_date r' -> realtime_start r = Some a ->
                     exists b, realtime_start r' = Some b /\ date_le b a).
Proof.
  split; [apply keep_initial_In|]. split.
  { unfold keep_initial, drop_duplicates.
    apply (drop_duplicates_from_NoDup _ gdp_date (fun a b => nat_eqb_eq _ _)). }
  split; [apply keep_initial_covers|].
  intros r r' a Hr' Hr Hd Ha.
  pose proof (keep_initial_earliest _ _ _ Hr' Hr Hd) as H.
  rewrite Ha in H. destruct (realtime_start r') as [b|]; [|discriminate].
  exists b. split; [reflexivity|]. cbn [nat_last_ltb] in H.
  apply date_ltb_false_le. exact H.
Qed.


Lemma In_dropna_map {A B : Type} (f : A -> option B) (l : list A) (y : B) :
  In y (dropna (map f l)) <-> exists x, In x l /\ f x = Some y.
Proof.
  induction l as [|a l IH]; simpl.
  - split; [intros []|intros [x [[] _]]].
  - destruct (f a) as [b|] eqn:E; simpl; rewrite IH; split.
    + intros [<-|[x [Hx Hf]]]; [exists a; auto|exists x; auto].
    + intros [x [[<-|Hx] Hf]].
      * left. rewrite E in Hf. injection Hf; auto.
      * right. exists x. auto.
    + intros [x [Hx Hf]]. exists x. auto.
    + intros [x [[<-|Hx] Hf]]; [rewrite E in Hf; discriminate|exists x; auto].
Qed.

Lemma build_gdp_release_timestamps_In {V : Type} (ny_tz : tzinfo)
      (gdp_df : list (gdp_row V)) (t : instant) (v : V) :
  In (t, v) (build_gdp_release_timestamps ny_tz gdp_df)
  <-> exists r d, In r gdp_df /\ realtime_start r = Some d /\ value r = Some v
                  /\ t = release_local ny_tz d.
Proof.
  unfold build_gdp_release_timestamps. rewrite sort_values_In, In_dropna_map. split.
  - intros [r [Hr Hf]]. exists r.
    destruct (realtime_start r) as [d|]; [|discriminate].
    destruct (value r) as [w|]; [|discriminate].
    injection Hf as <- <-. exists d. auto.
  - intros [r [d [Hr [Hd [Hv ->]]]]]. exists r. rewrite Hd, Hv. auto.
Qed.

(** X12. The release frame has a row for exactly the rows of the input
    that carry a [realtime_start] and a value, stamped eight and a half
    hours of elapsed time after New York midnight of [realtime_start], and
    it is sorted by that stamp.  The stamp is 08:30 New York time exactly
    when the zone has the same offset at midnight and at 08:30 of that
    day. *)
Theorem build_gdp_release_timestamps_rows {V : Type} (ny_tz : tzinfo)
        (gdp_df : list (gdp_row V)) :
  Sorted Z.le (map fst (build_gdp_release_timestamps ny_tz gdp_df))
  /\ (forall t v,
         In (t, v) (build_gdp_release_timestamps ny_tz gdp_df)
         <-> exists r d, In r gdp_df /\ realtime_start r = Some d
                         /\ value r = Some v /\ t = release_local ny_tz d)
  /\ (forall d,
         release_local ny_tz d = astimezone_utc ny_tz (datetime_combine d 8 30)
         <-> ny_tz (datetime_combine d 0 0) = ny_tz (datetime_combine d 8 30)).
Proof.
  split; [apply sort_values_sorted|].
  split; [apply build_gdp_release_timestamps_In|].
  intros d. unfold release_local, astimezone_utc, datetime_combine, toordinal.
  cbn [dt_year dt_month dt_day dt_hour dt_minute]. lia.
Qed.

Lemma complete_cells {V : Type} (r : gdp_row V) :
  complete r = true
  <-> exists d a v, gdp_date r = Some d /\ realtime_start r = Some a /\ value r = Some v.
Proof.
  unfold complete. split.
  - destruct (gdp_date r) as [d|], (realtime_start r) as [a|], (value r) as [v|];
      try discriminate. intros _. exists d, a, v. auto.
  - intros [d [a [v [-> [-> ->]]]]]. reflexivity.
Qed.

Lemma clean_observations_In {V : Type} (observations : list (gdp_row V))
      (r : gdp_row V) :
  In r (clean_observations observations)
  <-> In r observations /\ complete r = true.
Proof.
  unfold clean_observations. rewrite sort_values_In, filter_In. reflexivity.
Qed.

Lemma kept_is_initial_vintage {V : Type} (observations : list (gdp_row V))
      (r : gdp_row V) :
  In r (keep_initial (clean_observations observations)) ->
  initial_vintage observations r.
Proof.
  intros Hk. pose proof (keep_initial_In _ _ Hk) as Hf.
  apply clean_observations_In in Hf. destruct Hf as [Hin Hc].
  split; [exact Hin|].
  destruct (proj1 (complete_cells r) Hc) as [d [a [v [Hd [Ha Hv]]]]].
  exists d, a, v. repeat split; try assumption.
  intros r' a' Hin' Hc' Hd' Ha'.
  assert (Hf' : In r' (clean_observations observations))
    by (apply clean_observations_In; auto).
  assert (Hsame : gdp_date r' = gdp_date r) by congruence.
  pose proof (keep_initial_earliest _ _ _ Hk Hf' Hsame) as H.
  rewrite Ha, Ha' in H. cbn [nat_last_ltb] in H.
  apply date_ltb_false_le. exact H.
Qed.

Lemma gdp_release_of_In {V : Type} (ny_tz : tzinfo) (observations : list (gdp_row V))
      (t : instant) (v : V) :
  In (t, v) (gdp_release_of ny_tz observations) ->
  exists r a, initial_vintage observations r /\ realtime_start r = Some a
              /\ value r = Some v /\ t = release_local ny_tz a.
Proof.
  unfold gdp_release_of. intros H.
  apply build_gdp_release_timestamps_In in H.
  destruct H as [r [a [Hk [Ha [Hv Ht]]]]]. exists r, a.
  split; [apply kept_is_initial_vintage; exact Hk|auto].
Qed.

Lemma gdp_release_of_empty {V : Type} (ny_tz : tzinfo)
      (observations : list (gdp_row V)) :
  gdp_release_of ny_tz observations = []
  <-> forall r, In r observations -> complete r = false.
Proof.
  split.
  - intros He r Hin. destruct (complete r) eqn:Hc; [|reflexivity]. exfalso.
    assert (Hf : In r (clean_observations observations))
      by (apply clean_observations_In; auto).
    destruct (keep_initial_covers _ _ Hf) as [r' [Hk Hd]].
    pose proof (keep_initial_In _ _ Hk) as Hf'.
    apply clean_observations_In in Hf'. destruct Hf' as [_ Hc'].
    destruct (proj1 (complete_cells r') Hc') as [d [a [v [_ [Ha Hv]]]]].
    assert (Hin' : In (release_local ny_tz a, v) (gdp_release_of ny_tz observations)).
    { unfold gdp_release_of. apply build_gdp_release_timestamps_In.
      exists r', a. auto. }
    rewrite He in Hin'. exact Hin'.
  - intros Hnone. destruct (gdp_release_of ny_tz observations) as [|[t v] rest] eqn:E;
      [reflexivity|]. exfalso.
    assert (Hin : In (t, v) (gdp_release_of ny_tz observations))
      by (rewrite E; left; reflexivity).
    apply gdp_release_of_In in Hin.
    destruct Hin as [r [a [[Hin [d [a' [v' [Hd [Ha [Hv _]]]]]]] _]]].
    assert (Hc : complete r = true)
      by (apply complete_cells; exists d, a', v'; auto).
    rewrite (Hnone r Hin) in Hc. discriminate.
Qed.

Lemma bfill_source {A : Type} (column : list (option A)) (k : nat) (v : A) :
  nth_error (bfill column) k = Some (Some v) ->
  exists j, nth_error column j = Some (Some v).
Proof.
  revert k. induction column as [|[x|] column IH]; intros [|k] H; simpl in H;
    try discriminate.
  - exists 0%nat. exact H.
  - destruct (IH _ H) as [j Hj]. exists (S j). exact Hj.
  - destruct (bfill column) as [|y rest] eqn:E; simpl in H.
    + injection H as H. discriminate.
    + destruct (IH 0%nat) as [j Hj]; [simpl; exact H|]. exists (S j). exact Hj.
  - destruct (IH _ H) as [j Hj]. exists (S j). exact Hj.
Qed.

Lemma gdp_main_run {V : Type} (ny_tz : tzinfo) (observations : list (gdp_row V))
      (stock_Datetime : list (option instant)) :
  gdp_main ny_tz observations stock_Datetime
  = match observations with
    | [] => Raised KeyError
    | _ :: _ =>
        if (0 <? List.length (gdp_release_of ny_tz observations))%nat then
          Returned (align_to_hourly
                      (map (fun e => (Some (fst e), snd e))
                           (gdp_release_of ny_tz observations))
                      (map Some (sort_values Z.ltb (dropna stock_Datetime))))
        else Raised AssertionError
    end.
Proof. destruct observations; reflexivity. Qed.

(** X13. What the GDP pipeline writes: the hourly frame is on the stock's
    instants in ascending order; the slot of instant [t] holds the value of
    a release with the greatest stamp at or before [t] whenever a release
    is that early; and every value in the frame is the value of an initial
    vintage, one with the earliest [realtime_start] among the complete
    vintages of its observation date, so no revision reaches the frame. *)
Theorem gdp_main_initial_releases {V : Type} (ny_tz : tzinfo)
        (observations : list (gdp_row V)) (stock_Datetime : list (option instant))
        (gdp_hourly : frame V) :
  gdp_main ny_tz observations stock_Datetime = Returned gdp_hourly ->
  index gdp_hourly = sort_values Z.ltb (dropna stock_Datetime)
  /\ (forall k t, nth_error (index gdp_hourly) k = Some t ->
                  as_of_slot (gdp_release_of ny_tz observations) t
                             (nth_error (column gdp_hourly) k))
  /\ (forall k v, nth_error (column gdp_hourly) k = Some (Some v) ->
                  exists r a t,
                    initial_vintage observations r
                    /\ realtime_start r = Some a /\ value r = Some v
                    /\ t = release_local ny_tz a
                    /\ In (t, v) (gdp_release_of ny_tz observations)).
Proof.
  rewrite gdp_main_run. destruct observations as [|r0 rest]; [discriminate|].
  set (observations := r0 :: rest).
  destruct (0 <? List.length (gdp_release_of ny_tz observations))%nat;
    [|discriminate].
  intros H. injection H as <-.
  split; [|split].
  - rewrite align_to_hourly_index, dropna_map_Some.
    apply sort_timeline_id, sort_timeline_sorted.
  - intros k t Hk.
    pose proof (align_to_hourly_as_of _ _ _ _ Hk) as Has.
    rewrite dropna_Datetime_map_Some in Has. exact Has.
  - intros k v Hk. unfold align_to_hourly in Hk. cbn [column] in Hk.
    rewrite dropna_Datetime_map_Some in Hk.
    apply bfill_source in Hk. destruct Hk as [j Hj].
    apply ffill_from_source in Hj. destruct Hj as [Hj|[i [_ Hi]]]; [discriminate|].
    rewrite merge_asof_backward_snd, nth_error_map in Hi.
    match type of Hi with
    | option_map _ ?x = _ => destruct x as [t|]
    end; cbn [option_map] in Hi; [|discriminate].
    injection Hi as Hi.
    apply asof_no_lookahead in Hi; [|apply sort_values_sorted].
    destruct Hi as [[t' v'] [Hin [_ Hv]]]. cbn [snd] in Hv. subst v'.
    apply sort_values_In in Hin.
    destruct (gdp_release_of_In _ _ _ _ Hin) as [r [a [Hr [Ha [Hv Ht]]]]].
    exists r, a, t'. auto.
Qed.

Lemma gdp_main_initial_releases_witness :
  index (mkframe [utc 2023 2 1 0 0; utc 2023 5 1 0 0; utc 2023 7 1 0 0]
                 [Some 29; Some 11; Some 11])
  = sort_values Z.ltb
      (dropna [Some (utc 2023 7 1 0 0); None; Some (utc 2023 2 1 0 0);
               Some (utc 2023 5 1 0 0)])
  /\ (forall k t,
         nth_error (index (mkframe [utc 2023 2 1 0 0; utc 2023 5 1 0 0; utc 2023 7 1 0 0]
                                   [Some 29; Some 11; Some 11])) k = Some t ->
         as_of_slot (gdp_release_of us_eastern example_observations) t
                    (nth_error (column (mkframe [utc 2023 2 1 0 0; utc 2023 5 1 0 0;
                                                 utc 2023 7 1 0 0]
                                                [Some 29; Some 11; Some 11])) k))
  /\ (forall k v,
         nth_error (column (mkframe [utc 2023 2 1 0 0; utc 2023 5 1 0 0; utc 2023 7 1 0 0]
                                    [Some 29; Some 11; Some 11])) k = Some (Some v) ->
         exists r a t,
           initial_vintage example_observations r
           /\ realtime_start r = Some a /\ value r = Some v
           /\ t = release_local us_eastern a
           /\ In (t, v) (gdp_release_of us_eastern example_observations)).
Proof.
  apply (gdp_main_initial_releases us_eastern example_observations
           [Some (utc 2023 7 1 0 0); None; Some (utc 2023 2 1 0 0);
            Some (utc 2023 5 1 0 0)]).
  vm_compute. reflexivity.
Defined.

(** X14. How the GDP script ends before it writes.  On an empty list of
    observations the fetch raises [KeyError] (the frame has no [date]
    column), and the assertion is never reached.  The assertion
    [len(gdp_release) > 0] fails exactly when there are observations and
    none has all three of its cells (date, [realtime_start], value).  The
    script goes on to write a frame exactly when some observation has all
    three. *)
Theorem gdp_main_assertion {V : Type} (ny_tz : tzinfo)
        (observations : list (gdp_row V)) (stock_Datetime : list (option instant)) :
  (gdp_main ny_tz observations stock_Datetime = Raised KeyError
   <-> observations = [])
  /\ (gdp_main ny_tz observations stock_Datetime = Raised AssertionError
      <-> observations <> []
          /\ forall r, In r observations -> complete r = false)
  /\ ((exists gdp_hourly,
          gdp_main ny_tz observations stock_Datetime = Returned gdp_hourly)
      <-> exists r, In r observations /\ complete r = true).
Proof.
  rewrite gdp_main_run. destruct observations as [|r0 rest].
  - split; [split; reflexivity|]. split.
    + split; [discriminate|intros [H _]; contradiction].
    + split; [intros [f H]; discriminate|intros [r [[] _]]].
  - set (observations := r0 :: rest).
    pose proof (gdp_release_of_empty ny_tz observations) as Hempty.
    destruct (gdp_release_of ny_tz observations) as [|e released] eqn:E;
      cbn [List.length Nat.ltb Nat.leb].
    + assert (Hnone : forall r, In r observations -> complete r = false)
        by (apply Hempty; reflexivity).
      split; [split; discriminate|]. split.
      * split; [intros _; split; [discriminate|exact Hnone]|reflexivity].
      * split; [intros [f H]; discriminate|].
        intros [r [Hin Hc]]. rewrite (Hnone r Hin) in Hc. discriminate.
    + assert (Hsome : exists r, In r observations /\ complete r = true).
      { destruct e as [t v].
        assert (Hin : In (t, v) (gdp_release_of ny_tz observations))
          by (rewrite E; left; reflexivity).
        apply gdp_release_of_In in Hin.
        destruct Hin as [r [a [[Hin [d [a' [v' [Hd [Ha [Hv _]]]]]]] _]]].
        exists r. split; [exact Hin|].
        apply complete_cells. exists d, a', v'. auto. }
      split; [split; discriminate|]. split.
      * split; [discriminate|].
        intros [_ Hnone]. destruct Hsome as [r [Hin Hc]].
        rewrite (Hnone r Hin) in Hc. discriminate.
      * split; [intros _; exact Hsome|intros _; eexists; reflexivity].
Qed.


(** ** The fetch loop of news_data.py *)

Lemma datetime_range_values : datetime_min = 86400 /\ datetime_max = 315537983999.
Proof. split; vm_compute; reflexivity. Qed.

Lemma plus_days_ok (dt n : Z) :
  -999999999 <= n <= 999999999 ->
  datetime_min <= dt + n * 86400 <= datetime_max ->
  plus_days dt n = Ret (dt + n * 86400).
Proof.
  intros Hn Hr. unfold plus_days.
  replace ((-999999999 <=? n) && (n <=? 999999999)) with true
    by (symmetry; apply andb_true_iff; split; apply Z.leb_le; lia).
  replace ((datetime_min <=? dt + n * 86400) && (dt + n * 86400 <=? datetime_max))
    with true by (symmetry; apply andb_true_iff; split; apply Z.leb_le; lia).
  reflexivity.
Qed.

Lemma plus_days_Ret (dt n r : Z) : plus_days dt n = Ret r -> r = dt + n * 86400.
Proof.
  unfold plus_days.
  destruct ((-999999999 <=? n) && (n <=? 999999999)); [|discriminate].
  destruct ((datetime_min <=? dt + n * 86400) && (dt + n * 86400 <=? datetime_max));
    [|discriminate].
  intros H. injection H as <-. reflexivity.
Qed.

Lemma news_window_0 (start_dt_utc end_dt_utc window_days : Z) :
  news_window start_dt_utc end_dt_utc window_days 0
  = (start_dt_utc, Z.min (start_dt_utc + (window_days - 1) * 86400) end_dt_utc).
Proof.
  unfold news_window. cbn [Z.of_nat]. rewrite Z.mul_0_l, Z.add_0_r. reflexivity.
Qed.

Lemma news_window_S (start_dt_utc end_dt_utc window_days : Z) (j : nat) :
  news_window start_dt_utc end_dt_utc window_days (S j)
  = news_window (start_dt_utc + window_days * 86400) end_dt_utc window_days j.
Proof.
  unfold news_window.
  replace (start_dt_utc + Z.of_nat (S j) * (window_days * 86400))
    with (start_dt_utc + window_days * 86400 + Z.of_nat j * (window_days * 86400))
    by lia.
  reflexivity.
Qed.

Lemma news_windows_shift (start_dt_utc end_dt_utc window_days : Z) (n : nat) :
  map (news_window start_dt_utc end_dt_utc window_days) (seq 1 n)
  = map (news_window (start_dt_utc + window_days * 86400) end_dt_utc window_days)
        (seq 0 n).
Proof.
  rewrite <- seq_shift, map_map. apply map_ext. intros j. apply news_window_S.
Qed.

Section FetchLoop.

Context {json : Type}.
Variable float : json -> outcome (option Q).
Variable strptime : string -> string -> option instant.
Variable call_news_sentiment : string -> instant -> instant -> option (response json).
Variable ticker : string.
Variable end_dt_utc : instant.
Variable window_days : Z.

Lemma fetch_loop_done (fuel : nat) (window_start : instant) (all_rows : list article) :
  end_dt_utc < window_start ->
  fetch_loop float strptime call_news_sentiment fuel ticker end_dt_utc window_days
             window_start all_rows = Ret all_rows.
Proof.
  intros H. destruct fuel; simpl;
    replace (window_start <=? end_dt_utc) with false
    by (symmetry; apply Z.leb_gt; lia); reflexivity.
Qed.

Lemma fetch_loop_closed (n : nat) :
  1 <= window_days -> end_dt_utc + window_days * 86400 <= datetime_max ->
  forall (fuel : nat) (window_start : instant) (all_rows : list article),
    datetime_min <= window_start ->
    n = Z.to_nat ((end_dt_utc - window_start) / (window_days * 86400) + 1) ->
    (n <= fuel)%nat ->
    fetch_loop float strptime call_news_sentiment fuel ticker end_dt_utc window_days
               window_start all_rows
    = (lists <- for_each (window_rows float strptime call_news_sentiment ticker)
                  (map (news_window window_start end_dt_utc window_days) (seq 0 n)) ;;
       Ret (all_rows ++ concat lists)).
Proof.
  intros Hw Hmax. destruct datetime_range_values as [Hlo Hhi].
  set (W := window_days * 86400) in *.
  assert (HW : 86400 <= W) by (unfold W; lia).
  induction n as [|n IH]; intros fuel window_start all_rows Hmin Hn Hfuel.
  - assert (Hlt : end_dt_utc < window_start).
    { destruct (Z_lt_le_dec end_dt_utc window_start) as [H|H]; [exact H|exfalso].
      pose proof (Z.div_pos (end_dt_utc - window_start) W). lia. }
    rewrite (fetch_loop_done _ _ _ Hlt). cbn. rewrite app_nil_r. reflexivity.
  - assert (Hle : window_start <= end_dt_utc).
    { destruct (Z_le_gt_dec window_start end_dt_utc) as [H|H]; [exact H|exfalso].
      assert ((end_dt_utc - window_start) / W < 0)
        by (apply Z.div_lt_upper_bound; lia).
      lia. }
    destruct fuel as [|fuel]; [lia|].
    cbn [fetch_loop].
    replace (window_start <=? end_dt_utc) with true by (symmetry; apply Z.leb_le; lia).
    rewrite plus_days_ok by (unfold W in *; lia). cbn [bind].
    set (window_end := Z.min (window_start + (window_days - 1) * 86400) end_dt_utc).
    rewrite (plus_days_ok window_end 1) by (unfold window_end, W in *; lia).
    cbn [bind].
    assert (Hnext : map (news_window window_start end_dt_utc window_days) (seq 1 n)
                    = map (news_window (window_end + 1 * 86400) end_dt_utc window_days)
                          (seq 0 n)
                    /\ n = Z.to_nat ((end_dt_utc - (window_end + 1 * 86400)) / W + 1)).
    { destruct (Z_le_gt_dec (window_start + (window_days - 1) * 86400) end_dt_utc)
        as [Hin|Hout].
      - replace (window_end + 1 * 86400) with (window_start + W)
          by (unfold window_end, W; lia).
        split; [apply news_windows_shift|].
        replace (end_dt_utc - (window_start + W))
          with (end_dt_utc - window_start + (-1) * W) by lia.
        rewrite Z.div_add by lia. lia.
      - assert (Hone : (end_dt_utc - window_start) / W = 0)
          by (apply Z.div_small; unfold W; lia).
        assert (n = 0%nat) by lia. subst n. split; [reflexivity|].
        replace window_end with end_dt_utc by (unfold window_end; lia).
        replace (end_dt_utc - (end_dt_utc + 1 * 86400)) with (-86400) by lia.
        assert (-86400 / W = -1).
        { symmetry. apply (Z.div_unique _ _ _ (W - 86400)); lia. }
        lia. }
    destruct Hnext as [Hshift Hn'].
    cbn [seq map for_each]. rewrite news_window_0. fold window_end.
    unfold window_rows at 1. cbn [fst snd].
    rewrite Hshift.
    destruct (call_news_sentiment ticker window_start window_end) as [data|].
    + destruct (parse_news_feed float strptime data ticker) as [rows| |]; cbn [bind];
        try reflexivity.
      rewrite (IH fuel (window_end + 1 * 86400) (all_rows ++ rows));
        [|unfold window_end; lia|exact Hn'|lia].
      destruct (for_each _ _) as [ys| |]; cbn [bind concat]; try reflexivity.
      rewrite app_assoc. reflexivity.
    + cbn [bind].
      rewrite (IH fuel (window_end + 1 * 86400) all_rows);
        [|unfold window_end; lia|exact Hn'|lia].
      destruct (for_each _ _) as [ys| |]; cbn [bind concat app]; reflexivity.
Qed.

Lemma fetch_loop_stuck (fuel : nat) (window_start : instant)
      (all_rows rows : list article) :
  window_days <= 0 -> window_start <= end_dt_utc ->
  fetch_loop float strptime call_news_sentiment fuel ticker end_dt_utc window_days
             window_start all_rows <> Ret rows.
Proof.
  intros Hw. revert window_start all_rows.
  induction fuel as [|fuel IH]; intros window_start all_rows Hle; cbn [fetch_loop];
    replace (window_start <=? end_dt_utc) with true by (symmetry; apply Z.leb_le; lia);
    [discriminate|].
  destruct (plus_days window_start (window_days - 1)) as [limit| |] eqn:El;
    cbn [bind]; try discriminate.
  apply plus_days_Ret in El.
  replace (Z.min limit end_dt_utc) with limit by lia.
  assert (Hnext : forall rows', 
             (window_start' <- plus_days limit 1 ;;
              fetch_loop float strptime call_news_sentiment fuel ticker end_dt_utc
                         window_days window_start' rows') <> Ret rows).
  { intros rows'. destruct (plus_days limit 1) as [next| |] eqn:En; cbn [bind];
      try discriminate.
    apply plus_days_Ret in En. apply IH. lia. }
  destruct (call_news_sentiment ticker window_start limit) as [data|];
    [|apply Hnext].
  destruct (parse_news_feed float strptime data ticker) as [rows'| |]; cbn [bind];
    try discriminate. apply Hnext.
Qed.

End FetchLoop.

Lemma news_window_gap (start_dt_utc end_dt_utc window_days t : Z) (j : nat) :
  1 <= window_days ->
  (window_days - 1) * 86400 < (t - start_dt_utc) mod (window_days * 86400) ->
  ~ (fst (news_window start_dt_utc end_dt_utc window_days j) <= t
     <= snd (news_window start_dt_utc end_dt_utc window_days j)).
Proof.
  intros Hw Hgap. unfold news_window. cbn [fst snd]. intros [Hlo Hhi].
  set (W := window_days * 86400) in *.
  assert ((t - start_dt_utc) mod W = t - start_dt_utc - Z.of_nat j * W).
  { symmetry. apply (Z.mod_unique _ _ (Z.of_nat j)); [left; unfold W; lia|lia]. }
  lia.
Qed.

(** X15. The rolling windows of a fetch, in closed form.  For a window of
    at least one day, on enough fuel the loop asks the service for window
    [j] from [start + j * window_days] days to [window_days - 1] days later
    (the last one cut at the end of the period), in order, keeps the rows
    of the windows whose call did not raise, and stops at the first feed
    that does not parse.  The windows leave a gap: an instant more than
    [window_days - 1] days into its block of [window_days] days is inside
    no window the service is asked for. *)
Theorem fetch_windows {json : Type} (float : json -> outcome (option Q))
        (strptime : string -> string -> option instant)
        (call_news_sentiment : string -> instant -> instant -> option (response json))
        (fuel : nat) (ticker : string) (start_dt_utc end_dt_utc : instant)
        (window_days : Z) :
  1 <= window_days ->
  datetime_min <= start_dt_utc ->
  end_dt_utc + window_days * 86400 <= datetime_max ->
  (List.length (news_windows start_dt_utc end_dt_utc window_days) <= fuel)%nat ->
  fetch_news_sentiment_for_ticker float strptime call_news_sentiment fuel ticker
                                  start_dt_utc end_dt_utc window_days
  = (lists <- for_each (window_rows float strptime call_news_sentiment ticker)
                (news_windows start_dt_utc end_dt_utc window_days) ;;
     Ret (sort_values (key_lt time_published) (concat lists)))
  /\ forall t window,
      (window_days - 1) * 86400 < (t - start_dt_utc) mod (window_days * 86400) ->
      In window (news_windows start_dt_utc end_dt_utc window_days) ->
      ~ (fst window <= t <= snd window).
Proof.
  intros Hw Hmin Hmax Hfuel. split.
  - unfold fetch_news_sentiment_for_ticker, news_windows in *.
    rewrite length_map, length_seq in Hfuel.
    rewrite (fetch_loop_closed float strptime call_news_sentiment ticker end_dt_utc
               window_days _ Hw Hmax fuel start_dt_utc [] Hmin eq_refl Hfuel).
    destruct (for_each _ _) as [lists| |]; reflexivity.
  - intros t window Hgap Hin. unfold news_windows in Hin.
    apply in_map_iff in Hin. destruct Hin as [j [<- _]].
    apply news_window_gap; assumption.
Qed.

Lemma fetch_windows_witness :
  fetch_news_sentiment_for_ticker
    (fun z : Z => Ret (Some (inject_Z z))) (fun _ _ => None)
    (fun _ a _ => if a =? utc 2023 1 8 0 0 then None else Some (mkresponse None))
    3 "AAPL" (utc 2023 1 1 0 0) (utc 2023 1 20 0 0) 7
  = (lists <- for_each
                (window_rows
                   (fun z : Z => Ret (Some (inject_Z z))) (fun _ _ => None)
                   (fun _ a _ => if a =? utc 2023 1 8 0 0 then None
                                 else Some (mkresponse None))
                   "AAPL")
                (news_windows (utc 2023 1 1 0 0) (utc 2023 1 20 0 0) 7) ;;
     Ret (sort_values (key_lt time_published) (concat lists)))
  /\ forall t window,
      (7 - 1) * 86400 < (t - utc 2023 1 1 0 0) mod (7 * 86400) ->
      In window (news_windows (utc 2023 1 1 0 0) (utc 2023 1 20 0 0) 7) ->
      ~ (fst window <= t <= snd window).
Proof.
  apply (fetch_windows (fun z : Z => Ret (Some (inject_Z z))) (fun _ _ => None)
           (fun _ a _ => if a =? utc 2023 1 8 0 0 then None else Some (mkresponse None))
           3 "AAPL" (utc 2023 1 1 0 0) (utc 2023 1 20 0 0) 7).
  - lia.
  - vm_compute. discriminate.
  - vm_compute. discriminate.
  - vm_compute. lia.
Defined.

(** X16. With a window of zero or fewer days the loop makes no progress:
    when the period is not empty the fetch returns no frame on any fuel;
    it either runs on for ever or is stopped by an exception. *)
Theorem fetch_nonpositive_window_never_returns {json : Type}
        (float : json -> outcome (option Q))
        (strptime : string -> string -> option instant)
        (call_news_sentiment : string -> instant -> instant -> option (response json))
        (fuel : nat) (ticker : string) (start_dt_utc end_dt_utc : instant)
        (window_days : Z) (df : list article) :
  window_days <= 0 -> start_dt_utc <= end_dt_utc ->
  fetch_news_sentiment_for_ticker float strptime call_news_sentiment fuel ticker
                                  start_dt_utc end_dt_utc window_days
  <> Ret df.
Proof.
  intros Hw Hle. unfold fetch_news_sentiment_for_ticker.
  destruct (fetch_loop float strptime call_news_sentiment fuel ticker end_dt_utc
                       window_days start_dt_utc []) as [rows| |] eqn:E;
    cbn [bind]; try discriminate.
  exfalso. revert E. apply fetch_loop_stuck; assumption.
Qed.

Lemma fetch_nonpositive_window_never_returns_witness :
  fetch_news_sentiment_for_ticker
    (fun z : Z => Ret (Some (inject_Z z))) (fun _ _ => None)
    (fun _ _ _ => Some (mkresponse None))
    1000 "AAPL" (utc 2023 1 1 0 0) (utc 2023 1 20 0 0) 0
  <> Ret [].
Proof.
  apply (fetch_nonpositive_window_never_returns
           (fun z : Z => Ret (Some (inject_Z z))) (fun _ _ => None)
           (fun _ _ _ => Some (mkresponse None))
           1000 "AAPL" (utc 2023 1 1 0 0) (utc 2023 1 20 0 0) 0 []).
  - lia.
  - vm_compute. discriminate.
Defined.


(** ** The feed parser *)

Lemma parse_feed_rows {json : Type} (float : json -> outcome (option Q))
      (strptime : string -> string -> option instant)
      (articles : list (feed_article json)) (requested : string)
      (rows : list article) :
  parse_feed float strptime articles requested = Ret rows
  <-> Forall2 (is_row_of float strptime requested)
              (filter (kept strptime requested) articles) rows.
Proof.
  revert rows. induction articles as [|a articles IH]; intros rows.
  - cbn. split.
    + intros H. injection H as <-. constructor.
    + intros H. inversion H. reflexivity.
  - cbn [parse_feed filter]. unfold kept at 1.
    destruct (parse_time_published strptime (f_time_published a)) as [tp|] eqn:Etp;
      [|apply IH].
    destruct (find_ticker_entry requested (f_ticker_sentiment a)) as [entry|] eqn:Ee;
      [|apply IH].
    split.
    + intros H.
      destruct (float_or_None float (f_overall_sentiment_score a)) as [o| |] eqn:Eo;
        try discriminate. cbn [bind] in H.
      destruct (float_or_None float (ts_relevance_score entry)) as [rel| |] eqn:Er;
        try discriminate. cbn [bind] in H.
      destruct (float_or_None float (ts_ticker_sentiment_score entry)) as [s| |] eqn:Es;
        try discriminate. cbn [bind] in H.
      destruct (parse_feed float strptime articles requested) as [rest| |] eqn:Erest;
        try discriminate. cbn [bind] in H. injection H as <-.
      constructor; [|apply IH; reflexivity].
      unfold is_row_of.
      cbn [ticker time_published url overall_sentiment_score ticker_relevance_score
             ticker_sentiment_score].
      repeat split; try assumption. exists entry. auto.
    + intros H. inversion H as [|? r ? rest Hrow Hrest]; subst.
      destruct Hrow as (Ht & Htp & Hu & Ho & e & He & Hr & Hs).
      rewrite Ee in He. injection He as <-.
      rewrite Ho, Hr, Hs. cbn [bind].
      rewrite (proj2 (IH rest) Hrest). cbn [bind].
      rewrite Etp in Htp. injection Htp as ->.
      destruct r as [rt rtp ru ro rr rs].
      cbn [ticker time_published url overall_sentiment_score ticker_relevance_score
             ticker_sentiment_score] in *.
      subst. reflexivity.
Qed.

(** X17. What the parser returns: it returns the rows [rows] exactly when
    they are, in feed order, one row for each article with a time that
    parses and an entry for the requested ticker; each row carries the
    requested ticker, the parsed time, the url, and the scores of the
    first entry naming the ticker.  Articles without such a time or entry
    give no row, and a score that [float] refuses makes the call raise
    rather than skip the article. *)
Theorem parse_news_feed_rows {json : Type} (float : json -> outcome (option Q))
        (strptime : string -> string -> option instant)
        (data : response json) (requested : string) (rows : list article) :
  parse_news_feed float strptime data requested = Ret rows
  <-> Forall2 (is_row_of float strptime requested)
              (filter (kept strptime requested) (feed_of data)) rows.
Proof. unfold parse_news_feed, feed_of. apply parse_feed_rows. Qed.

Lemma Forall2_right {A B : Type} (R : A -> B -> Prop) (P : B -> Prop)
      (l : list A) (l' : list B) :
  (forall a b, R a b -> P b) -> Forall2 R l l' -> Forall P l'.
Proof. intros H HF. induction HF; constructor; eauto. Qed.

Section FetchRows.

Context {json : Type}.
Variable float : json -> outcome (option Q).
Variable strptime : string -> string -> option instant.
Variable call_news_sentiment : string -> instant -> instant -> option (response json).

Lemma parse_news_feed_ticker (data : response json) (requested : string)
      (rows : list article) :
  parse_news_feed float strptime data requested = Ret rows ->
  Forall (fun r => ticker r = requested) rows.
Proof.
  intros H. unfold parse_news_feed in H. apply parse_feed_rows in H.
  apply (Forall2_right _ _ _ _ (fun a b (Hab : is_row_of float strptime requested a b) =>
                                  proj1 Hab) H).
Qed.

Lemma fetch_loop_ticker (fuel : nat) (requested : string) (end_dt_utc : instant)
      (window_days : Z) (window_start : instant) (all_rows rows : list article) :
  Forall (fun r => ticker r = requested) all_rows ->
  fetch_loop float strptime call_news_sentiment fuel requested end_dt_utc window_days
             window_start all_rows = Ret rows ->
  Forall (fun r => ticker r = requested) rows.
Proof.
  revert window_start all_rows.
  induction fuel as [|fuel IH]; intros window_start all_rows Hall H;
    cbn [fetch_loop] in H;
    (destruct (window_start <=? end_dt_utc);
     [|injection H as <-; exact Hall]); [discriminate|].
  destruct (plus_days window_start (window_days - 1)) as [limit| |];
    try discriminate. cbn [bind] in H.
  destruct (call_news_sentiment requested window_start (Z.min limit end_dt_utc))
    as [data|].
  - destruct (parse_news_feed float strptime data requested) as [new| |] eqn:Ep;
      try discriminate. cbn [bind] in H.
    destruct (plus_days (Z.min limit end_dt_utc) 1) as [next| |]; try discriminate.
    cbn [bind] in H. apply (IH next (all_rows ++ new)); [|exact H].
    apply Forall_app. split; [exact Hall|]. apply parse_news_feed_ticker with data.
    exact Ep.
  - destruct (plus_days (Z.min limit end_dt_utc) 1) as [next| |]; try discriminate.
    cbn [bind] in H. apply (IH next all_rows Hall H).
Qed.

Lemma fetch_news_sentiment_for_ticker_rows (fuel : nat) (requested : string)
      (start_dt_utc end_dt_utc : instant) (window_days : Z) (df : list article) :
  fetch_news_sentiment_for_ticker float strptime call_news_sentiment fuel requested
                                  start_dt_utc end_dt_utc window_days = Ret df ->
  (forall a, In a df -> ticker a = requested)
  /\ (df <> [] -> start_dt_utc <= end_dt_utc).
Proof.
  unfold fetch_news_sentiment_for_ticker. intros H.
  destruct (fetch_loop float strptime call_news_sentiment fuel requested end_dt_utc
                       window_days start_dt_utc []) as [rows| |] eqn:E;
    try discriminate.
  cbn [bind] in H. injection H as <-. split.
  - intros a Ha. apply sort_values_In in Ha.
    pose proof (fetch_loop_ticker _ _ _ _ _ _ _ (Forall_nil _) E) as Hall.
    rewrite Forall_forall in Hall. apply Hall. exact Ha.
  - intros Hne. destruct (Z_le_gt_dec start_dt_utc end_dt_utc) as [Hle|Hgt];
      [exact Hle|exfalso].
    rewrite fetch_loop_done in E by lia. injection E as <-. apply Hne. reflexivity.
Qed.

Lemma for_each_In {A B : Type} (body : A -> outcome B) (items : list A)
      (out : list B) (y : B) :
  for_each body items = Ret out -> In y out ->
  exists x, In x items /\ body x = Ret y.
Proof.
  revert out. induction items as [|x items IH]; intros out H Hy; simpl in H.
  - injection H as <-. contradiction.
  - destruct (body x) as [y0| |] eqn:Ex; try discriminate. cbn [bind] in H.
    destruct (for_each body items) as [ys| |]; try discriminate.
    cbn [bind] in H. injection H as <-. destruct Hy as [<-|Hy].
    + exists x. split; [left; reflexivity|exact Ex].
    + destruct (IH ys eq_refl Hy) as [x' [Hx' Hb]]. exists x'. split; [right|]; assumption.
Qed.

Lemma fetch_news_for_tickers_rows (fuel : nat) (tickers : list string)
      (start_dt_utc end_dt_utc : instant) (window_days : Z) (df : list article) :
  fetch_news_for_tickers float strptime call_news_sentiment fuel tickers
                         start_dt_utc end_dt_utc window_days = Ret df ->
  (forall a, In a df -> In (ticker a) tickers)
  /\ (df <> [] -> start_dt_utc <= end_dt_utc).
Proof.
  unfold fetch_news_for_tickers. intros H.
  destruct (for_each _ tickers) as [dfs| |] eqn:E; try discriminate.
  cbn [bind] in H. injection H as <-.
  assert (Hin : forall a, In a (concat (filter (fun df_t => negb (List.length df_t =? 0)%nat)
                                               dfs)) ->
                          exists t df_t, In t tickers /\ In a df_t
                                         /\ fetch_news_sentiment_for_ticker
                                              float strptime call_news_sentiment fuel t
                                              start_dt_utc end_dt_utc window_days
                                            = Ret df_t).
  { intros a Ha. apply in_concat in Ha. destruct Ha as [df_t [Hdf Ha]].
    apply filter_In in Hdf. destruct Hdf as [Hdf _].
    destruct (for_each_In _ _ _ _ E Hdf) as [t [Ht Hrun]]. exists t, df_t. auto. }
  split.
  - intros a Ha. destruct (Hin a Ha) as [t [df_t [Ht [Ha' Hrun]]]].
    apply fetch_news_sentiment_for_ticker_rows in Hrun. destruct Hrun as [Hrun _].
    rewrite (Hrun a Ha'). exact Ht.
  - intros Hne.
    destruct (concat (filter (fun df_t => negb (List.length df_t =? 0)%nat) dfs))
      as [|a rest] eqn:Ec; [contradiction|].
    destruct (Hin a (or_introl eq_refl)) as [t [df_t [Ht [Ha' Hrun]]]].
    apply fetch_news_sentiment_for_ticker_rows in Hrun. destruct Hrun as [_ Hrun].
    apply Hrun. intros ->. contradiction.
Qed.

End FetchRows.

(** ** The shape of the hourly table *)

Lemma length_concat_frames {A B C : Type} (f : A -> B -> C) (keys : list A)
      (grid : list B) :
  List.length (concat (map (fun t => map (f t) grid) keys))
  = (List.length keys * List.length grid)%nat.
Proof.
  induction keys as [|t keys IH]; simpl; [reflexivity|].
  rewrite length_app, length_map, IH. reflexivity.
Qed.

Lemma String_ltb_irrefl (s : string) : String.ltb s s = false.
Proof.
  unfold String.ltb. pose proof (String.compare_antisym s s) as H.
  destruct (String.compare s s); try reflexivity; cbn in H; discriminate.
Qed.

Lemma String_ltb_asym (s t : string) : String.ltb s t = true -> String.ltb t s = false.
Proof.
  unfold String.ltb. rewrite (String.compare_antisym t s).
  destruct (String.compare s t); cbn; congruence.
Qed.

Lemma row_lt_asym (a b : hourly_row) : row_lt a b = true -> row_lt b a = false.
Proof.
  unfold row_lt. intros H. apply orb_true_iff in H. apply orb_false_iff.
  destruct H as [H|H].
  - split; [apply String_ltb_asym; exact H|].
    destruct (String.eqb (row_ticker b) (row_ticker a)) eqn:E; [|reflexivity].
    apply String.eqb_eq in E. rewrite E, String_ltb_irrefl in H. discriminate.
  - apply andb_true_iff in H. destruct H as [He Hd].
    apply String.eqb_eq in He. rewrite He. split; [apply String_ltb_irrefl|].
    apply andb_false_iff. right. apply Z.ltb_ge. apply Z.ltb_lt in Hd. lia.
Qed.


(** X19. What the news script saves.  It returns early with nothing to
    save exactly when no article was fetched: once there is an article the
    hourly table is never empty.  Every row of the table it saves is for
    one of the requested tickers. *)
Theorem news_main_saves {json : Type} (float : json -> outcome (option Q))
        (strptime : string -> string -> option instant)
        (call_news_sentiment : string -> instant -> instant -> option (response json))
        (fuel : nat) (tickers : list string) (start_dt_utc end_dt_utc : instant)
        (window_days : Z) :
  (news_main float strptime call_news_sentiment fuel tickers start_dt_utc end_dt_utc
             window_days = Ret None
   <-> fetch_news_for_tickers float strptime call_news_sentiment fuel tickers
                              start_dt_utc end_dt_utc window_days = Ret [])
  /\ forall df_hourly,
      news_main float strptime call_news_sentiment fuel tickers start_dt_utc
                end_dt_utc window_days = Ret (Some df_hourly) ->
      df_hourly <> []
      /\ forall row, In row df_hourly -> In (row_ticker row) tickers.
Proof.
  unfold news_main.
  destruct (fetch_news_for_tickers float strptime call_news_sentiment fuel tickers
                                   start_dt_utc end_dt_utc window_days)
    as [df| |] eqn:E; cbn [bind].
  - destruct (fetch_news_for_tickers_rows _ _ _ _ _ _ _ _ _ E) as [Htick Hperiod].
    destruct df as [|a df']; [split; [split; reflexivity|discriminate]|].
    assert (Hrow : In (row_of_bucket (ticker a) (floor_hour start_dt_utc)
                                     (bucket (a :: df') (ticker a) (floor_hour start_dt_utc)))
                      (aggregate_to_hourly (a :: df') start_dt_utc end_dt_utc)).
    { apply aggregate_to_hourly_rows. exists (ticker a), (floor_hour start_dt_utc).
      split; [left; reflexivity|]. split; [|reflexivity].
      apply date_range_1H_In. split.
      - split; [lia|]. apply floor_hour_mono. apply Hperiod. discriminate.
      - rewrite Z.sub_diag. reflexivity. }
    destruct (aggregate_to_hourly (a :: df') start_dt_utc end_dt_utc)
      as [|row0 rest] eqn:Eagg; [contradiction|].
    split; [split; discriminate|].
    intros df_hourly H. injection H as <-. split; [discriminate|].
    intros row Hin. rewrite <- Eagg in Hin.
    apply aggregate_to_hourly_rows in Hin.
    destruct Hin as [t [h [Ht [_ ->]]]]. cbn [row_of_bucket row_ticker].
    apply in_map_iff in Ht. destruct Ht as [a' [<- Ha']]. apply Htick. exact Ha'.
  - split; [split; discriminate|discriminate].
  - split; [split; discriminate|discriminate].
Qed.


(** ** Every article is counted once *)

Lemma Zsum_app (xs ys : list Z) : Zsum (xs ++ ys) = Zsum xs + Zsum ys.
Proof. induction xs as [|x xs IH]; simpl; [reflexivity|rewrite IH; lia]. Qed.

Lemma Zsum_map_add {A : Type} (f g : A -> Z) (l : list A) :
  Zsum (map (fun x => f x + g x) l) = Zsum (map f l) + Zsum (map g l).
Proof. induction l as [|x l IH]; simpl; [reflexivity|rewrite IH; lia]. Qed.

Lemma Zsum_map_scale {A : Type} (c : Z) (f : A -> Z) (l : list A) :
  Zsum (map (fun x => c * f x) l) = c * Zsum (map f l).
Proof. induction l as [|x l IH]; simpl; [lia|rewrite IH; lia]. Qed.

Lemma Zsum_map_ext {A : Type} (f g : A -> Z) (l : list A) :
  (forall x, f x = g x) -> Zsum (map f l) = Zsum (map g l).
Proof. intros H. rewrite (map_ext f g H). reflexivity. Qed.

Lemma Zsum_map_zero {A : Type} (f : A -> Z) (l : list A) :
  (forall x, f x = 0) -> Zsum (map f l) = 0.
Proof. intros H. induction l as [|x l IH]; simpl; [reflexivity|rewrite H, IH; reflexivity]. Qed.

Lemma Zsum_insert_by {A : Type} (lt : A -> A -> bool) (f : A -> Z) (x : A) (l : list A) :
  Zsum (map f (insert_by lt x l)) = f x + Zsum (map f l).
Proof.
  induction l as [|y l IH]; simpl; [reflexivity|].
  destruct (lt y x); simpl; [rewrite IH; lia|reflexivity].
Qed.

Lemma Zsum_sort_values {A : Type} (lt : A -> A -> bool) (f : A -> Z) (l : list A) :
  Zsum (map f (sort_values lt l)) = Zsum (map f l).
Proof.
  induction l as [|x l IH]; simpl; [reflexivity|].
  rewrite Zsum_insert_by, IH. reflexivity.
Qed.

Lemma Zsum_indicator {K : Type} (eqb : K -> K -> bool) (x : K) (keys : list K) :
  (forall k, eqb x k = true <-> x = k) -> NoDup keys ->
  Zsum (map (fun k => ind (eqb x k)) keys) = ind (existsb (eqb x) keys).
Proof.
  intros Heq Hnd. induction Hnd as [|k keys Hk Hnd IH]; simpl; [reflexivity|].
  rewrite IH. destruct (eqb x k) eqn:E; cbn; [|reflexivity].
  apply Heq in E. subst k.
  destruct (existsb (eqb x) keys) eqn:Ex; [|reflexivity].
  apply existsb_exists in Ex. destruct Ex as [k [Hin Hk']].
  apply Heq in Hk'. subst k. contradiction.
Qed.

Lemma insert_by_NoDup {A : Type} (lt : A -> A -> bool) (x : A) (l : list A) :
  ~ In x l -> NoDup l -> NoDup (insert_by lt x l).
Proof.
  induction l as [|y l IH]; intros Hx Hnd; simpl.
  - constructor; [intros []|constructor].
  - inversion Hnd as [|? ? Hy Hnd']; subst. destruct (lt y x).
    + constructor.
      * rewrite insert_by_In. intros [->|H]; [apply Hx; left; reflexivity|contradiction].
      * apply IH; [intros H; apply Hx; right; exact H|exact Hnd'].
    + constructor; assumption.
Qed.

Lemma sort_values_NoDup {A : Type} (lt : A -> A -> bool) (l : list A) :
  NoDup l -> NoDup (sort_values lt l).
Proof.
  induction l as [|x l IH]; intros Hnd; simpl; [constructor|].
  inversion Hnd as [|? ? Hx Hnd']; subst.
  apply insert_by_NoDup; [rewrite sort_values_In; exact Hx|apply IH; exact Hnd'].
Qed.

Lemma NoDup_map_injective {A B : Type} (f : A -> B) (l : list A) :
  (forall a b, f a = f b -> a = b) -> NoDup l -> NoDup (map f l).
Proof.
  intros Hinj Hnd. induction Hnd as [|x l Hx Hnd IH]; simpl; constructor; [|exact IH].
  intros Hin. apply in_map_iff in Hin. destruct Hin as [y [Hy Hin]].
  apply Hinj in Hy. subst y. contradiction.
Qed.

Lemma date_range_1H_NoDup (lo hi : instant) : NoDup (date_range_1H lo hi).
Proof.
  unfold date_range_1H. apply NoDup_map_injective; [|apply seq_NoDup].
  intros a b H. lia.
Qed.

Lemma count_url_cons (p : article -> bool) (a : article) (l : list article) :
  count (map url (filter p (a :: l)))
  = ind (p a && match url a with Some _ => true | None => false end)
    + count (map url (filter p l)).
Proof.
  unfold count. cbn [filter]. destruct (p a); cbn [andb ind]; [|lia].
  cbn [map dropna]. destruct (url a); cbn [ind List.length]; lia.
Qed.

Lemma ind_andb (a b : bool) : ind (a && b) = ind a * ind b.
Proof. destruct a, b; reflexivity. Qed.

Lemma cells_sum (keys : list string) (grid : list instant) (df : list article) :
  NoDup keys -> NoDup grid ->
  Zsum (map (fun t => Zsum (map (fun h => count (map url (bucket df t h))) grid)) keys)
  = Zsum (map (fun a => ind (match url a with Some _ => true | None => false end)
                        * ind (existsb (Z.eqb (floor_hour (time_published a))) grid)
                        * ind (existsb (String.eqb (ticker a)) keys)) df).
Proof.
  intros Hkeys Hgrid. induction df as [|a df IH].
  - cbn [map]. change (Zsum []) with 0. apply Zsum_map_zero. intros t.
    apply Zsum_map_zero. intros h. reflexivity.
  - cbn [map Zsum fold_right]. fold (Zsum (map (fun a0 => ind (match url a0 with Some _ => true | None => false end) * ind (existsb (Z.eqb (floor_hour (time_published a0))) grid) * ind (existsb (String.eqb (ticker a0)) keys)) df)).
    rewrite <- IH. unfold bucket.
    rewrite (Zsum_map_ext
               (fun t => Zsum (map (fun h => count (map url (filter (fun a0 => String.eqb (ticker a0) t && in_bin h a0) (a :: df)))) grid))
               (fun t => ind (match url a with Some _ => true | None => false end)
                         * ind (String.eqb (ticker a) t)
                         * Zsum (map (fun h => ind (Z.eqb (floor_hour (time_published a)) h)) grid)
                         + Zsum (map (fun h => count (map url (filter (fun a0 => String.eqb (ticker a0) t && in_bin h a0) df))) grid))).
    + rewrite Zsum_map_add. f_equal.
      rewrite (Zsum_indicator Z.eqb _ grid (fun k => Z.eqb_eq _ k) Hgrid).
      rewrite (Zsum_map_ext _ (fun t => (ind (match url a with Some _ => true | None => false end)
                                        * ind (existsb (Z.eqb (floor_hour (time_published a))) grid))
                                       * ind (String.eqb (ticker a) t))) by (intros; lia).
      rewrite Zsum_map_scale.
      rewrite (Zsum_indicator String.eqb _ keys (fun k => String.eqb_eq _ k) Hkeys).
      reflexivity.
    + intros t.
      rewrite (Zsum_map_ext _ (fun h => (ind (match url a with Some _ => true | None => false end)
                                        * ind (String.eqb (ticker a) t))
                                       * ind (Z.eqb (floor_hour (time_published a)) h)
                                       + count (map url (filter (fun a0 => String.eqb (ticker a0) t && in_bin h a0) df)))).
      * rewrite Zsum_map_add, Zsum_map_scale. reflexivity.
      * intros h. rewrite count_url_cons, !ind_andb. unfold in_bin. lia.
Qed.

Lemma existsb_true {A : Type} (f : A -> bool) (l : list A) (x : A) :
  In x l -> f x = true -> existsb f l = true.
Proof. intros Hin Hf. apply existsb_exists. exists x. auto. Qed.

Lemma in_grid (lo hi t : instant) :
  existsb (Z.eqb (floor_hour t)) (date_range_1H (floor_hour lo) (floor_hour hi))
  = (floor_hour lo <=? t) && (t <? floor_hour hi + 3600).
Proof.
  pose proof (floor_hour_spec t) as [Et Ht].
  pose proof (floor_hour_spec lo) as [El Hl].
  pose proof (floor_hour_spec hi) as [Eh Hh].
  destruct ((floor_hour lo <=? t) && (t <? floor_hour hi + 3600)) eqn:E.
  - apply andb_true_iff in E. destruct E as [E1 E2].
    apply Z.leb_le in E1. apply Z.ltb_lt in E2.
    apply (existsb_true _ _ (floor_hour t)); [|apply Z.eqb_refl].
    apply date_range_1H_In. split; [lia|].
    rewrite Et, El. replace (3600 * (t / 3600) - 3600 * (lo / 3600))
      with ((t / 3600 - lo / 3600) * 3600) by lia.
    apply Z.mod_mul. lia.
  - destruct (existsb _ _) eqn:Ex; [|reflexivity].
    apply existsb_exists in Ex. destruct Ex as [h [Hin Hh']].
    apply Z.eqb_eq in Hh'. subst h. apply date_range_1H_In in Hin.
    destruct Hin as [[H1 H2] _].
    apply andb_false_iff in E. destruct E as [E|E];
      [apply Z.leb_gt in E|apply Z.ltb_ge in E]; lia.
Qed.

(** X20. The hourly table counts every article once: the sum of its
    [news_count] column is the number of articles that came with a url and
    were published from the hour of the start to the end of the hour of
    the end.  Articles outside those hours, and articles without a url,
    are in no count. *)
Theorem aggregate_to_hourly_counts_once (df_articles : list article)
        (start_dt_utc end_dt_utc : instant) :
  total_news_count (aggregate_to_hourly df_articles start_dt_utc end_dt_utc)
  = Z.of_nat (List.length (filter (counted start_dt_utc end_dt_utc) df_articles)).
Proof.
  unfold total_news_count, aggregate_to_hourly.
  destruct df_articles as [|a0 df']; [reflexivity|].
  set (df := a0 :: df').
  set (grid := date_range_1H (floor_hour start_dt_utc) (floor_hour end_dt_utc)).
  assert (Hsum : Zsum (map news_count
                           (concat (map (fun t => map (reindex_row (resample_1H (get_group df t)) t)
                                                      grid) (group_keys df))))
                 = Z.of_nat (List.length (filter (counted start_dt_utc end_dt_utc) df))).
  { transitivity
      (Zsum (map (fun t => Zsum (map (fun h => count (map url (bucket df t h))) grid))
                 (group_keys df))).
    - induction (group_keys df) as [|t keys IHk]; cbn [map concat]; [reflexivity|].
      rewrite map_app, Zsum_app, IHk. cbn [Zsum fold_right]. f_equal.
      rewrite map_map. apply Zsum_map_ext. intros h.
      rewrite reindex_row_bucket. reflexivity.
    - rewrite cells_sum;
        [|apply sort_values_NoDup, NoDup_nodup|apply date_range_1H_NoDup].
      assert (Hgen : forall l, (forall a, In a l -> In a df) ->
                Zsum (map (fun a => ind (match url a with Some _ => true | None => false end)
                                    * ind (existsb (Z.eqb (floor_hour (time_published a))) grid)
                                    * ind (existsb (String.eqb (ticker a)) (group_keys df))) l)
                = Z.of_nat (List.length (filter (counted start_dt_utc end_dt_utc) l))).
      { induction l as [|a l IHl]; intros Hsub; [reflexivity|].
        cbn [map Zsum fold_right filter].
        fold (Zsum (map (fun a => ind (match url a with Some _ => true | None => false end)
                                  * ind (existsb (Z.eqb (floor_hour (time_published a))) grid)
                                  * ind (existsb (String.eqb (ticker a)) (group_keys df))) l)).
        rewrite IHl by (intros a' Ha'; apply Hsub; right; exact Ha').
        replace (existsb (String.eqb (ticker a)) (group_keys df)) with true.
        2:{ symmetry. apply (existsb_true _ _ (ticker a)); [|apply String.eqb_refl].
            apply group_keys_In. apply in_map. apply Hsub. left. reflexivity. }
        unfold grid. rewrite in_grid. unfold counted.
        destruct (url a); cbn [andb ind];
          destruct ((floor_hour start_dt_utc <=? time_published a)
                    && (time_published a <? floor_hour end_dt_utc + 3600));
          cbn [andb ind List.length]; lia. }
      apply Hgen. auto. }
  destruct (map _ (group_keys df)) as [|frame frames] eqn:E.
  - exact Hsum.
  - rewrite Zsum_sort_values. exact Hsum.
Qed.


(** ** The PPI pipeline *)

(** X21. For a clean index series of n observations with distinct dates in
    order, the PPI pipeline has n - 12 events: event i is the YoY change of
    observation i + 12 against observation i, released at 08:30 New York
    time on the 14th (rolled past a weekend) of the month after
    observation i + 12.  The hourly column is the as-of lookup in these
    events and never holds a change released later; with twelve
    observations or fewer there is no event and the column is absent
    throughout. *)
Theorem ppi_main_events {V : Type} (ny_tz : tzinfo)
        (rel_change : V -> V -> option V) (times100 : V -> V) (f : V -> V -> V)
        (ds : list date) (xs : list V) (hourly_index : list (option instant)) :
  eastern_range ny_tz ->
  List.length ds = List.length xs ->
  Sorted date_lt ds -> Forall valid_date ds ->
  (forall a b, In a xs -> In b xs -> rel_change a b = Some (f a b)) ->
  Sorted Z.le (dropna hourly_index) -> dropna hourly_index <> [] ->
  exists releases df,
    get_ppi_release_schedule ny_tz
      (combine (skipn 12 ds) (changes (fun a b => times100 (f a b)) 12 xs))
    = Ret releases
    /\ List.length releases = (List.length xs - 12)%nat
    /\ ppi_main rel_change times100 ny_tz (combine ds (map Some xs)) hourly_index
       = Ret df
    /\ index df = dropna hourly_index
    /\ (forall i d a b,
           nth_error ds (i + 12) = Some d ->
           nth_error xs (i + 12) = Some a ->
           nth_error xs i = Some b ->
           exists r,
             fixed_day_release ny_tz 14 d = Ret r
             /\ nth_error (combine releases
                                   (changes (fun a b => times100 (f a b)) 12 xs)) i
                = Some (r, times100 (f a b)))
    /\ (forall k t,
           nth_error (dropna hourly_index) k = Some t ->
           as_of_slot (combine releases (changes (fun a b => times100 (f a b)) 12 xs))
                      t (nth_error (column df) k)
           /\ no_lookahead_slot
                (combine releases (changes (fun a b => times100 (f a b)) 12 xs))
                t (nth_error (column df) k))
    /\ ((List.length xs <= 12)%nat ->
        column df = empty_column (dropna hourly_index)).
Proof.
  intros Htz Hlen Hs Hv Hf Hidx Hne.
  destruct (compute_inflation_rates_closed rel_change times100 f ds xs Hlen Hs Hf)
    as [_ Hclosed].
  set (F := fun a b => times100 (f a b)) in *.
  assert (Hl1 : List.length (skipn 12 ds) = List.length (changes F 12 xs))
    by (rewrite length_skipn, changes_length; lia).
  destruct (map_fst_combine_eq _ _ Hl1) as [Hfd Hsd].
  assert (Hvd : Forall valid_date (map fst (combine (skipn 12 ds) (changes F 12 xs))))
    by (rewrite Hfd; apply Forall_skipn; exact Hv).
  destruct (schedule_returns ny_tz _ Hvd) as (_ & [releases [Hsched Hrl]] & _).
  destruct (getitem_last_nonempty _ Hne) as [last Hlast].
  assert (Hrel : Sorted Z.le releases).
  { apply (ppi_release_sorted ny_tz _ releases Htz Hvd); [|exact Hsched].
    rewrite Hfd. apply Sorted_skipn, Sorted_date_lt_le, Hs. }
  assert (Hrlen : List.length releases = List.length (changes F 12 xs)).
  { rewrite Hrl, length_combine, <- Hl1. lia. }
  exists releases. eexists. split; [exact Hsched|].
  split; [rewrite Hrlen, changes_length; reflexivity|]. split.
  { unfold ppi_main. rewrite Hclosed.
    apply (align_ppi_run _ _ _ releases last Hsched Hlast). }
  cbn [index column]. split; [reflexivity|]. split; [|split].
  - intros i d a b Hd Ha Hb.
    assert (Hdi : nth_error (map fst (combine (skipn 12 ds) (changes F 12 xs))) i
                  = Some d).
    { rewrite Hfd, nth_error_skipn. replace (12 + i)%nat with (i + 12)%nat by lia.
      exact Hd. }
    unfold get_ppi_release_schedule in Hsched. rewrite for_each_on_index in Hsched.
    destruct (for_each_nth _ _ _ i d Hsched Hdi) as [r [Hr Hnr]].
    exists r. split; [exact Hr|].
    apply nth_error_combine; [exact Hnr|].
    apply (nth_error_changes F 12 xs i a b); assumption.
  - intros k t Hk. rewrite Hsd.
    apply (ffill_asof_slots _ releases); try assumption.
    apply map_fst_combine_le. lia.
  - intros Hshort.
    assert (Hnil : releases = []).
    { destruct releases; [reflexivity|]. rewrite changes_length in Hrlen.
      simpl in Hrlen. lia. }
    rewrite Hnil. cbn [combine column_after]. apply ffill_all_nan.
Qed.

Lemma ppi_main_events_witness :
  exists releases df,
    get_ppi_release_schedule us_eastern
      (combine (skipn 12 example_months)
               (changes (fun a b => 100 * (a - b)) 12 example_levels))
    = Ret releases
    /\ List.length releases = (List.length example_levels - 12)%nat
    /\ ppi_main (fun a b => Some (a - b)) (fun x => 100 * x) us_eastern
                (combine example_months (map Some example_levels)) example_timeline
       = Ret df
    /\ index df = dropna example_timeline
    /\ (forall i d a b,
           nth_error example_months (i + 12) = Some d ->
           nth_error example_levels (i + 12) = Some a ->
           nth_error example_levels i = Some b ->
           exists r,
             fixed_day_release us_eastern 14 d = Ret r
             /\ nth_error (combine releases
                                   (changes (fun a b => 100 * (a - b)) 12 example_levels)) i
                = Some (r, 100 * (a - b)))
    /\ (forall k t,
           nth_error (dropna example_timeline) k = Some t ->
           as_of_slot (combine releases
                               (changes (fun a b => 100 * (a - b)) 12 example_levels))
                      t (nth_error (column df) k)
           /\ no_lookahead_slot
                (combine releases (changes (fun a b => 100 * (a - b)) 12 example_levels))
                t (nth_error (column df) k))
    /\ ((List.length example_levels <= 12)%nat ->
        column df = empty_column (dropna example_timeline)).
Proof.
  apply (ppi_main_events us_eastern (fun a b => Some (a - b)) (fun x => 100 * x) Z.sub
           example_months example_levels example_timeline).
  - exact us_eastern_range.
  - reflexivity.
  - unfold example_months. sorted_dates.
  - unfold example_months. valid_dates.
  - intros a b _ _. reflexivity.
  - vm_compute. repeat constructor; discriminate.
  - discriminate.
Defined.

(** ** The safety fill of the GDP aligner *)

Lemma ffill_from_valid_prev {A : Type} (column : list (option A)) (p : A) (k : nat) :
  (k < List.length column)%nat ->
  exists v, nth_error (ffill_from (Some p) column) k = Some (Some v).
Proof.
  revert p k. induction column as [|[x|] column IH]; intros p [|k] Hk; simpl in *;
    try lia.
  - exists x. reflexivity.
  - apply IH. lia.
  - exists p. reflexivity.
  - apply IH. lia.
Qed.

Lemma ffill_from_after {A : Type} (column : list (option A)) (prev : option A)
      (k0 k : nat) (v : A) :
  nth_error column k0 = Some (Some v) ->
  (k0 <= k)%nat -> (k < List.length column)%nat ->
  exists v', nth_error (ffill_from prev column) k = Some (Some v').
Proof.
  revert prev k0 k. induction column as [|x column IH]; intros prev k0 k H0 Hle Hk;
    [destruct k0; discriminate|].
  destruct k0 as [|k0].
  - simpl in H0. injection H0 as ->. destruct k as [|k]; simpl.
    + exists v. reflexivity.
    + apply ffill_from_valid_prev. simpl in Hk. lia.
  - destruct k as [|k]; [lia|]. simpl in H0, Hk.
    destruct x as [x|]; simpl; apply (IH _ k0 k); try assumption; lia.
Qed.

(** X22. The safety fill of the GDP aligner.  Let slot [k0] be the first
    slot of the sorted timeline with a release at or before it.  That slot
    and every slot above it hold the value of a release with the greatest
    stamp at or before the instant of slot [k0], which is the first
    release's value only when no other release came by then; and no slot
    of the frame is left absent. *)
Theorem gdp_safety_fill {V : Type} (gdp_release_df : list (option instant * V))
        (hourly_index_utc : list (option instant)) (k0 : nat) (t0 : instant) :
  nth_error (sort_values Z.ltb (dropna hourly_index_utc)) k0 = Some t0 ->
  (exists e, In e (dropna_Datetime gdp_release_df) /\ fst e <= t0) ->
  (forall j tj e, (j < k0)%nat ->
                  nth_error (sort_values Z.ltb (dropna hourly_index_utc)) j = Some tj ->
                  In e (dropna_Datetime gdp_release_df) -> tj < fst e) ->
  exists e,
    greatest_at_or_before (dropna_Datetime gdp_release_df) t0 e
    /\ (forall k, (k <= k0)%nat ->
                  nth_error (column (align_to_hourly gdp_release_df hourly_index_utc)) k
                  = Some (Some (snd e)))
    /\ (forall k, (k < List.length (sort_values Z.ltb (dropna hourly_index_utc)))%nat ->
                  exists v,
                    nth_error (column (align_to_hourly gdp_release_df hourly_index_utc)) k
                    = Some (Some v)).
Proof.
  intros Hk0 Hex Hlead.
  set (idx := sort_values Z.ltb (dropna hourly_index_utc)) in *.
  set (ev := sort_values (key_lt fst) (dropna_Datetime gdp_release_df)).
  assert (Hev : Sorted Z.le (map fst ev)) by apply sort_values_sorted.
  assert (Hidx : Sorted Z.le idx) by apply sort_timeline_sorted.
  assert (Hcol : column (align_to_hourly gdp_release_df hourly_index_utc)
                 = bfill (ffill (map (asof_from None ev) idx))).
  { unfold align_to_hourly. cbn [column]. rewrite merge_asof_backward_snd. reflexivity. }
  assert (Hk0' : nth_error (index (align_to_hourly gdp_release_df hourly_index_utc)) k0
                 = Some t0) by (rewrite align_to_hourly_index; exact Hk0).
  destruct (align_to_hourly_as_of _ _ _ _ Hk0' Hex) as [e [Hg Hslot]].
  assert (Hex' : exists e, In e ev /\ fst e <= t0).
  { destruct Hex as [e0 [Hin0 Hle0]]. exists e0. split; [|exact Hle0].
    apply sort_values_In. exact Hin0. }
  destruct (asof_as_of_slot ev t0 Hev Hex') as [e' [_ Hval]].
  injection Hval as Hval.
  assert (HF0 : nth_error (ffill (map (asof_from None ev) idx)) k0
                = Some (Some (snd e'))).
  { apply ffill_from_keeps. rewrite nth_error_map. unfold instant in *.
    rewrite Hk0. cbn [option_map]. rewrite Hval. reflexivity. }
  assert (HFlead : forall j, (j < k0)%nat ->
                             nth_error (ffill (map (asof_from None ev) idx)) j = Some None).
  { intros j Hj.
    assert (Hjlen : (j < List.length idx)%nat).
    { assert (k0 < List.length idx)%nat
        by (apply nth_error_Some; rewrite Hk0; discriminate). lia. }
    destruct (nth_error idx j) as [tj|] eqn:Etj;
      [|apply nth_error_None in Etj; lia].
    apply (ffill_leading_absent ev idx j tj Hev Hidx Etj).
    intros e1 He1. apply (Hlead j tj e1 Hj Etj). apply sort_values_In in He1. exact He1. }
  assert (Hall : forall k, (k <= k0)%nat ->
                           nth_error (column (align_to_hourly gdp_release_df hourly_index_utc)) k
                           = Some (Some (snd e'))).
  { intros k Hk. rewrite Hcol. apply (bfill_leading _ k0); assumption. }
  assert (Hsame : snd e' = snd e).
  { rewrite (Hall k0 (Nat.le_refl _)) in Hslot. injection Hslot; auto. }
  exists e. split; [exact Hg|]. split.
  - intros k Hk. rewrite <- Hsame. apply Hall. exact Hk.
  - intros k Hk. destruct (Nat.le_gt_cases k k0) as [Hle|Hgt].
    + exists (snd e'). apply Hall. exact Hle.
    + destruct (ffill_from_after (map (asof_from None ev) idx) None k0 k (snd e'))
        as [v Hv].
      * rewrite nth_error_map. unfold instant in *.
        rewrite Hk0. cbn [option_map]. rewrite Hval. reflexivity.
      * lia.
      * rewrite length_map. exact Hk.
      * exists v. rewrite Hcol. apply bfill_keeps. exact Hv.
Qed.

Lemma gdp_safety_fill_witness :
  exists e,
    greatest_at_or_before
      (dropna_Datetime [(Some (utc 2023 3 3 13 30), 12); (Some (utc 2023 2 3 13 30), 10)])
      (utc 2023 4 1 0 0) e
    /\ (forall k, (k <= 1)%nat ->
                  nth_error
                    (column (align_to_hourly
                               [(Some (utc 2023 3 3 13 30), 12);
                                (Some (utc 2023 2 3 13 30), 10)]
                               sparse_timeline)) k
                  = Some (Some (snd e)))
    /\ (forall k, (k < List.length (sort_values Z.ltb (dropna sparse_timeline)))%nat ->
                  exists v,
                    nth_error
                      (column (align_to_hourly
                                 [(Some (utc 2023 3 3 13 30), 12);
                                  (Some (utc 2023 2 3 13 30), 10)]
                                 sparse_timeline)) k
                    = Some (Some v)).
Proof.
  apply (gdp_safety_fill [(Some (utc 2023 3 3 13 30), 12); (Some (utc 2023 2 3 13 30), 10)]
           sparse_timeline 1 (utc 2023 4 1 0 0)).
  - reflexivity.
  - exists (utc 2023 2 3 13 30, 10). split; [right; left; reflexivity|].
    vm_compute. discriminate.
  - intros j tj e Hj Hn He. destruct j as [|j]; [|lia].
    vm_compute in Hn. injection Hn as <-.
    destruct He as [<-|[<-|[]]]; vm_compute; reflexivity.
Defined.


(** ** The shape of the hourly table, row by row *)

Lemma aggregate_to_hourly_frames (df_articles : list article)
      (start_dt_utc end_dt_utc : instant) :
  aggregate_to_hourly df_articles start_dt_utc end_dt_utc
  = sort_values row_lt
      (concat (map (fun t =>
                      map (reindex_row (resample_1H (get_group df_articles t)) t)
                          (date_range_1H (floor_hour start_dt_utc)
                                         (floor_hour end_dt_utc)))
                   (group_keys df_articles))).
Proof.
  unfold aggregate_to_hourly. destruct df_articles as [|a df']; [reflexivity|].
  destruct (map _ (group_keys (a :: df'))) as [|frame frames]; reflexivity.
Qed.

Lemma reindex_row_key (h_t : list (instant * resampled)) (t : string) (h : instant) :
  row_key (reindex_row h_t t h) = (t, h).
Proof.
  unfold reindex_row. destruct (find (fun r => fst r =? h) h_t) as [[h' r]|]; reflexivity.
Qed.

Lemma In_map_sort_values {A B : Type} (f : A -> B) (lt : A -> A -> bool)
      (l : list A) (y : B) :
  In y (map f (sort_values lt l)) <-> In y (map f l).
Proof.
  rewrite !in_map_iff. split; intros [x [Hx Hin]]; exists x; split; try exact Hx;
    apply (sort_values_In lt); exact Hin.
Qed.

Lemma NoDup_map_insert_by {A B : Type} (f : A -> B) (lt : A -> A -> bool)
      (x : A) (l : list A) :
  ~ In (f x) (map f l) -> NoDup (map f l) -> NoDup (map f (insert_by lt x l)).
Proof.
  induction l as [|y l IH]; intros Hx Hnd; simpl.
  - constructor; [intros []|constructor].
  - simpl in Hx, Hnd. inversion Hnd as [|? ? Hy Hnd']; subst. destruct (lt y x); simpl.
    + constructor.
      * intros Hin. apply in_map_iff in Hin. destruct Hin as [z [Hz Hin]].
        apply insert_by_In in Hin. destruct Hin as [->|Hin].
        -- apply Hx. left. symmetry. exact Hz.
        -- apply Hy. rewrite <- Hz. apply in_map. exact Hin.
      * apply IH; [intros H; apply Hx; right; exact H|exact Hnd'].
    + constructor; [exact Hx|exact Hnd].
Qed.

Lemma NoDup_map_sort_values {A B : Type} (f : A -> B) (lt : A -> A -> bool)
      (l : list A) :
  NoDup (map f l) -> NoDup (map f (sort_values lt l)).
Proof.
  induction l as [|x l IH]; intros Hnd; simpl; [constructor|].
  simpl in Hnd. inversion Hnd as [|? ? Hx Hnd']; subst.
  apply NoDup_map_insert_by; [rewrite In_map_sort_values; exact Hx|apply IH; exact Hnd'].
Qed.

Lemma frames_keys {A : Type} (rowf : A -> instant -> hourly_row)
      (tick : A -> string) (keys : list A) (grid : list instant) :
  (forall t h, row_key (rowf t h) = (tick t, h)) ->
  map row_key (concat (map (fun t => map (rowf t) grid) keys))
  = concat (map (fun t => map (pair (tick t)) grid) keys).
Proof.
  intros Hkey. induction keys as [|t keys IH]; simpl; [reflexivity|].
  rewrite map_app, IH, map_map. f_equal. apply map_ext. intros h. apply Hkey.
Qed.

Lemma In_product (keys : list string) (grid : list instant) (t : string) (h : instant) :
  In (t, h) (concat (map (fun t => map (pair t) grid) keys))
  <-> In t keys /\ In h grid.
Proof.
  rewrite in_concat. split.
  - intros [l [Hl Hin]]. apply in_map_iff in Hl. destruct Hl as [t' [<- Ht']].
    apply in_map_iff in Hin. destruct Hin as [h' [E Hh']]. injection E as -> ->.
    auto.
  - intros [Ht Hh]. exists (map (pair t) grid). split.
    + apply in_map_iff. exists t. auto.
    + apply in_map. exact Hh.
Qed.

Lemma NoDup_product (keys : list string) (grid : list instant) :
  NoDup keys -> NoDup grid ->
  NoDup (concat (map (fun t => map (pair t) grid) keys)).
Proof.
  intros Hkeys Hgrid. induction Hkeys as [|t keys Ht Hkeys IH]; simpl; [constructor|].
  apply NoDup_app.
  - apply NoDup_map_injective; [|exact Hgrid]. intros a b H. injection H; auto.
  - exact IH.
  - intros [t' h'] Hin Hin'. apply in_map_iff in Hin. destruct Hin as [h [E _]].
    injection E as -> ->. apply In_product in Hin'. destruct Hin' as [Hin' _].
    contradiction.
Qed.

Lemma String_ltb_total (s t : string) :
  String.ltb s t = false -> String.ltb t s = false -> s = t.
Proof.
  unfold String.ltb. rewrite (String.compare_antisym s t).
  destruct (String.compare t s) eqn:E; cbn; intros H1 H2; try discriminate.
  apply String.compare_eq_iff in E. symmetry. exact E.
Qed.

Lemma row_lt_total (a b : hourly_row) :
  row_lt b a = false -> row_key a <> row_key b -> row_lt a b = true.
Proof.
  unfold row_lt, row_key. intros H Hk. apply orb_false_iff in H. destruct H as [H1 H2].
  destruct (String.ltb (row_ticker a) (row_ticker b)) eqn:E; [reflexivity|].
  cbn [orb]. pose proof (String_ltb_total _ _ E H1) as Heq.
  rewrite Heq in *. rewrite String.eqb_refl in *. cbn [andb] in *.
  apply Z.ltb_ge in H2. apply Z.ltb_lt.
  destruct (Z.eq_dec (Datetime a) (Datetime b)) as [Hd|Hd]; [|lia].
  exfalso. apply Hk. rewrite Hd. reflexivity.
Qed.

Lemma Sorted_distinct_keys {A K : Type} (R S : A -> A -> Prop) (key : A -> K)
      (l : list A) :
  (forall a b, R a b -> key a <> key b -> S a b) ->
  Sorted R l -> NoDup (map key l) -> Sorted S l.
Proof.
  intros HRS Hs. induction Hs as [|a l Hs IH Hhd]; intros Hnd; [constructor|].
  simpl in Hnd. inversion Hnd as [|? ? Ha Hnd']; subst.
  constructor; [apply IH; exact Hnd'|].
  destruct Hhd as [|b l' Hab]; constructor.
  apply HRS; [exact Hab|]. intros E. apply Ha. simpl. left. symmetry. exact E.
Qed.

(** X18. The shape of the hourly table.  It has exactly one row for every
    distinct ticker of the articles and every hour from the hour of the
    start to the hour of the end, and no other row: each such ticker and
    hour is the key of a row, no two rows have the same ticker and hour,
    and the number of rows is the number of tickers times the number of
    hours (none when the end is before the start).  The rows are in
    strictly ascending order of ticker, then hour. *)
Theorem aggregate_to_hourly_shape (df_articles : list article)
        (start_dt_utc end_dt_utc : instant) :
  List.length (aggregate_to_hourly df_articles start_dt_utc end_dt_utc)
  = (List.length (nodup string_dec (map ticker df_articles))
     * Z.to_nat ((floor_hour end_dt_utc - floor_hour start_dt_utc) / 3600 + 1))%nat
  /\ NoDup (map row_key (aggregate_to_hourly df_articles start_dt_utc end_dt_utc))
  /\ (forall t h,
         In (t, h) (map row_key (aggregate_to_hourly df_articles start_dt_utc end_dt_utc))
         <-> In t (map ticker df_articles)
             /\ floor_hour start_dt_utc <= h <= floor_hour end_dt_utc
             /\ (h - floor_hour start_dt_utc) mod 3600 = 0)
  /\ Sorted (fun a b => row_lt a b = true)
            (aggregate_to_hourly df_articles start_dt_utc end_dt_utc).
Proof.
  rewrite aggregate_to_hourly_frames.
  set (grid := date_range_1H (floor_hour start_dt_utc) (floor_hour end_dt_utc)).
  set (frames := concat (map (fun t => map (reindex_row (resample_1H
                                                          (get_group df_articles t)) t)
                                           grid)
                             (group_keys df_articles))).
  assert (Hkeys : map row_key frames
                  = concat (map (fun t => map (pair t) grid) (group_keys df_articles))).
  { apply (frames_keys (fun t => reindex_row (resample_1H (get_group df_articles t)) t)
                       (fun t => t)).
    intros t h. apply reindex_row_key. }
  assert (Hnd : NoDup (map row_key (sort_values row_lt frames))).
  { apply NoDup_map_sort_values. rewrite Hkeys.
    apply NoDup_product; [|apply date_range_1H_NoDup].
    apply sort_values_NoDup, NoDup_nodup. }
  split; [|split; [exact Hnd|split]].
  - rewrite sort_values_length. unfold frames.
    rewrite (length_concat_frames
               (fun t => reindex_row (resample_1H (get_group df_articles t)) t)).
    unfold group_keys, grid, date_range_1H.
    rewrite sort_values_length, length_map, length_seq. reflexivity.
  - intros t h. rewrite In_map_sort_values, Hkeys, In_product, group_keys_In.
    unfold grid. rewrite date_range_1H_In. reflexivity.
  - apply (Sorted_distinct_keys (fun a b => row_lt b a = false) _ row_key);
      [intros a b; apply row_lt_total| |exact Hnd].
    apply sort_values_sorted_gen. apply row_lt_asym.
Qed.
